(** * Training-run orchestrator of [backend/model_training_api.py]

    A shallow embedding of the run store, the trigger, list, lookup and
    statistics endpoints, the log/metric stream parser, the background
    training task, and the endpoints of the model versions, the metrics
    and the training schedule, with the properties of the orchestrator
    specification settled against it.

    Conventions of the embedding.
    - Python [int] is [Z]; [//] and [%] are [Z.div] and [Z.modulo] (both
      floor towards minus infinity, as in Python).
    - Python [float] values are represented by the rational they denote
      ([Q], kept reduced); rounding to binary64 is not modelled.
    - Python [str] is [string]; the model covers lines and query values
      made of ASCII characters, for which [\d] is [0-9], [\s] is
      space, \t, \n, \v, \f, \r and [upper]/[lower] act on [a-z]/[A-Z].
    - A naive UTC [datetime] is the number of microseconds since
      1970-01-01T00:00:00.
    - [Optional[T]] is [option T]; a dict is a [gmap]. *)

From Stdlib Require Import ZArith QArith Qreduction Ascii.
From stdpp Require Import base numbers option list strings pretty gmap fin_maps sorting.

Open Scope Z_scope.

(** ** Clock and time formatting *)

Definition datetime : Type := Z.

Definition second_us : Z := 1000000.

(** [int(delta.total_seconds())] for [delta = end_time - start_time]:
    truncation towards zero. *)
Definition total_seconds (start_time end_time : datetime) : Z :=
  Z.quot (end_time - start_time) second_us.

(** Proleptic Gregorian date of a day count since 1970-01-01. *)
Definition civil_from_days (days : Z) : Z * Z * Z :=
  let z := days + 719468 in
  let era := z / 146097 in
  let doe := z - era * 146097 in
  let yoe := (doe - doe / 1460 + doe / 36524 - doe / 146096) / 365 in
  let doy := doe - (365 * yoe + yoe / 4 - yoe / 100) in
  let mp := (5 * doy + 2) / 153 in
  let d := doy - (153 * mp + 2) / 5 + 1 in
  let m := if mp <? 10 then mp + 3 else mp - 9 in
  let y := yoe + era * 400 + (if m <=? 2 then 1 else 0) in
  (y, m, d).

(** Zero padding of a non-negative field to [width] digits ([%m], [%d],
    [%H], [%M], [%S] use width 2 and [%Y] width 4). *)
Fixpoint zeros (n : nat) : string :=
  match n with
  | O => EmptyString
  | S n' => "0" +:+ zeros n'
  end.

Definition pad (width : nat) (n : Z) : string :=
  let s := pretty n in
  zeros (width - String.length s) +:+ s.

(** [dt.strftime(f"%Y-%m-%d{date_sep}%H{time_sep}%M{time_sep}%S")]. *)
Definition strftime (date_sep time_sep : string) (dt : datetime) : string :=
  let secs := dt / second_us in
  let '(y, m, d) := civil_from_days (secs / 86400) in
  let sod := secs mod 86400 in
  pad 4 y +:+ "-" +:+ pad 2 m +:+ "-" +:+ pad 2 d +:+ date_sep +:+
  pad 2 (sod / 3600) +:+ time_sep +:+ pad 2 ((sod mod 3600) / 60) +:+ time_sep +:+
  pad 2 (sod mod 60).

(** [" ".join(parts)] *)
Fixpoint join (sep : string) (parts : list string) : string :=
  match parts with
  | [] => EmptyString
  | [p] => p
  | p :: ps => p +:+ sep +:+ join sep ps
  end.

(** The body of [calculate_duration] after the null check, as a function
    of [total_seconds]. *)
Definition duration_parts (total : Z) : list string :=
  let days := total / 86400 in
  let hours := (total mod 86400) / 3600 in
  let minutes := (total mod 3600) / 60 in
  (if 0 <? days then [pretty days +:+ "d"] else []) ++
  (if 0 <? hours then [pretty hours +:+ "h"] else []) ++
  (if 0 <? minutes then [pretty minutes +:+ "m"] else []).

Definition format_duration (total : Z) : string :=
  match duration_parts total with
  | [] => "0m"
  | parts => join " " parts
  end.

(** [calculate_duration(start_time, end_time)]; a [datetime] is always
    truthy, so [not end_time] holds exactly for [None]. *)
Definition calculate_duration (start_time : datetime) (end_time : option datetime)
  : option string :=
  match end_time with
  | None => None
  | Some e => Some (format_duration (total_seconds start_time e))
  end.

(** [generate_run_id(triggered_by)] at clock reading [now]. *)
Definition generate_run_id (now : datetime) (triggered_by : string) : string :=
  triggered_by +:+ "__" +:+ strftime "T" ":" now.

(** ** Text helpers: [str.upper], [str.lower], [str.capitalize] *)

Definition in_range (lo hi : N) (c : ascii) : bool :=
  let n := N_of_ascii c in ((lo <=? n) && (n <=? hi))%N.

Definition upper_ascii (c : ascii) : ascii :=
  if in_range 97 122 c then ascii_of_N (N_of_ascii c - 32) else c.

Definition lower_ascii (c : ascii) : ascii :=
  if in_range 65 90 c then ascii_of_N (N_of_ascii c + 32) else c.

Fixpoint map_string (f : ascii → ascii) (s : string) : string :=
  match s with
  | EmptyString => EmptyString
  | String c s' => String (f c) (map_string f s')
  end.

Definition upper : string → string := map_string upper_ascii.
Definition lower : string → string := map_string lower_ascii.

Definition capitalize (s : string) : string :=
  match s with
  | EmptyString => EmptyString
  | String c s' => String (upper_ascii c) (lower s')
  end.

(** ** Data model ([database.py]) *)

(** Row of [model_runs]. [status] and [triggered_by] are plain string
    columns; [end_time], [duration], [logs] and the four hyperparameters
    are nullable. *)
Record ModelRun := {
  r_id : string;
  r_run_id : string;
  r_status : string;
  r_start_time : datetime;
  r_end_time : option datetime;
  r_duration : option string;
  r_triggered_by : string;
  r_logs : option string;
  r_rank : option Z;
  r_regParam : option Q;
  r_alpha : option Q;
  r_maxIter : option Z;
  r_created_at : datetime;
  r_updated_at : datetime
}.

(** Row of [training_schedule] (the hyperparameter columns). *)
Record TrainingSchedule := {
  ts_cron_expression : string;
  ts_is_paused : bool;
  ts_rank : option Z;
  ts_regParam : option Q;
  ts_alpha : option Q;
  ts_maxIter : option Z
}.

(** Row of [model_versions]. *)
Record ModelVersion := {
  mv_id : Z;
  mv_project_id : option Z;
  mv_version_tag : string;
  mv_artifact_path : string;
  mv_isActive : bool;
  mv_created_at : datetime
}.

(** Row of [metrics]. *)
Record Metric := {
  m_id : Z;
  m_model_version_id : Z;
  m_metric_name : string;
  m_metric_value : Q;
  m_timestamp : datetime
}.

(** The committed content of the database, tables in row order. *)
Record Database := {
  model_runs : list ModelRun;
  training_schedule : list TrainingSchedule;
  model_versions : list ModelVersion;
  metrics : list Metric
}.

Inductive TriggerType := MANUAL | SCHEDULED.

(** [TriggerType.value] *)
Definition TriggerType_value (t : TriggerType) : string :=
  match t with
  | MANUAL => "manual"
  | SCHEDULED => "scheduled"
  end.

(** A run is active (non-terminal) when [status in ("running", "queued")]. *)
Definition is_active (r : ModelRun) : bool :=
  bool_decide (r_status r ∈ ["running"; "queued"]).

Definition active_runs (db : Database) : list ModelRun :=
  filter (λ r, is_active r = true) (model_runs db).

(** ** Request body of the trigger endpoint ([ModelRunCreate]) *)

(** A field of the JSON body: left out, sent as [null], or sent with a
    value. *)
Inductive json_field (A : Type) : Type :=
  | Absent
  | Null
  | Value (a : A).
Arguments Absent {A}.
Arguments Null {A}.
Arguments Value {A} a.

Record TriggerBody := {
  body_triggered_by : TriggerType;
  body_rank : json_field Z;
  body_regParam : json_field Q;
  body_alpha : json_field Q;
  body_maxIter : json_field Z
}.

(** The validated request object. *)
Record ModelRunCreate := {
  triggered_by : TriggerType;
  rank : option Z;
  regParam : option Q;
  alpha : option Q;
  maxIter : option Z
}.

(** [Optional[T] = Field(d, ...)]: a field left out takes the declared
    default [d]; an explicit [null] stays [None]. *)
Definition Field {A : Type} (d : A) (f : json_field A) : option A :=
  match f with
  | Absent => Some d
  | Null => None
  | Value a => Some a
  end.

(** Construction of [ModelRunCreate] from the body, with the defaults the
    class declares: [rank = Field(10)], [regParam = Field(0.01)],
    [alpha = Field(1.0)], [maxIter = Field(10)]. *)
Definition ModelRunCreate_of_body (b : TriggerBody) : ModelRunCreate :=
  {| triggered_by := body_triggered_by b;
     rank := Field 10 (body_rank b);
     regParam := Field (1 # 100)%Q (body_regParam b);
     alpha := Field (1 # 1)%Q (body_alpha b);
     maxIter := Field 10 (body_maxIter b) |}.

(** ** Hyperparameter resolution ([trigger_manual_run], lines 399-418) *)

(** [x if x is not None else y] *)
Definition if_not_None {A : Type} (x y : option A) : option A :=
  match x with
  | Some a => Some a
  | None => y
  end.

(** [x or d] on an optional [int]: [None] and [0] are falsy. *)
Definition or_int (x : option Z) (d : Z) : Z :=
  match x with
  | Some v => if v =? 0 then d else v
  | None => d
  end.

(** [x or d] on an optional [float]: [None] and [0.0] are falsy. *)
Definition or_float (x : option Q) (d : Q) : Q :=
  match x with
  | Some v => if Qeq_bool v 0 then d else v
  | None => d
  end.

Record Hyperparameters := {
  h_rank : Z;
  h_regParam : Q;
  h_alpha : Q;
  h_maxIter : Z
}.

(** [schedule] is [db.query(TrainingSchedule).first()]. *)
Definition resolve_hyperparameters (request : ModelRunCreate)
    (schedule : option TrainingSchedule) : Hyperparameters :=
  let '(rank1, regParam1, alpha1, maxIter1) :=
    match triggered_by request, schedule with
    | SCHEDULED, Some sch =>
        (if_not_None (rank request) (ts_rank sch),
         if_not_None (regParam request) (ts_regParam sch),
         if_not_None (alpha request) (ts_alpha sch),
         if_not_None (maxIter request) (ts_maxIter sch))
    | _, _ => (rank request, regParam request, alpha request, maxIter request)
    end in
  {| h_rank := or_int rank1 10;
     h_regParam := or_float regParam1 (1 # 100)%Q;
     h_alpha := or_float alpha1 (1 # 1)%Q;
     h_maxIter := or_int maxIter1 10 |}.

(** ** List endpoint ([get_all_model_runs]) *)

Inductive HTTPException :=
  | HTTPError (status_code : Z) (code message : string)
  | RequestValidationError.

Record ModelRunListResponse := {
  data : list ModelRun;
  pg_page : Z;
  pg_limit : Z;
  pg_total : Z;
  pg_total_pages : Z
}.

Inductive SortDirection := Asc | Desc.

(** Lines 284-291: the [order_by] that is applied. *)
Definition sort_direction (sort order : string) : SortDirection :=
  if bool_decide (sort = "start_time") then
    if bool_decide (upper order = "ASC") then Asc else Desc
  else Desc.

Definition start_time_le (a b : ModelRun) : Prop := r_start_time a ≤ r_start_time b.
Definition start_time_ge (a b : ModelRun) : Prop := r_start_time b ≤ r_start_time a.

#[global] Instance start_time_le_dec a b : Decision (start_time_le a b).
Proof. unfold start_time_le. apply _. Defined.
#[global] Instance start_time_ge_dec a b : Decision (start_time_ge a b).
Proof. unfold start_time_ge. apply _. Defined.

(** [query.order_by(ModelRun.start_time.asc())] / [.desc()]; the order
    among rows with equal start times is whatever the sort leaves. *)
Definition order_by (d : SortDirection) (rows : list ModelRun) : list ModelRun :=
  match d with
  | Asc => merge_sort start_time_le rows
  | Desc => merge_sort start_time_ge rows
  end.

(** A string filter is applied when it is truthy (not [None], not empty). *)
Definition truthy_str (s : option string) : option string :=
  match s with
  | Some v => if bool_decide (v = EmptyString) then None else Some v
  | None => None
  end.

Definition status_whitelist : list string := ["success"; "failed"; "running"; "queued"].
Definition triggered_by_whitelist : list string := ["manual"; "scheduled"].

Definition invalid_status : HTTPException :=
  HTTPError 400 "VALIDATION_ERROR"
    "Invalid status value. Must be one of: success, failed, running, queued".

Definition invalid_triggered_by : HTTPException :=
  HTTPError 400 "VALIDATION_ERROR"
    "Invalid triggered_by value. Must be one of: manual, scheduled".

(** Lines 257-282: validation and filtering. *)
Definition apply_filters (status triggered_by : option string) (rows : list ModelRun)
  : HTTPException + list ModelRun :=
  match
    match truthy_str status with
    | Some st =>
        if bool_decide (st ∈ status_whitelist)
        then inr (filter (λ r, r_status r = st) rows)
        else inl invalid_status
    | None => inr rows
    end
  with
  | inl e => inl e
  | inr rows1 =>
      match truthy_str triggered_by with
      | Some tb =>
          if bool_decide (tb ∈ triggered_by_whitelist)
          then inr (filter (λ r, r_triggered_by r = tb) rows1)
          else inl invalid_triggered_by
      | None => inr rows1
      end
  end.

(** [math.ceil(total / limit) if total > 0 else 0] for [limit >= 1]. *)
Definition total_pages (total limit : Z) : Z :=
  if 0 <? total then (total + limit - 1) / limit else 0.

(** The endpoint; [page >= 1] and [1 <= limit <= 100] are enforced by the
    declared [Query] constraints before the body runs. The response
    carries the fields of each selected row. *)
Definition get_all_model_runs (status triggered_by : option string)
    (page limit : Z) (sort order : string) (db : Database)
  : HTTPException + ModelRunListResponse :=
  if negb ((1 <=? page) && (1 <=? limit) && (limit <=? 100)) then inl RequestValidationError
  else
    match apply_filters status triggered_by (model_runs db) with
    | inl e => inl e
    | inr rows =>
        let sorted := order_by (sort_direction sort order) rows in
        let total := Z.of_nat (length sorted) in
        let offset := (page - 1) * limit in
        inr {| data := take (Z.to_nat limit) (drop (Z.to_nat offset) sorted);
               pg_page := page;
               pg_limit := limit;
               pg_total := total;
               pg_total_pages := total_pages total limit |}
    end.

(** ** Log/metric stream parser ([run_training_task], lines 642-676) *)

Definition is_digit (c : ascii) : bool := in_range 48 57 c.

(** The class [[\d.]] *)
Definition is_num_char (c : ascii) : bool :=
  is_digit c || bool_decide (c = "."%char).

(** The class [\s] *)
Definition is_space (c : ascii) : bool :=
  in_range 9 13 c || bool_decide (c = " "%char).

(** Longest prefix of characters in a class, and the rest. *)
Fixpoint span (p : ascii → bool) (s : string) : string * string :=
  match s with
  | EmptyString => (EmptyString, EmptyString)
  | String c s' =>
      if p c then let '(a, b) := span p s' in (String c a, b)
      else (EmptyString, s)
  end.

(** Match of a literal at the start of [s]; returns what follows. *)
Fixpoint lit (pre s : string) : option string :=
  match pre, s with
  | EmptyString, _ => Some s
  | String a pre', String b s' => if bool_decide (a = b) then lit pre' s' else None
  | String _ _, EmptyString => None
  end.

(** [(C+)] for a character class [C]. A greedy group needs no
    backtracking in the two patterns below: every group is followed by a
    character outside its class, or by the end of the pattern. *)
Definition plus (p : ascii → bool) (s : string) : option (string * string) :=
  let '(g, rest) := span p s in
  match g with
  | EmptyString => None
  | _ => Some (g, rest)
  end.

(** [C*], dropping the matched text. *)
Definition star (p : ascii → bool) (s : string) : string := (span p s).2.

(** [re.search]: the leftmost position at which the anchored match
    succeeds. *)
Fixpoint search {A : Type} (m : string → option A) (s : string) : option A :=
  match m s with
  | Some r => Some r
  | None =>
      match s with
      | EmptyString => None
      | String _ s' => search m s'
      end
  end.

(** The seven groups of
    [METRIC\|k=(\d+)\|precision=([\d.]+)\|recall=([\d.]+)\|map=([\d.]+)\|ndcg=([\d.]+)\|coverage=([\d.]+)\|hitRate=([\d.]+)]
    matched at the start of [s]. *)
Definition metric_re (s : string) : option (list string) :=
  s ← lit "METRIC|k=" s;
  '(k, s) ← plus is_digit s;
  s ← lit "|precision=" s;
  '(g2, s) ← plus is_num_char s;
  s ← lit "|recall=" s;
  '(g3, s) ← plus is_num_char s;
  s ← lit "|map=" s;
  '(g4, s) ← plus is_num_char s;
  s ← lit "|ndcg=" s;
  '(g5, s) ← plus is_num_char s;
  s ← lit "|coverage=" s;
  '(g6, s) ← plus is_num_char s;
  s ← lit "|hitRate=" s;
  '(g7, _) ← plus is_num_char s;
  Some [k; g2; g3; g4; g5; g6; g7].

(** The group of [NDCG@10\s*=\s*([\d.]+)] matched at the start of [s]. *)
Definition ndcg_re (s : string) : option string :=
  s ← lit "NDCG@10" s;
  s ← lit "=" (star is_space s);
  '(g, _) ← plus is_num_char (star is_space s);
  Some g.

Definition digit_value (c : ascii) : Z := Z.of_N (N_of_ascii c) - 48.

Fixpoint digits_value (acc : Z) (s : string) : Z :=
  match s with
  | EmptyString => acc
  | String c s' => digits_value (10 * acc + digit_value c) s'
  end.

(** [int(g)] for a group matched by [\d+]. *)
Definition int_of_string (g : string) : Z := digits_value 0 g.

(** [float(g)] for a group matched by [[\d.]+]: digits with at most one
    point and at least one digit; anything else raises [ValueError]
    ([None]). *)
Definition float_of_string (g : string) : option Q :=
  let '(ip, rest) := span is_digit g in
  match rest with
  | EmptyString =>
      match ip with
      | EmptyString => None
      | _ => Some (inject_Z (int_of_string ip))
      end
  | String c fp =>
      if bool_decide (c = "."%char) then
        let '(fd, rest') := span is_digit fp in
        match rest', (ip +:+ fd) with
        | EmptyString, String _ _ =>
            Some (Qred (Qmake (int_of_string (ip +:+ fd))
                              (Z.to_pos (10 ^ Z.of_nat (String.length fd)))))
        | _, _ => None
        end
      else None
  end.

(** The dict written by a structured line. *)
Definition metric_entry (precision recall map_score ndcg coverage hit_rate : Q)
  : gmap string Q :=
  <["precision" := precision]> (<["recall" := recall]> (<["map" := map_score]>
  (<["ndcg" := ndcg]> (<["coverage" := coverage]> (<["hitRate" := hit_rate]> ∅))))).

(** The conversions of lines 646-652; [None] when one of them raises. *)
Definition convert_metric (groups : list string) : option (Z * gmap string Q) :=
  match groups with
  | [g1; g2; g3; g4; g5; g6; g7] =>
      let k := int_of_string g1 in
      precision ← float_of_string g2;
      recall ← float_of_string g3;
      map_score ← float_of_string g4;
      ndcg ← float_of_string g5;
      coverage ← float_of_string g6;
      hit_rate ← float_of_string g7;
      Some (k, metric_entry precision recall map_score ndcg coverage hit_rate)
  | _ => None
  end.

(** A line in the structured format: the pattern is found and all seven
    groups convert. *)
Definition parse_structured (line : string) : option (Z * gmap string Q) :=
  search metric_re line ≫= convert_metric.

(** A line in the legacy format: the pattern is found and its group
    converts. *)
Definition parse_legacy (line : string) : option Q :=
  search ndcg_re line ≫= float_of_string.

(** Parser state across the read loop: the local [ndcg_value] and the
    dict [extracted_metrics]. *)
Record ParserState := {
  ndcg_value : option Q;
  extracted_metrics : gmap Z (gmap string Q)
}.

Definition parser_init : ParserState :=
  {| ndcg_value := None; extracted_metrics := ∅ |}.

(** Lines 643-663. *)
Definition structured_update (em : gmap Z (gmap string Q)) (line : string)
  : gmap Z (gmap string Q) :=
  match parse_structured line with
  | Some (k, entry) => <[k := entry]> em
  | None => em
  end.

(** Lines 671-674, for a converted legacy value [v]. *)
Definition record_legacy (em : gmap Z (gmap string Q)) (v : Q) : gmap Z (gmap string Q) :=
  let em1 := match em !! 10 with
             | None => <[10 := ∅]> em
             | Some _ => em
             end in
  let entry := default ∅ (em1 !! 10) in
  match entry !! "ndcg" with
  | None => <[10 := <["ndcg" := v]> entry]> em1
  | Some _ => em1
  end.

(** Lines 642-676 for one non-empty line. *)
Definition parse_line (st : ParserState) (line : string) : ParserState :=
  let em := structured_update (extracted_metrics st) line in
  match parse_legacy line with
  | Some v => {| ndcg_value := Some v; extracted_metrics := record_legacy em v |}
  | None => {| ndcg_value := ndcg_value st; extracted_metrics := em |}
  end.

Definition parse_lines (st : ParserState) (lines : list string) : ParserState :=
  foldl parse_line st lines.


(** ** Environment, store and commits *)

(** A raised exception: its class and [str(e)]. *)
Inductive Exception := Exc (cls msg : string).

Definition exc_str (e : Exception) : string :=
  match e with
  | Exc _ msg => msg
  end.

Inductive Result (A : Type) : Type :=
  | Ok (a : A)
  | Raise (e : Exception).
Arguments Ok {A} a.
Arguments Raise {A} e.

(** What the code reads from outside: the successive readings of
    [datetime.utcnow()], and for each [db.commit()] in program order
    whether the database refuses it (lock, I/O failure) and with which
    message. *)
Record Env := {
  clock : nat → datetime;
  db_fault : nat → option string
}.

(** The store with the counters of clock readings and commits, and the
    committed states it has gone through, newest first. *)
Record World := {
  w_db : Database;
  w_tick : nat;
  w_commits : nat;
  w_trace : list Database
}.

Definition set_model_runs (db : Database) (runs : list ModelRun) : Database :=
  {| model_runs := runs;
     training_schedule := training_schedule db;
     model_versions := model_versions db;
     metrics := metrics db |}.

(** [datetime.utcnow()] *)
Definition utcnow (env : Env) (w : World) : datetime * World :=
  (clock env (w_tick w),
   {| w_db := w_db w; w_tick := S (w_tick w);
      w_commits := w_commits w; w_trace := w_trace w |}).

(** [db.commit()] flushing the pending changes [flush]: it fails when the
    database refuses it or when the flush violates a constraint, and
    then leaves the committed state as it was. *)
Definition commit (env : Env) (flush : Database → Exception + Database) (w : World)
  : Result unit * World :=
  let failed := {| w_db := w_db w; w_tick := w_tick w;
                   w_commits := S (w_commits w); w_trace := w_trace w |} in
  match db_fault env (w_commits w) with
  | Some msg => (Raise (Exc "OperationalError" msg), failed)
  | None =>
      match flush (w_db w) with
      | inl e => (Raise e, failed)
      | inr db' =>
          (Ok (), {| w_db := db'; w_tick := w_tick w;
                     w_commits := S (w_commits w); w_trace := db' :: w_trace w |})
      end
  end.

(** ** Trigger endpoint ([trigger_manual_run]) *)

Definition preempt_notice : string :=
  String "010" "⚠️ Run cancelled: A new run was triggered." +:+ String "010" EmptyString.

(** Lines 389-394 on one active run, with the two clock readings. The
    column [start_time] is not nullable and a datetime is never falsy,
    so the test [if existing_run.start_time] always passes. *)
Definition preempt_run (r : ModelRun) (end_time updated_at : datetime) : ModelRun :=
  {| r_id := r_id r;
     r_run_id := r_run_id r;
     r_status := "cancelled";
     r_start_time := r_start_time r;
     r_end_time := Some end_time;
     r_duration := calculate_duration (r_start_time r) (Some end_time);
     r_triggered_by := r_triggered_by r;
     r_logs := Some (default EmptyString (r_logs r) +:+ preempt_notice);
     r_rank := r_rank r;
     r_regParam := r_regParam r;
     r_alpha := r_alpha r;
     r_maxIter := r_maxIter r;
     r_created_at := r_created_at r;
     r_updated_at := updated_at |}.

(** The loop of lines 388-394 over the table: every run whose status is
    in ("running", "queued") is pre-empted, reading the clock twice. *)
Fixpoint cancel_existing (env : Env) (t : nat) (runs : list ModelRun)
  : list ModelRun * nat :=
  match runs with
  | [] => ([], t)
  | r :: rs =>
      if is_active r then
        let '(rs', t') := cancel_existing env (S (S t)) rs in
        (preempt_run r (clock env t) (clock env (S t)) :: rs', t')
      else
        let '(rs', t') := cancel_existing env t rs in
        (r :: rs', t')
  end.

(** [db.query(ModelRun).filter(ModelRun.run_id == run_id).first()] is
    not [None]. *)
Definition run_id_exists (db : Database) (run_id : string) : bool :=
  bool_decide (run_id ∈ r_run_id <$> model_runs db).

(** The loop of lines 428-431, [while existing_run and counter < 100],
    with an iteration bound [fuel]. *)
Fixpoint collision_loop (db : Database) (base_run_id : string) (fuel : nat)
    (counter : Z) (run_id : string) (existing_run : bool) : string :=
  match fuel with
  | O => run_id
  | S fuel' =>
      if existing_run && (counter <? 100) then
        let run_id' := base_run_id +:+ "_" +:+ pretty counter in
        collision_loop db base_run_id fuel' (counter + 1) run_id' (run_id_exists db run_id')
      else run_id
  end.

(** Lines 421-431: the alias given to the new run. The loop leaves after
    at most 99 rounds, so the bound 100 is never what stops it. *)
Definition resolve_run_id (db : Database) (run_id : string) : string :=
  if run_id_exists db run_id
  then collision_loop db run_id 100 1 run_id true
  else run_id.

(** The flush of [db.add(new_run)]: [id] is the primary key and [run_id]
    is declared [unique=True]. *)
Definition insert_run (new_run : ModelRun) (db : Database) : Exception + Database :=
  if bool_decide (r_id new_run ∈ r_id <$> model_runs db) then
    inl (Exc "IntegrityError" "UNIQUE constraint failed: model_runs.id")
  else if run_id_exists db (r_run_id new_run) then
    inl (Exc "IntegrityError" "UNIQUE constraint failed: model_runs.run_id")
  else inr (set_model_runs db (model_runs db ++ [new_run])).

(** Lines 434-447: the row of the new run. *)
Definition new_model_run (uuid run_id : string) (start_time : datetime)
    (triggered_by : string) (hp : Hyperparameters) (created_at updated_at : datetime)
  : ModelRun :=
  {| r_id := uuid;
     r_run_id := run_id;
     r_status := "queued";
     r_start_time := start_time;
     r_end_time := None;
     r_duration := None;
     r_triggered_by := triggered_by;
     r_logs := None;
     r_rank := Some (h_rank hp);
     r_regParam := Some (h_regParam hp);
     r_alpha := Some (h_alpha hp);
     r_maxIter := Some (h_maxIter hp);
     r_created_at := created_at;
     r_updated_at := updated_at |}.

(** The endpoint. [uuid] is the value of [str(uuid.uuid4())]. It answers
    with the created run and the arguments handed to the background
    task. The endpoint has no suspension point, so no other request
    runs in between. The column defaults [created_at] and [updated_at]
    read the clock when the row is flushed. *)
Definition trigger_manual_run (env : Env) (uuid : string) (request : ModelRunCreate)
    (w : World) : Result (ModelRun * Hyperparameters) * World :=
  let '(cancelled, w1) :=
    if bool_decide (active_runs (w_db w) = []) then (Ok (), w)
    else
      let '(runs', t') := cancel_existing env (w_tick w) (model_runs (w_db w)) in
      commit env (λ db, inr (set_model_runs db runs'))
        {| w_db := w_db w; w_tick := t'; w_commits := w_commits w; w_trace := w_trace w |} in
  match cancelled with
  | Raise e => (Raise e, w1)
  | Ok _ =>
      let hp := resolve_hyperparameters request (head (training_schedule (w_db w1))) in
      let '(now, w2) := utcnow env w1 in
      let run_id :=
        resolve_run_id (w_db w2) (generate_run_id now (TriggerType_value (triggered_by request))) in
      let '(start_time, w3) := utcnow env w2 in
      let '(created_at, w4) := utcnow env w3 in
      let '(updated_at, w5) := utcnow env w4 in
      let new_run :=
        new_model_run uuid run_id start_time (TriggerType_value (triggered_by request)) hp
          created_at updated_at in
      match commit env (insert_run new_run) w5 with
      | (Raise e, w6) => (Raise e, w6)
      | (Ok _, w6) => (Ok (new_run, hp), w6)
      end
  end.

(** The five values of [RunStatus]. *)
Definition run_states : list string :=
  ["queued"; "running"; "success"; "failed"; "cancelled"].

(** What the trigger does to a stored run [r], giving [r']: an active run
    is cancelled with a non-null end time, the duration computed from its
    start and that end time, and the pre-emption notice appended to its
    log; any other run is left as it is. *)
Definition preempted (r r' : ModelRun) : Prop :=
  if is_active r then
    r_id r' = r_id r ∧ r_run_id r' = r_run_id r ∧ r_start_time r' = r_start_time r
    ∧ r_status r' = "cancelled"
    ∧ (∃ e d, r_end_time r' = Some e ∧ r_duration r' = Some d
              ∧ calculate_duration (r_start_time r) (Some e) = Some d)
    ∧ r_logs r' = Some (default EmptyString (r_logs r) +:+ preempt_notice)
  else r' = r.

(** A store state in which at most one run is queued or running. *)
Definition single_active (db : Database) : Prop :=
  (length (active_runs db) ≤ 1)%nat.

(** ** Sample inputs used to evaluate the code *)

(** A clock that starts on 2025-11-04T15:01:01 and advances by a quarter
    of a second per reading, and a database that refuses no commit. *)
Definition sample_env : Env :=
  {| clock := λ n, 1762268461000000 + Z.of_nat n * 250000;
     db_fault := λ _, None |}.

Definition sample_run (uuid run_id status : string) : ModelRun :=
  {| r_id := uuid;
     r_run_id := run_id;
     r_status := status;
     r_start_time := 1762268400000000;
     r_end_time := None;
     r_duration := None;
     r_triggered_by := "manual";
     r_logs := None;
     r_rank := Some 10;
     r_regParam := Some (1 # 100)%Q;
     r_alpha := Some (1 # 1)%Q;
     r_maxIter := Some 10;
     r_created_at := 1762268400000000;
     r_updated_at := 1762268400000000 |}.

Definition sample_world (runs : list ModelRun) : World :=
  {| w_db := {| model_runs := runs; training_schedule := [];
                model_versions := []; metrics := [] |};
     w_tick := 0; w_commits := 0; w_trace := [] |}.

Definition manual_request : ModelRunCreate :=
  ModelRunCreate_of_body
    {| body_triggered_by := MANUAL; body_rank := Absent; body_regParam := Absent;
       body_alpha := Absent; body_maxIter := Absent |}.

(** One hundred finished runs that hold the alias of a manual trigger at
    the first reading of [sample_env]'s clock and its suffixed forms
    [_1] to [_99]. *)
Definition crowded_runs : list ModelRun :=
  let base := generate_run_id (clock sample_env 0) "manual" in
  sample_run "run-0" base "success"
  :: ((λ k, sample_run ("run-" +:+ pretty k) (base +:+ "_" +:+ pretty k) "success")
        <$> seqZ 1 99).

(** ** The session of the background task

    [run_training_task] works on its own [SessionLocal()] (created with
    [autoflush=False]) and on one [ModelRun] object, [run]. The session
    behaves as SQLAlchemy's does:
    - assigning an attribute keeps the value in memory until the next
      flush;
    - [db.commit()] flushes the pending assignments and added objects,
      and expires the object, so the next read of an attribute loads the
      row again;
    - [db.refresh(run)] drops the pending assignments of [run] and loads
      the row;
    - [db.rollback()] drops everything pending and expires the object;
    - a commit that fails drops everything pending as well and leaves the
      session unusable until [db.rollback()]: every statement it is asked
      to send in between raises. *)

Record Session := {
  s_invalid : bool;
  s_loaded : option ModelRun;
  s_status : option string;
  s_end_time : option (option datetime);
  s_duration : option (option string);
  s_logs : option (option string);
  s_version : option (string * string);
  s_version_id : option Z;
  s_metrics : list (Z * string * Q)
}.

Definition session_init : Session :=
  {| s_invalid := false; s_loaded := None; s_status := None; s_end_time := None;
     s_duration := None; s_logs := None; s_version := None; s_version_id := None;
     s_metrics := [] |}.

(** Everything pending dropped and the object expired. *)
Definition session_expired (invalid : bool) (s : Session) : Session :=
  {| s_invalid := invalid; s_loaded := None; s_status := None; s_end_time := None;
     s_duration := None; s_logs := None; s_version := None;
     s_version_id := s_version_id s; s_metrics := [] |}.

Record TaskState := {
  t_world : World;
  t_session : Session
}.

(** How a block of the task ends: with a value, with a raised exception,
    or with the function's [return]. *)
Inductive Outcome (A : Type) : Type :=
  | Val (a : A)
  | Exn (e : Exception)
  | Return.
Arguments Val {A} a.
Arguments Exn {A} e.
Arguments Return {A}.

Definition M (A : Type) : Type := TaskState → Outcome A * TaskState.

#[global] Instance M_ret : MRet M := λ A a ts, (Val a, ts).

#[global] Instance M_bind : MBind M := λ A B f m ts,
  match m ts with
  | (Val a, ts') => f a ts'
  | (Exn e, ts') => (Exn e, ts')
  | (Return, ts') => (Return, ts')
  end.

Definition raise {A : Type} (e : Exception) : M A := λ ts, (Exn e, ts).

(** [return] of the function *)
Definition early_return {A : Type} : M A := λ ts, (Return, ts).

(** [try: body / except Exception as e: handler e] *)
Definition try_except {A : Type} (body : M A) (handler : Exception → M A) : M A :=
  λ ts,
    match body ts with
    | (Exn e, ts') => handler e ts'
    | r => r
    end.

Definition get_session : M Session := λ ts, (Val (t_session ts), ts).

Definition put_session (s : Session) : M unit :=
  λ ts, (Val (), {| t_world := t_world ts; t_session := s |}).

Definition PendingRollbackError : Exception :=
  Exc "PendingRollbackError"
    "This Session's transaction has been rolled back due to a previous exception during flush.".

Definition find_run (run_id : string) (db : Database) : option ModelRun :=
  head (filter (λ r, r_id r = run_id) (model_runs db)).

(** SQLite gives a new row of an [Integer] primary key the largest id in
    the table plus one. *)
Definition next_id (ids : list Z) : Z := 1 + foldr Z.max 0 ids.

Definition nl : string := String "010" EmptyString.

Definition rule60 : string :=
  "============================================================".

(** The pending assignments of [s] written to the row [r]; the column
    [updated_at] takes the clock reading [now] ([onupdate]). *)
Definition apply_changes (s : Session) (now : datetime) (r : ModelRun) : ModelRun :=
  {| r_id := r_id r;
     r_run_id := r_run_id r;
     r_status := default (r_status r) (s_status s);
     r_start_time := r_start_time r;
     r_end_time := default (r_end_time r) (s_end_time s);
     r_duration := default (r_duration r) (s_duration s);
     r_triggered_by := r_triggered_by r;
     r_logs := default (r_logs r) (s_logs s);
     r_rank := r_rank r;
     r_regParam := r_regParam r;
     r_alpha := r_alpha r;
     r_maxIter := r_maxIter r;
     r_created_at := r_created_at r;
     r_updated_at := now |}.

Definition run_dirty (s : Session) : bool :=
  bool_decide (is_Some (s_status s) ∨ is_Some (s_end_time s)
               ∨ is_Some (s_duration s) ∨ is_Some (s_logs s)).

(** [ModelVersion(version_tag=..., artifact_path=..., project_id=1)] as
    inserted: [isActive] takes its default [False], [created_at] the
    clock reading. *)
Definition insert_version (v : string * string) (now : datetime) (db : Database)
  : Database :=
  {| model_runs := model_runs db;
     training_schedule := training_schedule db;
     model_versions :=
       model_versions db ++
       [ {| mv_id := next_id (mv_id <$> model_versions db);
            mv_project_id := Some 1;
            mv_version_tag := v.1;
            mv_artifact_path := v.2;
            mv_isActive := false;
            mv_created_at := now |} ];
     metrics := metrics db |}.

Fixpoint insert_metrics (env : Env) (t : nat) (rows : list (Z * string * Q))
    (db : Database) : Database :=
  match rows with
  | [] => db
  | (vid, name, value) :: rows' =>
      insert_metrics env (S t) rows'
        {| model_runs := model_runs db;
           training_schedule := training_schedule db;
           model_versions := model_versions db;
           metrics :=
             metrics db ++
             [ {| m_id := next_id (m_id <$> metrics db);
                  m_model_version_id := vid;
                  m_metric_name := name;
                  m_metric_value := value;
                  m_timestamp := clock env t |} ] |}
  end.

(** The flush of the session at clock tick [t]: the update of [run] when
    it has pending assignments, then the inserts. *)
Definition flush_session (env : Env) (run_id : string) (s : Session) (t : nat)
    (db : Database) : Database :=
  let db1 :=
    if run_dirty s then
      set_model_runs db
        ((λ r, if bool_decide (r_id r = run_id) then apply_changes s (clock env t) r else r)
           <$> model_runs db)
    else db in
  let db2 :=
    match s_version s with
    | Some v => insert_version v (clock env (S t)) db1
    | None => db1
    end in
  insert_metrics env (S (S t)) (s_metrics s) db2.

(** What is served while the task is suspended at an [await]: nothing, or
    another request to the trigger endpoint (the handler up to its
    response; the background task it schedules for the new run is not
    started in between). *)
Inductive Interleaving :=
  | Quiet
  | Trigger (uuid : string) (request : ModelRunCreate).

(** One round of the read loop: what is served while [readline] is
    awaited, what [readline] gives (the decoded line, or an exception),
    and what is served at the [asyncio.sleep(0)] the round may end with. *)
Inductive ReadResult :=
  | Line (text : string)
  | ReadError (e : Exception).

Record ReadStep := {
  during_read : Interleaving;
  read : ReadResult;
  at_yield : Interleaving
}.

(** How the child process reacts when the cancellation paths terminate
    it (lines 592-608). *)
Inductive Termination :=
  | AlreadyExited
  | ExitsOnTerminate
  | ExitsOnKill
  | SurvivesKill
  | TerminateRaises (e : Exception)
  | KillRaises (e : Exception).

(** Everything the task meets outside its own code. *)
Record TaskScript := {
  python_executable : string;
  train_script_path : string;
  script_exists : bool;
  at_spawn : Interleaving;
  spawn_error : option Exception;
  reads : list ReadStep;
  at_eof : Interleaving;
  at_wait : Interleaving;
  wait_result : Exception + Z;
  termination : Termination;
  remaining_output : list string;
  float_str : Q → string;
  float_4f : Q → string;
  format_exc : Exception → string
}.

(** [s.rstrip('\n\r')] *)
Fixpoint rstrip_newlines (s : string) : string :=
  match s with
  | EmptyString => EmptyString
  | String c s' =>
      match rstrip_newlines s' with
      | EmptyString =>
          if bool_decide (c = "010"%char ∨ c = "013"%char) then EmptyString
          else String c EmptyString
      | rest => String c rest
      end
  end.

Definition metric_types : list string :=
  ["precision"; "recall"; "map"; "ndcg"; "coverage"; "hitRate"].

(** The [Metric] objects of lines 772-786 for the version [vid]. The
    cutoffs are visited in the order of the map's listing. *)
Definition metric_rows (vid : Z) (em : gmap Z (gmap string Q)) : list (Z * string * Q) :=
  '(k, entry) ← map_to_list em;
  metric_type ← metric_types;
  match entry !! metric_type with
  | Some value => [(vid, capitalize metric_type +:+ "@" +:+ pretty k, value)]
  | None => []
  end.

(** ** The background task ([run_training_task]) *)

Section Task.
Context (env : Env) (sc : TaskScript).
(** The arguments: [run_id] is the primary key of the run. *)
Context (run_id : string) (hp : Hyperparameters).

(** [datetime.utcnow()] *)
Definition now : M datetime := λ ts,
  let '(t, w) := utcnow env (t_world ts) in
  (Val t, {| t_world := w; t_session := t_session ts |}).

(** The attributes of [run], loading the row when the object is
    expired. *)
Definition load : M ModelRun := λ ts,
  let s := t_session ts in
  match s_loaded s with
  | Some r => (Val r, ts)
  | None =>
      if s_invalid s then (Exn PendingRollbackError, ts)
      else
        match find_run run_id (w_db (t_world ts)) with
        | None => (Exn (Exc "ObjectDeletedError" "Instance has been deleted"), ts)
        | Some r =>
            (Val r,
             {| t_world := t_world ts;
                t_session :=
                  {| s_invalid := s_invalid s; s_loaded := Some r;
                     s_status := s_status s; s_end_time := s_end_time s;
                     s_duration := s_duration s; s_logs := s_logs s;
                     s_version := s_version s; s_version_id := s_version_id s;
                     s_metrics := s_metrics s |} |})
        end
  end.

(** [run.status], [run.logs], [run.start_time] *)
Definition read_status : M string :=
  s ← get_session;
  match s_status s with
  | Some v => mret v
  | None => r ← load; mret (r_status r)
  end.

Definition read_logs : M (option string) :=
  s ← get_session;
  match s_logs s with
  | Some v => mret v
  | None => r ← load; mret (r_logs r)
  end.

Definition read_start_time : M datetime := r ← load; mret (r_start_time r).

(** [run.status = v], [run.logs = v], [run.end_time = v],
    [run.duration = v] *)
Definition assign_status (v : string) : M unit :=
  s ← get_session;
  put_session
    {| s_invalid := s_invalid s; s_loaded := s_loaded s; s_status := Some v;
       s_end_time := s_end_time s; s_duration := s_duration s; s_logs := s_logs s;
       s_version := s_version s; s_version_id := s_version_id s;
       s_metrics := s_metrics s |}.

Definition assign_logs (v : option string) : M unit :=
  s ← get_session;
  put_session
    {| s_invalid := s_invalid s; s_loaded := s_loaded s; s_status := s_status s;
       s_end_time := s_end_time s; s_duration := s_duration s; s_logs := Some v;
       s_version := s_version s; s_version_id := s_version_id s;
       s_metrics := s_metrics s |}.

Definition assign_end_time (v : option datetime) : M unit :=
  s ← get_session;
  put_session
    {| s_invalid := s_invalid s; s_loaded := s_loaded s; s_status := s_status s;
       s_end_time := Some v; s_duration := s_duration s; s_logs := s_logs s;
       s_version := s_version s; s_version_id := s_version_id s;
       s_metrics := s_metrics s |}.

Definition assign_duration (v : option string) : M unit :=
  s ← get_session;
  put_session
    {| s_invalid := s_invalid s; s_loaded := s_loaded s; s_status := s_status s;
       s_end_time := s_end_time s; s_duration := Some v; s_logs := s_logs s;
       s_version := s_version s; s_version_id := s_version_id s;
       s_metrics := s_metrics s |}.

(** [run.logs += text]; on a null log the [+=] raises. *)
Definition append_logs (text : string) : M unit :=
  l ← read_logs;
  match l with
  | Some old => assign_logs (Some (old +:+ text))
  | None => raise (Exc "TypeError" "unsupported operand type(s) for +=: 'NoneType' and 'str'")
  end.

(** [run.end_time = datetime.utcnow()] followed by
    [run.duration = calculate_duration(run.start_time, run.end_time)] *)
Definition stamp_end : M unit :=
  t ← now;
  assign_end_time (Some t);;
  start ← read_start_time;
  assign_duration (calculate_duration start (Some t)).

(** [db.query(ModelRun).filter(ModelRun.id == run_id).first()], giving
    whether a row was found; the attributes of an expired object are
    filled from the row. *)
Definition query_run : M bool := λ ts,
  let s := t_session ts in
  if s_invalid s then (Exn PendingRollbackError, ts)
  else
    match find_run run_id (w_db (t_world ts)) with
    | None => (Val false, ts)
    | Some r =>
        (Val true,
         {| t_world := t_world ts;
            t_session :=
              {| s_invalid := s_invalid s;
                 s_loaded := Some (default r (s_loaded s));
                 s_status := s_status s; s_end_time := s_end_time s;
                 s_duration := s_duration s; s_logs := s_logs s;
                 s_version := s_version s; s_version_id := s_version_id s;
                 s_metrics := s_metrics s |} |})
    end.

(** [db.refresh(run)] *)
Definition db_refresh : M unit := λ ts,
  let s := t_session ts in
  if s_invalid s then (Exn PendingRollbackError, ts)
  else
    match find_run run_id (w_db (t_world ts)) with
    | None => (Exn (Exc "InvalidRequestError" "Could not refresh instance"), ts)
    | Some r =>
        (Val (),
         {| t_world := t_world ts;
            t_session :=
              {| s_invalid := s_invalid s; s_loaded := Some r;
                 s_status := None; s_end_time := None;
                 s_duration := None; s_logs := None;
                 s_version := s_version s; s_version_id := s_version_id s;
                 s_metrics := s_metrics s |} |})
    end.

(** [db.add(model_version)] and [db.add(metric)] *)
Definition db_add_version (version_tag artifact_path : string) : M unit :=
  s ← get_session;
  put_session
    {| s_invalid := s_invalid s; s_loaded := s_loaded s; s_status := s_status s;
       s_end_time := s_end_time s; s_duration := s_duration s; s_logs := s_logs s;
       s_version := Some (version_tag, artifact_path); s_version_id := s_version_id s;
       s_metrics := s_metrics s |}.

Definition db_add_metrics (rows : list (Z * string * Q)) : M unit :=
  s ← get_session;
  put_session
    {| s_invalid := s_invalid s; s_loaded := s_loaded s; s_status := s_status s;
       s_end_time := s_end_time s; s_duration := s_duration s; s_logs := s_logs s;
       s_version := s_version s; s_version_id := s_version_id s;
       s_metrics := s_metrics s ++ rows |}.

(** [model_version.id], known once the version has been flushed. *)
Definition read_version_id : M Z :=
  s ← get_session;
  if s_invalid s then raise PendingRollbackError
  else
    match s_version_id s with
    | Some vid => mret vid
    | None => raise (Exc "AttributeError" "model_version has no id")
    end.

(** [db.commit()] *)
Definition db_commit : M unit := λ ts,
  let s := t_session ts in
  let w := t_world ts in
  if s_invalid s then (Exn PendingRollbackError, ts)
  else
    let ticks := (2 + length (s_metrics s))%nat in
    let w0 := {| w_db := w_db w; w_tick := (w_tick w + ticks)%nat;
                 w_commits := w_commits w; w_trace := w_trace w |} in
    match commit env (λ db, inr (flush_session env run_id s (w_tick w) db)) w0 with
    | (Ok _, w') =>
        let vid :=
          match s_version s with
          | Some _ => Some (next_id (mv_id <$> model_versions (w_db w)))
          | None => s_version_id s
          end in
        (Val (),
         {| t_world := w';
            t_session :=
              {| s_invalid := false; s_loaded := None; s_status := None;
                 s_end_time := None; s_duration := None; s_logs := None;
                 s_version := None; s_version_id := vid; s_metrics := [] |} |})
    | (Raise e, w') =>
        (Exn e, {| t_world := w'; t_session := session_expired true s |})
    end.

(** [db.rollback()] *)
Definition db_rollback : M unit :=
  s ← get_session; put_session (session_expired false s).

(** Another request served while the task is suspended. *)
Definition interleave (i : Interleaving) : M unit := λ ts,
  match i with
  | Quiet => (Val (), ts)
  | Trigger uuid request =>
      (Val (),
       {| t_world := (trigger_manual_run env uuid request (t_world ts)).2;
          t_session := t_session ts |})
  end.

Definition hyperparameters_line : string :=
  "Hyperparameters: rank=" +:+ pretty (h_rank hp) +:+
  ", regParam=" +:+ float_str sc (h_regParam hp) +:+
  ", alpha=" +:+ float_str sc (h_alpha hp) +:+
  ", maxIter=" +:+ pretty (h_maxIter hp) +:+ nl.

Definition forcing_kill_notice : string :=
  "⚠️ Process did not terminate gracefully, forcing kill..." +:+ nl.

(** Lines 592-608 (and 698-711): terminate, wait, kill, wait. *)
Definition terminate_process : M unit :=
  try_except
    match termination sc with
    | AlreadyExited => mret ()
    | ExitsOnTerminate => mret ()
    | ExitsOnKill => append_logs forcing_kill_notice
    | SurvivesKill =>
        append_logs forcing_kill_notice;;
        append_logs ("⚠️ Warning: Process may still be running after kill attempt" +:+ nl)
    | TerminateRaises e => raise e
    | KillRaises e => append_logs forcing_kill_notice;; raise e
    end
    (λ term_error,
       append_logs ("⚠️ Error during process termination: " +:+ exc_str term_error +:+ nl)).

Definition terminated_notice : string :=
  "⚠️ Training process terminated due to cancellation." +:+ nl.

(** Lines 587-625: cancellation seen at the top of the loop. *)
Definition cancel_during_training : M unit :=
  append_logs (nl +:+ "⚠️ Run was cancelled during training, terminating process..." +:+ nl);;
  db_commit;;
  terminate_process;;
  append_logs terminated_notice;;
  stamp_end;;
  assign_status "cancelled";;
  db_commit;;
  early_return.

(** Lines 695-726: cancellation seen after the loop. *)
Definition cancel_after_loop : M unit :=
  append_logs (nl +:+ "⚠️ Run was cancelled, terminating process..." +:+ nl);;
  terminate_process;;
  append_logs terminated_notice;;
  stamp_end;;
  db_commit;;
  early_return.

(** The read loop (lines 584-691) over the rounds the process gives;
    when they are used up [readline] gives the end of the stream, as
    it does in a round that reads nothing ([if not line_bytes: break]).
    [n] is [len(output_lines)]. *)
Fixpoint read_loop (steps : list ReadStep) (n : nat) (st : ParserState)
  : M ParserState :=
  db_refresh;;
  status ← read_status;
  if bool_decide (status = "cancelled") then cancel_during_training;; mret st
  else
    match steps with
    | [] => interleave (at_eof sc);; mret st
    | step :: steps' =>
        interleave (during_read step);;
        match read step with
        | ReadError e => raise e
        | Line text =>
            if bool_decide (text = EmptyString) then mret st
            else
            let line := rstrip_newlines text in
            if bool_decide (line = EmptyString) then read_loop steps' n st
            else
              append_logs (line +:+ nl);;
              let st' := parse_line st line in
              db_refresh;;
              status ← read_status;
              if bool_decide (status = "cancelled") then mret st'
              else
                db_commit;;
                (if bool_decide ((Z.of_nat (S n)) mod 5 = 0)
                 then interleave (at_yield step) else mret ());;
                read_loop steps' (S n) st'
        end
    end.

(** Lines 768-795: the metric rows of the new version. *)
Definition save_metrics (em : gmap Z (gmap string Q)) : M unit :=
  if bool_decide (em = ∅) then
    append_logs ("⚠️ Warning: No metrics extracted from training logs" +:+ nl)
  else
    try_except
      (vid ← read_version_id;
       let rows := metric_rows vid em in
       db_add_metrics rows;;
       db_commit;;
       append_logs ("✓ Saved " +:+ pretty (length rows) +:+ " metrics to database" +:+ nl))
      (λ metric_error,
         append_logs ("⚠️ Warning: Failed to save metrics to database: "
                      +:+ exc_str metric_error +:+ nl);;
         db_rollback).

(** Lines 747-799: the version of a successful run. *)
Definition save_model_version (version_tag : string) (em : gmap Z (gmap string Q))
  : M unit :=
  try_except
    (let model_path := "models/als_model_" +:+ version_tag in
     db_add_version version_tag model_path;;
     append_logs hyperparameters_line;;
     append_logs ("✓ Model version saved to database: " +:+ version_tag +:+ nl);;
     append_logs ("  Model path: " +:+ model_path +:+ nl);;
     db_commit;;
     save_metrics em)
    (λ e,
       append_logs ("⚠️ Warning: Failed to save model version to database: "
                    +:+ exc_str e +:+ nl);;
       db_rollback).

(** Lines 728-803: the exit code of the process decides. *)
Definition finish (version_tag : string) (st : ParserState) : M unit :=
  interleave (at_wait sc);;
  match wait_result sc with
  | inl e => raise e
  | inr return_code =>
      append_logs (nl +:+ rule60 +:+ nl);;
      append_logs ("Training process completed with return code: "
                   +:+ pretty return_code +:+ nl);;
      append_logs (rule60 +:+ nl);;
      stamp_end;;
      if bool_decide (return_code = 0) then
        assign_status "success";;
        append_logs (nl +:+ "✓ Model training completed successfully." +:+ nl);;
        match ndcg_value st with
        | Some v => append_logs ("Validation NDCG@10: " +:+ float_4f sc v +:+ nl)
        | None => mret ()
        end;;
        save_model_version version_tag (extracted_metrics st)
      else
        assign_status "failed";;
        append_logs (nl +:+ "❌ Model training failed with return code "
                     +:+ pretty return_code +:+ "." +:+ nl);;
        append_logs ("Check the logs above for error details." +:+ nl)
  end.

(** Lines 583-803: the body of the inner [try]. *)
Definition supervise (version_tag : string) : M unit :=
  st ← read_loop (reads sc) 0 parser_init;
  db_refresh;;
  status ← read_status;
  if bool_decide (status = "cancelled") then cancel_after_loop
  else finish version_tag st.

(** Lines 804-856: the handler of the inner [try]. The clean-up of
    the process touches the log only through the drained output, and
    an exception while appending it is passed over. *)
Definition on_process_error (proc_error : Exception) : M unit :=
  db_refresh;;
  status ← read_status;
  (if bool_decide (status ≠ "cancelled") then assign_status "failed" else mret ());;
  stamp_end;;
  append_logs (nl +:+ "❌ Error executing training script: " +:+ exc_str proc_error +:+ nl);;
  try_except
    (match remaining_output sc with
     | [] => mret ()
     | lines => append_logs (nl +:+ "Remaining output:" +:+ nl +:+ join nl lines +:+ nl)
     end)
    (λ _, mret ()).

Definition command_string (version_tag : string) : string :=
  join " " [python_executable sc; train_script_path sc;
            "--rank"; pretty (h_rank hp);
            "--regParam"; float_str sc (h_regParam hp);
            "--alpha"; float_str sc (h_alpha hp);
            "--maxIter"; pretty (h_maxIter hp);
            "--versionTag"; version_tag].

(** Lines 510-858: the body of the outer [try]. *)
Definition task_body : M unit :=
  found ← query_run;
  if negb found then early_return
  else
    status ← read_status;
    if bool_decide (status = "cancelled") then early_return
    else
      assign_status "running";;
      assign_logs (Some ("Training started..." +:+ nl));;
      append_logs hyperparameters_line;;
      db_commit;;
      (if script_exists sc then mret ()
       else raise (Exc "FileNotFoundError"
                     ("Training script not found at: " +:+ train_script_path sc +:+ nl +:+
                      "Please ensure train_model.py exists in the same directory as model_training_api.py")));;
      t ← now;
      let version_tag := strftime "_" "-" t in
      append_logs (nl +:+ rule60 +:+ nl);;
      append_logs ("Executing command:" +:+ nl +:+ command_string version_tag +:+ nl);;
      append_logs (rule60 +:+ nl);;
      db_commit;;
      interleave (at_spawn sc);;
      match spawn_error sc with
      | Some e => raise e
      | None =>
          try_except (supervise version_tag) on_process_error;;
          db_commit
      end.

(** Lines 860-888: the handler of the outer [try]. *)
Definition on_fatal_error (e : Exception) : M unit :=
  found ← query_run;
  if negb found then mret ()
  else
    status ← read_status;
    (if bool_decide (status ≠ "cancelled") then assign_status "failed" else mret ());;
    stamp_end;;
    l ← read_logs;
    assign_logs (Some (default EmptyString l +:+ nl +:+ "❌ Fatal Error: " +:+ exc_str e +:+ nl +:+ nl
                       +:+ "Traceback:" +:+ nl +:+ format_exc sc e +:+ nl));;
    db_commit.

(** The task on a fresh session. It gives how the function ended
    ([Val] and [Return] are its normal ends, [Exn] an exception that
    escaped it) and the world it leaves. *)
Definition run_training_task (w : World) : Outcome unit * World :=
  let '(r, ts) :=
    try_except task_body on_fatal_error {| t_world := w; t_session := session_init |} in
  (r, t_world ts).

End Task.

(** The entry of [output_lines] a round of the loop contributes: the
    stripped line when it is not empty. *)
Definition step_line (step : ReadStep) : option string :=
  match read step with
  | Line text =>
      let line := rstrip_newlines text in
      if bool_decide (line = EmptyString) then None else Some line
  | ReadError _ => None
  end.

(** [output_lines] when the loop has gone through all of [steps]. *)
Definition output_lines (steps : list ReadStep) : list string := omap step_line steps.

(** A round in which no other request is served and a line is read
    (some bytes, so that the stream has not ended). *)
Definition quiet_step (step : ReadStep) : Prop :=
  during_read step = Quiet ∧ at_yield step = Quiet
  ∧ ∃ text, read step = Line text ∧ text ≠ EmptyString.

(** A script in which nothing is served while the task is suspended, the
    training script is found, the process starts and every round reads a
    line. *)
Definition undisturbed (sc : TaskScript) : Prop :=
  script_exists sc = true ∧ spawn_error sc = None
  ∧ at_spawn sc = Quiet ∧ at_eof sc = Quiet ∧ at_wait sc = Quiet
  ∧ Forall quiet_step (reads sc).

(** The metric names of a full entry of cutoff [k]. *)
Definition metric_names (k : Z) : list string :=
  (λ name, name +:+ "@" +:+ pretty k)
    <$> ["Precision"; "Recall"; "Map"; "Ndcg"; "Coverage"; "Hitrate"].

(** A script in which nothing else is served: the process prints [lines]
    and then ends as [waited] tells. *)
Definition sample_script (lines : list string) (waited : Exception + Z) : TaskScript :=
  {| python_executable := "/usr/bin/python3";
     train_script_path := "/app/backend/train_model.py";
     script_exists := true;
     at_spawn := Quiet;
     spawn_error := None;
     reads := (λ text, {| during_read := Quiet; read := Line (text +:+ nl);
                          at_yield := Quiet |}) <$> lines;
     at_eof := Quiet;
     at_wait := Quiet;
     wait_result := waited;
     termination := ExitsOnTerminate;
     remaining_output := [];
     float_str := λ q, pretty (Qnum q) +:+ "/" +:+ pretty (Zpos (Qden q));
     float_4f := λ q, pretty (Qnum q) +:+ "/" +:+ pretty (Zpos (Qden q));
     format_exc := λ e, "Traceback (most recent call last): " +:+ exc_str e |}.

Definition sample_hyperparameters : Hyperparameters :=
  {| h_rank := 10; h_regParam := (1 # 100)%Q; h_alpha := (1 # 1)%Q; h_maxIter := 10 |}.

Definition two_metric_lines : list string :=
  ["Iteration 1 done";
   "METRIC|k=10|precision=0.50|recall=0.40|map=0.30|ndcg=0.60|coverage=0.90|hitRate=0.70";
   "METRIC|k=20|precision=0.45|recall=0.55|map=0.35|ndcg=0.65|coverage=0.95|hitRate=0.80"].

(** As [sample_script] with another trigger request served while the
    task awaits the exit of the process. *)
Definition preempted_at_wait_script (lines : list string) (waited : Exception + Z)
  : TaskScript :=
  let sc := sample_script lines waited in
  {| python_executable := python_executable sc;
     train_script_path := train_script_path sc;
     script_exists := true;
     at_spawn := Quiet;
     spawn_error := None;
     reads := reads sc;
     at_eof := Quiet;
     at_wait := Trigger "run-new" manual_request;
     wait_result := waited;
     termination := ExitsOnTerminate;
     remaining_output := [];
     float_str := float_str sc;
     float_4f := float_4f sc;
     format_exc := format_exc sc |}.

(** As [sample_script] with a first read that raises, another trigger
    request being served while that read is awaited. *)
Definition preempted_read_error_script : TaskScript :=
  let sc := sample_script [] (inr 0) in
  {| python_executable := python_executable sc;
     train_script_path := train_script_path sc;
     script_exists := true;
     at_spawn := Quiet;
     spawn_error := None;
     reads := [ {| during_read := Trigger "run-new" manual_request;
                   read := ReadError (Exc "OSError" "broken pipe");
                   at_yield := Quiet |} ];
     at_eof := Quiet;
     at_wait := Quiet;
     wait_result := inr 0;
     termination := ExitsOnTerminate;
     remaining_output := [];
     float_str := float_str sc;
     float_4f := float_4f sc;
     format_exc := format_exc sc |}.

(** [sample_env] with a database that refuses the commit number [n]. *)
Definition faulty_env (n : nat) : Env :=
  {| clock := clock sample_env;
     db_fault := λ k, if (k =? n)%nat then Some "database is locked" else None |}.

(** [needle in hay] *)
Definition contains (needle hay : string) : bool :=
  bool_decide (is_Some (String.index 0 needle hay)).

(** The statuses a run has gone through in the committed states, oldest
    first. *)
Definition status_history (run_id : string) (w : World) : list (option string) :=
  (λ db, r_status <$> find_run run_id db) <$> reverse (w_trace w).

(** ** Reading the listing page by page *)

(** Whether a row passes the two filters of the listing (lines 258-282):
    a filter that is left out or empty lets every row pass. *)
Definition passes_filters (status triggered_by : option string) (r : ModelRun) : bool :=
  match truthy_str status with
  | Some st => bool_decide (r_status r = st)
  | None => true
  end
  && match truthy_str triggered_by with
     | Some tb => bool_decide (r_triggered_by r = tb)
     | None => true
     end.

(** The rows of page [p], as a client that walks the pages reads them. *)
Definition page_data (status triggered_by : option string) (limit : Z)
    (sort order : string) (db : Database) (p : Z) : list ModelRun :=
  match get_all_model_runs status triggered_by p limit sort order db with
  | inr resp => data resp
  | inl _ => []
  end.

(** The shape of an entry of [extracted_metrics]: the six metric types
    written by a structured line (lines 654-661), or the lone [ndcg]
    written for cutoff 10 by a legacy line (lines 671-674). *)
Definition recorded_shape (k : Z) (entry : gmap string Q) : Prop :=
  dom entry = list_to_set metric_types ∨ (k = 10 ∧ dom entry = {["ndcg"]}).

(** ** What training leaves alone *)

(** The columns of a run that are written when the run is created and
    that no later statement of the file assigns. *)
Definition run_identity (r : ModelRun)
  : string * string * datetime * string * (option Z * option Q * option Q * option Z)
    * datetime :=
  (r_id r, r_run_id r, r_start_time r, r_triggered_by r,
   (r_rank r, r_regParam r, r_alpha r, r_maxIter r), r_created_at r).

(** [db'] holds all that [db] holds: the same schedule; the runs of [db]
    in their order, with the columns of [run_identity] as they were,
    possibly followed by more runs; the version rows of [db] as they
    were, possibly followed by more, all of them inactive; the metric
    rows of [db] as they were, possibly followed by more. *)
Definition db_extends (db db' : Database) : Prop :=
  training_schedule db' = training_schedule db
  ∧ (∃ more, run_identity <$> model_runs db' = (run_identity <$> model_runs db) ++ more)
  ∧ (∃ added, model_versions db' = model_versions db ++ added
              ∧ Forall (λ v, mv_isActive v = false) added)
  ∧ (∃ added, metrics db' = metrics db ++ added).

(** The runs table apart, [db'] is [db]; the runs of [db] are kept as
    [db_extends] says. *)
Definition runs_only (db db' : Database) : Prop :=
  training_schedule db' = training_schedule db
  ∧ model_versions db' = model_versions db
  ∧ metrics db' = metrics db
  ∧ ∃ more, run_identity <$> model_runs db' = (run_identity <$> model_runs db) ++ more.

(** The store [w'] and every state committed on the way from [w] to it
    are related to the store of [w]. *)
Definition world_rel (R : relation Database) (w w' : World) : Prop :=
  ∃ committed,
    w_trace w' = committed ++ w_trace w
    ∧ Forall (R (w_db w)) committed
    ∧ R (w_db w) (w_db w').

Definition world_extends : World → World → Prop := world_rel db_extends.

(** A block of the task that, from any state, only extends the store. *)
Definition extending {A : Type} (m : M A) : Prop :=
  ∀ ts, world_extends (t_world ts) (t_world (m ts).2).

(** ** Model versions and metrics endpoints (lines 1178-1307) *)

Definition not_found (message : string) : HTTPException :=
  HTTPError 404 "NOT_FOUND" message.

(** [ModelVersionResponse]: the columns of a version row that are
    served ([project_id] is not). *)
Record ModelVersionResponse := {
  mvr_id : Z;
  mvr_version_tag : string;
  mvr_artifact_path : string;
  mvr_created_at : datetime;
  mvr_isActive : bool
}.

Definition ModelVersionResponse_of (v : ModelVersion) : ModelVersionResponse :=
  {| mvr_id := mv_id v;
     mvr_version_tag := mv_version_tag v;
     mvr_artifact_path := mv_artifact_path v;
     mvr_created_at := mv_created_at v;
     mvr_isActive := mv_isActive v |}.

Record ActiveModelVersionResponse := {
  amv_active_version : option ModelVersionResponse;
  amv_message : string
}.

Record MetricResponse := {
  mtr_metric_name : string;
  mtr_metric_value : Q;
  mtr_timestamp : datetime
}.

Definition MetricResponse_of (m : Metric) : MetricResponse :=
  {| mtr_metric_name := m_metric_name m;
     mtr_metric_value := m_metric_value m;
     mtr_timestamp := m_timestamp m |}.

Record MetricsResponse := {
  mrs_metrics : list MetricResponse;
  mrs_version_id : Z;
  mrs_version_tag : option string
}.

Definition created_at_ge (a b : ModelVersion) : Prop := mv_created_at b ≤ mv_created_at a.
Definition timestamp_ge (a b : Metric) : Prop := m_timestamp b ≤ m_timestamp a.

#[global] Instance created_at_ge_dec a b : Decision (created_at_ge a b).
Proof. unfold created_at_ge. apply _. Defined.
#[global] Instance timestamp_ge_dec a b : Decision (timestamp_ge a b).
Proof. unfold timestamp_ge. apply _. Defined.

(** [db.query(ModelVersion).filter(ModelVersion.id == id).first()] *)
Definition find_version (id : Z) (db : Database) : option ModelVersion :=
  head (filter (λ v, mv_id v = id) (model_versions db)).

(** [get_model_versions]: every version, newest first. *)
Definition get_model_versions (db : Database) : list ModelVersionResponse :=
  ModelVersionResponse_of <$> merge_sort created_at_ge (model_versions db).

(** [get_active_model_version]: the first row whose flag is set. *)
Definition get_active_model_version (db : Database) : ActiveModelVersionResponse :=
  match head (filter (λ v, mv_isActive v = true) (model_versions db)) with
  | Some active_version =>
      {| amv_active_version := Some (ModelVersionResponse_of active_version);
         amv_message := "Active version: " +:+ mv_version_tag active_version |}
  | None =>
      {| amv_active_version := None;
         amv_message := "No active model version configured" |}
  end.

Definition set_isActive (b : bool) (v : ModelVersion) : ModelVersion :=
  {| mv_id := mv_id v;
     mv_project_id := mv_project_id v;
     mv_version_tag := mv_version_tag v;
     mv_artifact_path := mv_artifact_path v;
     mv_isActive := b;
     mv_created_at := mv_created_at v |}.

Definition set_model_versions (db : Database) (versions : list ModelVersion) : Database :=
  {| model_runs := model_runs db;
     training_schedule := training_schedule db;
     model_versions := versions;
     metrics := metrics db |}.

(** What the transaction of [set_active_model_version] writes: the bulk
    [update({ModelVersion.isActive: False})], which is sent at once and
    also clears the flag of the loaded object, and then, at the commit,
    the update of the row of the loaded object, found by its primary
    key, whose flag has been assigned [True]. *)
Definition activate (model_version_id : Z) (db : Database) : Database :=
  let cleared := set_isActive false <$> model_versions db in
  set_model_versions db
    ((λ v, if bool_decide (mv_id v = model_version_id) then set_isActive true v else v)
       <$> cleared).

Definition version_not_found (id : Z) : HTTPException :=
  not_found ("Model version with id " +:+ pretty id +:+ " not found").

(** [set_active_model_version]. An [HTTPException] is an answer of the
    handler; [Raise] is any other exception, which leaves the handler
    (the transaction is then rolled back when the session is closed). *)
Definition set_active_model_version (env : Env) (model_version_id : Z) (w : World)
  : Result (HTTPException + ActiveModelVersionResponse) * World :=
  match find_version model_version_id (w_db w) with
  | None => (Ok (inl (version_not_found model_version_id)), w)
  | Some _ =>
      match commit env (λ db, inr (activate model_version_id db)) w with
      | (Raise e, w') => (Raise e, w')
      | (Ok _, w') =>
          match find_version model_version_id (w_db w') with
          | None =>
              (Raise (Exc "InvalidRequestError" "Could not refresh instance"), w')
          | Some model_version =>
              (Ok (inr {| amv_active_version := Some (ModelVersionResponse_of model_version);
                          amv_message := "Successfully set active version to: " +:+
                                         mv_version_tag model_version |}), w')
          end
      end
  end.

(** [get_model_metrics]: the metric rows attached to the version, newest
    first. *)
Definition get_model_metrics (version_id : Z) (db : Database)
  : HTTPException + MetricsResponse :=
  match find_version version_id db with
  | None => inl (version_not_found version_id)
  | Some model_version =>
      inr {| mrs_metrics :=
               MetricResponse_of <$>
                 merge_sort timestamp_ge
                   (filter (λ m, m_model_version_id m = version_id) (metrics db));
             mrs_version_id := version_id;
             mrs_version_tag := Some (mv_version_tag model_version) |}
  end.

Definition sample_version (id : Z) (tag : string) (active : bool) : ModelVersion :=
  {| mv_id := id;
     mv_project_id := Some 1;
     mv_version_tag := tag;
     mv_artifact_path := "models/als_model_" +:+ tag;
     mv_isActive := active;
     mv_created_at := 1762268400000000 + id |}.

Definition sample_versions_world : World :=
  {| w_db := {| model_runs := [];
                training_schedule := [];
                model_versions := [sample_version 1 "a" true; sample_version 2 "b" false;
                                   sample_version 3 "c" true];
                metrics := [ {| m_id := 1; m_model_version_id := 2;
                                m_metric_name := "Ndcg@10"; m_metric_value := (1 # 2)%Q;
                                m_timestamp := 1762268400000000 |};
                             {| m_id := 2; m_model_version_id := 7;
                                m_metric_name := "Ndcg@10"; m_metric_value := (1 # 4)%Q;
                                m_timestamp := 1762268400000001 |} ] |};
     w_tick := 0; w_commits := 0; w_trace := [] |}.

(** ** Schedule helpers (lines 157-198) *)

(** [c.isspace()] for an ASCII character: tab to carriage return, the
    four separators 28-31 and the space. *)
Definition py_isspace (c : ascii) : bool := in_range 9 13 c || in_range 28 32 c.

(** [s.strip()] *)
Fixpoint lstrip (s : string) : string :=
  match s with
  | EmptyString => EmptyString
  | String c s' => if py_isspace c then lstrip s' else s
  end.

Fixpoint rstrip (s : string) : string :=
  match s with
  | EmptyString => EmptyString
  | String c s' =>
      match rstrip s' with
      | EmptyString => if py_isspace c then EmptyString else String c EmptyString
      | rest => String c rest
      end
  end.

Definition strip (s : string) : string := lstrip (rstrip s).

(** [s.split()]: the maximal runs of characters that are not whitespace;
    [cur] is the run being read. *)
Definition flush_field (cur : string) : list string :=
  if bool_decide (cur = EmptyString) then [] else [cur].

Fixpoint split_from (cur s : string) : list string :=
  match s with
  | EmptyString => flush_field cur
  | String c s' =>
      if py_isspace c then flush_field cur ++ split_from EmptyString s'
      else split_from (cur +:+ String c EmptyString) s'
  end.

Definition split (s : string) : list string := split_from EmptyString s.

(** [validate_cron_expression]; nothing in the body raises on a [str]. *)
Definition validate_cron_expression (cron_expr : string) : bool :=
  let parts := split (strip cron_expr) in
  if bool_decide (length parts ≠ 5%nat) then false
  else if bool_decide (Exists (λ part, part = EmptyString) parts) then false
  else true.

Definition common_crons : gmap string string :=
  <["0 0 * * *" := "Daily at midnight"]>
    (<["0 0 * * 0" := "Every Sunday at midnight"]>
       (<["0 0 1 * *" := "First day of month at midnight"]>
          (<["0 */6 * * *" := "Every 6 hours"]> ∅))).

(** [get_cron_description] *)
Definition get_cron_description (cron_expr : string) : string :=
  default ("Cron: " +:+ cron_expr) (common_crons !! cron_expr).

(** [calculate_next_run]: the body is [return None]. *)
Definition calculate_next_run (cron_expr : string) : option datetime := None.

(** ** Schedule endpoints (lines 897-1072) *)

(** A row of [training_schedule] with all its columns: those of
    [TrainingSchedule], the primary key and the two timestamps. *)
Record ScheduleRow := {
  sr_id : Z;
  sr_schedule : TrainingSchedule;
  sr_created_at : datetime;
  sr_updated_at : datetime
}.

(** The table of the schedule, which is all that these endpoints read
    and write, with the counters of clock readings and commits. The
    table [training_schedule] of a [Database] holds the columns
    [sr_schedule] of these rows. *)
Record ScheduleStore := {
  ss_rows : list ScheduleRow;
  ss_tick : nat;
  ss_commits : nat
}.

Definition schedule_columns (st : ScheduleStore) : list TrainingSchedule :=
  sr_schedule <$> ss_rows st.

Record TrainingScheduleUpdate := {
  tsu_cron_expression : option string;
  tsu_is_paused : option bool;
  tsu_rank : option Z;
  tsu_regParam : option Q;
  tsu_alpha : option Q;
  tsu_maxIter : option Z
}.

Record TrainingScheduleResponse := {
  tsr_id : Z;
  tsr_schedule : TrainingSchedule;
  tsr_description : option string;
  tsr_next_run : option datetime;
  tsr_created_at : datetime;
  tsr_updated_at : datetime
}.

Definition TrainingScheduleResponse_of (schedule : ScheduleRow) : TrainingScheduleResponse :=
  {| tsr_id := sr_id schedule;
     tsr_schedule := sr_schedule schedule;
     tsr_description :=
       Some (get_cron_description (ts_cron_expression (sr_schedule schedule)));
     tsr_next_run := calculate_next_run (ts_cron_expression (sr_schedule schedule));
     tsr_created_at := sr_created_at schedule;
     tsr_updated_at := sr_updated_at schedule |}.

Definition schedule_not_configured : HTTPException :=
  HTTPError 404 "NOT_FOUND" "Schedule not configured".

Definition cron_required : HTTPException :=
  HTTPError 400 "VALIDATION_ERROR" "cron_expression is required for new schedule".

Definition invalid_cron : HTTPException :=
  HTTPError 400 "VALIDATION_ERROR"
    "Invalid cron expression. Must be 5 fields: minute hour day month weekday".

(** [get_training_schedule] *)
Definition get_training_schedule (st : ScheduleStore)
  : HTTPException + TrainingScheduleResponse :=
  match head (ss_rows st) with
  | None => inl schedule_not_configured
  | Some schedule => inr (TrainingScheduleResponse_of schedule)
  end.

#[global] Instance Q_eq_dec : EqDecision Q.
Proof. solve_decision. Defined.
#[global] Instance TrainingSchedule_eq_dec : EqDecision TrainingSchedule.
Proof. solve_decision. Defined.

(** The row that the flush of an update leaves in place of [old], and
    the clock counter after it. The columns have been assigned
    [columns] and [updated_at] the clock reading [now]; only what
    differs from the loaded value is sent, and when [updated_at] is not
    among it while another column is, the column's [onupdate] reads the
    clock. *)
Definition flushed_update (env : Env) (t : nat) (old : ScheduleRow)
    (columns : TrainingSchedule) (now : datetime) : ScheduleRow * nat :=
  if bool_decide (now ≠ sr_updated_at old) then
    ({| sr_id := sr_id old; sr_schedule := columns;
        sr_created_at := sr_created_at old; sr_updated_at := now |}, t)
  else if bool_decide (columns ≠ sr_schedule old) then
    ({| sr_id := sr_id old; sr_schedule := columns;
        sr_created_at := sr_created_at old; sr_updated_at := clock env t |}, S t)
  else (old, t).

(** [db.commit()] and [db.refresh(schedule)] and the response: [rows]
    is the table after the flush, [schedule] the row written. *)
Definition commit_schedule (env : Env) (rows : list ScheduleRow) (schedule : ScheduleRow)
    (t : nat) (st : ScheduleStore)
  : Result (HTTPException + TrainingScheduleResponse) * ScheduleStore :=
  match db_fault env (ss_commits st) with
  | Some msg =>
      (Raise (Exc "OperationalError" msg),
       {| ss_rows := ss_rows st; ss_tick := t; ss_commits := S (ss_commits st) |})
  | None =>
      (Ok (inr (TrainingScheduleResponse_of schedule)),
       {| ss_rows := rows; ss_tick := t; ss_commits := S (ss_commits st) |})
  end.

(** The update of the row with the primary key of [schedule]. *)
Definition replace_row (schedule : ScheduleRow) (rows : list ScheduleRow)
  : list ScheduleRow :=
  (λ row, if bool_decide (sr_id row = sr_id schedule) then schedule else row) <$> rows.

(** Lines 964-985: the columns after the assignments of the update. *)
Definition assigned_columns (request : TrainingScheduleUpdate) (s : TrainingSchedule)
  : TrainingSchedule :=
  {| ts_cron_expression :=
       default (ts_cron_expression s) (truthy_str (tsu_cron_expression request));
     ts_is_paused := default (ts_is_paused s) (tsu_is_paused request);
     ts_rank := if_not_None (tsu_rank request) (ts_rank s);
     ts_regParam := if_not_None (tsu_regParam request) (ts_regParam s);
     ts_alpha := if_not_None (tsu_alpha request) (ts_alpha s);
     ts_maxIter := if_not_None (tsu_maxIter request) (ts_maxIter s) |}.

(** [update_training_schedule]. A new row takes its [created_at] and
    [updated_at] from the clock when it is flushed. *)
Definition update_training_schedule (env : Env) (request : TrainingScheduleUpdate)
    (st : ScheduleStore)
  : Result (HTTPException + TrainingScheduleResponse) * ScheduleStore :=
  match head (ss_rows st) with
  | None =>
      match truthy_str (tsu_cron_expression request) with
      | None => (Ok (inl cron_required), st)
      | Some cron_expression =>
          let schedule :=
            {| sr_id := next_id (sr_id <$> ss_rows st);
               sr_schedule :=
                 {| ts_cron_expression := cron_expression;
                    ts_is_paused := default false (tsu_is_paused request);
                    ts_rank := tsu_rank request;
                    ts_regParam := tsu_regParam request;
                    ts_alpha := tsu_alpha request;
                    ts_maxIter := tsu_maxIter request |};
               sr_created_at := clock env (ss_tick st);
               sr_updated_at := clock env (S (ss_tick st)) |} in
          commit_schedule env (ss_rows st ++ [schedule]) schedule (S (S (ss_tick st))) st
      end
  | Some old =>
      if match truthy_str (tsu_cron_expression request) with
         | Some cron_expression => negb (validate_cron_expression cron_expression)
         | None => false
         end
      then (Ok (inl invalid_cron), st)
      else
        let '(schedule, t) :=
          flushed_update env (S (ss_tick st)) old (assigned_columns request (sr_schedule old))
            (clock env (ss_tick st)) in
        commit_schedule env (replace_row schedule (ss_rows st)) schedule t st
  end.

Definition with_is_paused (paused : bool) (s : TrainingSchedule) : TrainingSchedule :=
  {| ts_cron_expression := ts_cron_expression s;
     ts_is_paused := paused;
     ts_rank := ts_rank s;
     ts_regParam := ts_regParam s;
     ts_alpha := ts_alpha s;
     ts_maxIter := ts_maxIter s |}.

(** The common body of [pause_schedule] and [resume_schedule]. *)
Definition set_is_paused (env : Env) (paused : bool) (st : ScheduleStore)
  : Result (HTTPException + TrainingScheduleResponse) * ScheduleStore :=
  match head (ss_rows st) with
  | None => (Ok (inl schedule_not_configured), st)
  | Some old =>
      let '(schedule, t) :=
        flushed_update env (S (ss_tick st)) old (with_is_paused paused (sr_schedule old))
          (clock env (ss_tick st)) in
      commit_schedule env (replace_row schedule (ss_rows st)) schedule t st
  end.

(** [pause_schedule] *)
Definition pause_schedule (env : Env) : ScheduleStore →
    Result (HTTPException + TrainingScheduleResponse) * ScheduleStore :=
  set_is_paused env true.

(** [resume_schedule] *)
Definition resume_schedule (env : Env) : ScheduleStore →
    Result (HTTPException + TrainingScheduleResponse) * ScheduleStore :=
  set_is_paused env false.

Definition empty_schedule_store : ScheduleStore :=
  {| ss_rows := []; ss_tick := 0; ss_commits := 0 |}.

Definition cron_only (cron_expression : string) : TrainingScheduleUpdate :=
  {| tsu_cron_expression := Some cron_expression; tsu_is_paused := None;
     tsu_rank := None; tsu_regParam := None; tsu_alpha := None; tsu_maxIter := None |}.

Definition sample_schedule_store : ScheduleStore :=
  {| ss_rows := [ {| sr_id := 1;
                     sr_schedule := {| ts_cron_expression := "0 0 * * *";
                                       ts_is_paused := false;
                                       ts_rank := Some 20; ts_regParam := None;
                                       ts_alpha := Some (1 # 2)%Q; ts_maxIter := None |};
                     sr_created_at := 1762268400000000;
                     sr_updated_at := 1762268400000000 |} ];
     ss_tick := 0; ss_commits := 0 |}.




(** ** Run lookup and statistics endpoints (lines 336-372, 1075-1171) *)

(** [ModelRunResponse]; [hyper_parameters] is the dict of the four
    values, in the order rank, regParam, alpha, maxIter. *)
Record ModelRunResponse := {
  mrr_id : string;
  mrr_run_id : string;
  mrr_status : string;
  mrr_start_time : datetime;
  mrr_end_time : option datetime;
  mrr_duration : option string;
  mrr_triggered_by : string;
  mrr_logs : option string;
  mrr_created_at : datetime;
  mrr_updated_at : datetime;
  mrr_hyper_parameters : option (option Z * option Q * option Q * option Z)
}.

(** [repr(s)] of a string without quotes, backslashes or control
    characters. *)
Definition repr_str (s : string) : string := "'" +:+ s +:+ "'".

(** The response built from a row: [RunStatus(run.status)] and
    [TriggerType(run.triggered_by)] raise [ValueError] on a value that is
    not a member of the enum. *)
Definition ModelRunResponse_of (run : ModelRun) : Result ModelRunResponse :=
  if bool_decide (r_status run ∈ run_states) then
    if bool_decide (r_triggered_by run ∈ triggered_by_whitelist) then
      Ok {| mrr_id := r_id run;
            mrr_run_id := r_run_id run;
            mrr_status := r_status run;
            mrr_start_time := r_start_time run;
            mrr_end_time := r_end_time run;
            mrr_duration := r_duration run;
            mrr_triggered_by := r_triggered_by run;
            mrr_logs := r_logs run;
            mrr_created_at := r_created_at run;
            mrr_updated_at := r_updated_at run;
            mrr_hyper_parameters :=
              match r_rank run with
              | Some _ => Some (r_rank run, r_regParam run, r_alpha run, r_maxIter run)
              | None => None
              end |}
    else Raise (Exc "ValueError"
                  (repr_str (r_triggered_by run) +:+ " is not a valid TriggerType"))
  else Raise (Exc "ValueError" (repr_str (r_status run) +:+ " is not a valid RunStatus")).

(** [db.query(ModelRun).filter(or_(ModelRun.id == run_id,
    ModelRun.run_id == run_id)).first()], the first match in row
    order. *)
Definition find_run_by (key : string) (db : Database) : option ModelRun :=
  head (filter (λ r, r_id r = key ∨ r_run_id r = key) (model_runs db)).

Definition run_not_found (run_id : string) : HTTPException :=
  not_found ("Run with id " +:+ run_id +:+ " not found").

(** [get_single_model_run] *)
Definition get_single_model_run (run_id : string) (db : Database)
  : Result (HTTPException + ModelRunResponse) :=
  match find_run_by run_id db with
  | None => Ok (inl (run_not_found run_id))
  | Some run =>
      match ModelRunResponse_of run with
      | Ok resp => Ok (inr resp)
      | Raise e => Raise e
      end
  end.

Record RunLogs := {
  rl_run_id : string;
  rl_logs : string;
  rl_log_size : Z
}.

(** [get_run_logs]; a string is the sequence of its UTF-8 bytes, so
    [len(run.logs.encode('utf-8'))] is its length. *)
Definition get_run_logs (run_id : string) (db : Database) : HTTPException + RunLogs :=
  match find_run_by run_id db with
  | None => inl (run_not_found run_id)
  | Some run =>
      inr {| rl_run_id := r_run_id run;
             rl_logs := default EmptyString (truthy_str (r_logs run));
             rl_log_size :=
               match truthy_str (r_logs run) with
               | Some logs => Z.of_nat (String.length logs)
               | None => 0
               end |}
  end.

(** The float arithmetic of the interpreter, on the rationals that the
    floats denote: [a / b] on two [int], [x * y], [x + y] and [x / y] on
    floats, and [round(x, 2)]. *)
Record FloatOps := {
  int_truediv : Z → Z → Q;
  float_mul : Q → Q → Q;
  float_add : Q → Q → Q;
  float_div : Q → Q → Q;
  round_2 : Q → Q
}.

Record TrainingStatistics := {
  st_total_runs : Z;
  st_success_count : Z;
  st_failed_count : Z;
  st_running_count : Z;
  st_queued_count : Z;
  st_cancelled_count : Z;
  st_success_rate : Q;
  st_average_duration_minutes : option Q;
  st_last_run : option ModelRunResponse;
  st_next_scheduled_run : option datetime
}.

(** [sum(1 for r in all_runs if r.status == status)] *)
Definition count_status (status : string) (all_runs : list ModelRun) : Z :=
  Z.of_nat (length (filter (λ r, r_status r = status) all_runs)).

(** Lines 1091-1102: the average duration in minutes of the completed
    runs that have an end time. *)
Definition average_duration (fl : FloatOps) (all_runs : list ModelRun) : option Q :=
  let completed_runs :=
    filter (λ r, is_Some (truthy_str (r_duration r))
                 ∧ r_status r ∈ ["success"; "failed"]) all_runs in
  let '(total_minutes, count) :=
    foldl (λ '(total_minutes, count) run,
             match r_end_time run with
             | Some end_time =>
                 (float_add fl total_minutes
                    (float_div fl (int_truediv fl (end_time - r_start_time run) second_us)
                       60%Q),
                  count + 1)
             | None => (total_minutes, count)
             end) (0%Q, 0) completed_runs in
  if 0 <? count then Some (float_div fl total_minutes (inject_Z count)) else None.

(** [get_training_statistics] *)
Definition get_training_statistics (fl : FloatOps) (db : Database)
  : Result TrainingStatistics :=
  let all_runs := model_runs db in
  let total_runs := Z.of_nat (length all_runs) in
  let success_count := count_status "success" all_runs in
  let success_rate :=
    if 0 <? total_runs
    then float_mul fl (int_truediv fl success_count total_runs) 100%Q
    else 0%Q in
  let average_duration_minutes := average_duration fl all_runs in
  match
    match head (order_by Desc all_runs) with
    | Some last_run =>
        match ModelRunResponse_of last_run with
        | Ok resp => Ok (Some resp)
        | Raise e => Raise e
        end
    | None => Ok None
    end
  with
  | Raise e => Raise e
  | Ok last_run_response =>
      let next_scheduled_run :=
        match head (training_schedule db) with
        | Some schedule =>
            if negb (ts_is_paused schedule)
            then calculate_next_run (ts_cron_expression schedule)
            else None
        | None => None
        end in
      Ok {| st_total_runs := total_runs;
            st_success_count := success_count;
            st_failed_count := count_status "failed" all_runs;
            st_running_count := count_status "running" all_runs;
            st_queued_count := count_status "queued" all_runs;
            st_cancelled_count := count_status "cancelled" all_runs;
            st_success_rate := round_2 fl success_rate;
            st_average_duration_minutes :=
              match average_duration_minutes with
              | Some average =>
                  if Qeq_bool average 0 then None else Some (round_2 fl average)
              | None => None
              end;
            st_last_run := last_run_response;
            st_next_scheduled_run := next_scheduled_run |}
  end.

(** Exact arithmetic in place of the floats, to evaluate the code. *)
Definition exact_floats : FloatOps :=
  {| int_truediv := λ a b, Qred (inject_Z a / inject_Z b);
     float_mul := λ x y, Qred (x * y);
     float_add := λ x y, Qred (x + y);
     float_div := λ x y, Qred (x / y);
     round_2 := λ x, let y := (x * 100 + (1 # 2))%Q in
                     Qred (inject_Z (Qnum y / Z.pos (Qden y)) / 100) |}.

(** * Properties *)

Example strftime_epoch : strftime "T" ":" 0 = "1970-01-01T00:00:00".
Proof. vm_compute. reflexivity. Qed.

Example strftime_2025 :
  strftime "_" "-" (1762268461 * second_us + 999999) = "2025-11-04_15-01-01".
Proof. vm_compute. reflexivity. Qed.

Example strftime_leap : strftime "T" ":" (1709251199 * second_us) = "2024-02-29T23:59:59".
Proof. vm_compute. reflexivity. Qed.

Example parse_structured_example :
  parse_structured "METRIC|k=10|precision=0.50|recall=0.40|map=0.30|ndcg=0.60|coverage=0.90|hitRate=0.70"
  = Some (10, metric_entry (1#2)%Q (2#5)%Q (3#10)%Q (3#5)%Q (9#10)%Q (7#10)%Q).
Proof. vm_compute. reflexivity. Qed.

Example parse_structured_prefixed :
  parse_structured "[eval] METRIC|k=020|precision=1|recall=.5|map=2.|ndcg=0.25|coverage=1.0|hitRate=0.125 done"
  = Some (20, metric_entry 1%Q (1#2)%Q 2%Q (1#4)%Q 1%Q (1#8)%Q).
Proof. vm_compute. reflexivity. Qed.

Example parse_structured_malformed :
  parse_structured "METRIC|k=10|precision=0.5.1|recall=0.40|map=0.30|ndcg=0.60|coverage=0.90|hitRate=0.70"
  = None.
Proof. vm_compute. reflexivity. Qed.

Example parse_legacy_example : parse_legacy "Validation NDCG@10 =  0.61 (best)" = Some (61#100)%Q.
Proof. vm_compute. reflexivity. Qed.

Example parse_legacy_none : parse_legacy "NDCG@20 = 0.61" = None.
Proof. vm_compute. reflexivity. Qed.

(** ** Duration formatting *)






(** ** Hyperparameter resolution *)

Lemma explicit_nonzero_rank (b : TriggerBody) (sch : option TrainingSchedule) (v : Z) :
  body_rank b = Value v → v ≠ 0 →
  h_rank (resolve_hyperparameters (ModelRunCreate_of_body b) sch) = v.
Proof.
  intros Hb Hv. unfold resolve_hyperparameters, ModelRunCreate_of_body. cbn. rewrite Hb.
  destruct (body_triggered_by b), sch; cbn;
    destruct (Z.eqb_spec v 0); congruence.
Qed.

Lemma null_rank_scheduled (b : TriggerBody) (sch : TrainingSchedule) :
  body_triggered_by b = SCHEDULED → body_rank b = Null →
  h_rank (resolve_hyperparameters (ModelRunCreate_of_body b) (Some sch))
  = or_int (ts_rank sch) 10.
Proof.
  intros Ht Hb. unfold resolve_hyperparameters, ModelRunCreate_of_body. cbn.
  rewrite Ht, Hb. reflexivity.
Qed.

(** A field left out of the body never reaches the schedule tier: the
    declared default of the request class has already filled it. *)
Lemma absent_rank_is_declared_default (b : TriggerBody) (sch : option TrainingSchedule) :
  body_rank b = Absent →
  h_rank (resolve_hyperparameters (ModelRunCreate_of_body b) sch) = 10.
Proof.
  intros Hb. unfold resolve_hyperparameters, ModelRunCreate_of_body. cbn. rewrite Hb.
  destruct (body_triggered_by b), sch; reflexivity.
Qed.

(** C3 (evaluation of the code at the failing inputs). For a scheduled
    trigger whose body leaves all four hyperparameters out, with a
    schedule storing rank 50, regParam 0.5, alpha 40 and maxIter 25, the
    resolved values are the hard-coded 10, 0.01, 1.0 and 10, not the
    schedule's; and an explicitly supplied rank 0 (or maxIter 0, regParam
    0.0, alpha 0.0) of a manual trigger is replaced by the default. *)
Theorem resolve_hyperparameters_skips_tiers :
  let sch := {| ts_cron_expression := "0 0 * * *"; ts_is_paused := false;
                ts_rank := Some 50; ts_regParam := Some (1 # 2)%Q;
                ts_alpha := Some (40 # 1)%Q; ts_maxIter := Some 25 |} in
  let absent := {| body_triggered_by := SCHEDULED; body_rank := Absent;
                   body_regParam := Absent; body_alpha := Absent;
                   body_maxIter := Absent |} in
  let zeros := {| body_triggered_by := MANUAL; body_rank := Value 0;
                  body_regParam := Value (0 # 1)%Q; body_alpha := Value (0 # 1)%Q;
                  body_maxIter := Value 0 |} in
  resolve_hyperparameters (ModelRunCreate_of_body absent) (Some sch)
  = {| h_rank := 10; h_regParam := (1 # 100)%Q; h_alpha := (1 # 1)%Q; h_maxIter := 10 |}
  ∧ resolve_hyperparameters (ModelRunCreate_of_body zeros) None
  = {| h_rank := 10; h_regParam := (1 # 100)%Q; h_alpha := (1 # 1)%Q; h_maxIter := 10 |}.
Proof. split; reflexivity. Qed.

(** ** List endpoint: sorting *)

#[local] Instance start_time_le_total : Total start_time_le.
Proof. intros a b. unfold start_time_le. lia. Qed.
#[local] Instance start_time_ge_total : Total start_time_ge.
Proof. intros a b. unfold start_time_ge. lia. Qed.




Lemma order_by_sorted (d : SortDirection) (rows : list ModelRun) :
  match d with
  | Asc => Sorted start_time_le (order_by d rows)
  | Desc => Sorted start_time_ge (order_by d rows)
  end.
Proof. destruct d; cbn; apply Sorted_merge_sort; apply _. Qed.

Example order_asc_lowercase : sort_direction "start_time" "asc" = Asc.
Proof. reflexivity. Qed.
Example order_asc_mixed : sort_direction "start_time" "aSc" = Asc.
Proof. reflexivity. Qed.
Example order_invalid : sort_direction "start_time" "ascending" = Desc.
Proof. reflexivity. Qed.
Example sort_other_field : sort_direction "end_time" "ASC" = Desc.
Proof. reflexivity. Qed.



(** ** List endpoint: the status filter *)

Lemma order_by_Permutation (d : SortDirection) (rows : list ModelRun) :
  order_by d rows ≡ₚ rows.
Proof. destruct d; cbn; apply merge_sort_Permutation. Qed.

Lemma page_subseteq {A} (n k : nat) (l : list A) : take n (drop k l) ⊆ l.
Proof. etrans; [apply subseteq_take | apply subseteq_drop]. Qed.




(** ** Stream parser *)

Lemma metric_entry_ndcg (p r m n c h : Q) : metric_entry p r m n c h !! "ndcg" = Some n.
Proof. unfold metric_entry. by simplify_map_eq. Qed.

Lemma convert_metric_ndcg (groups : list string) (k : Z) (e : gmap string Q) :
  convert_metric groups = Some (k, e) → is_Some (e !! "ndcg").
Proof.
  unfold convert_metric.
  do 8 (destruct groups as [|? groups]; try discriminate).
  intros H. simplify_option_eq. rewrite metric_entry_ndcg. eauto.
Qed.

Lemma parse_structured_ndcg (line : string) (k : Z) (e : gmap string Q) :
  parse_structured line = Some (k, e) → is_Some (e !! "ndcg").
Proof.
  unfold parse_structured. intros H.
  destruct (search metric_re line) as [groups|]; [|discriminate].
  cbn in H. by eapply convert_metric_ndcg.
Qed.

Lemma record_legacy_populated (em : gmap Z (gmap string Q)) (v : Q) (m : gmap string Q) :
  em !! 10 = Some m → is_Some (m !! "ndcg") → record_legacy em v = em.
Proof.
  intros Hm [n Hn]. unfold record_legacy. rewrite !Hm. simpl. by rewrite Hn.
Qed.

Lemma record_legacy_other (em : gmap Z (gmap string Q)) (v : Q) (k : Z) :
  k ≠ 10 → record_legacy em v !! k = em !! k.
Proof.
  intros Hk. unfold record_legacy.
  destruct (em !! 10) as [m|] eqn:Hm.
  - rewrite !Hm. simpl. destruct (m !! "ndcg"); [done|]. by rewrite lookup_insert_ne.
  - rewrite !lookup_insert_eq. simpl. rewrite lookup_empty.
    by rewrite !lookup_insert_ne.
Qed.








Example legacy_creates_entry :
  extracted_metrics (parse_lines parser_init ["NDCG@10 = 0.61"])
  = {[ 10 := {[ "ndcg" := (61 # 100)%Q ]} ]}.
Proof. vm_compute. reflexivity. Qed.

Example legacy_first_occurrence_wins :
  extracted_metrics (parse_lines parser_init ["NDCG@10 = 0.61"; "NDCG@10 = 0.99"])
  = {[ 10 := {[ "ndcg" := (61 # 100)%Q ]} ]}.
Proof. vm_compute. reflexivity. Qed.

(** ** Trigger: pre-emption and the single active run *)

Lemma preempt_run_not_active (r : ModelRun) (e u : datetime) :
  is_active (preempt_run r e u) = false.
Proof. reflexivity. Qed.

Lemma cancel_existing_spec (env : Env) (runs : list ModelRun) (t : nat) :
  Forall2 preempted runs (cancel_existing env t runs).1
  ∧ Forall (λ r, is_active r = false) (cancel_existing env t runs).1.
Proof.
  revert t. induction runs as [|r rs IH]; intros t; cbn; [by split; constructor|].
  destruct (is_active r) eqn:Hr.
  - specialize (IH (S (S t))). destruct (cancel_existing env (S (S t)) rs) as [rs' t'].
    cbn in *. destruct IH as [IH1 IH2]. split; constructor; try done.
    unfold preempted. rewrite Hr. cbn. repeat split; eauto.
  - specialize (IH t). destruct (cancel_existing env t rs) as [rs' t'].
    cbn in *. destruct IH as [IH1 IH2]. split; constructor; try done.
    unfold preempted. by rewrite Hr.
Qed.

Lemma active_runs_none (db : Database) :
  Forall (λ r, is_active r = false) (model_runs db) → active_runs db = [].
Proof.
  unfold active_runs. induction 1 as [|r rs Hr _ IH]; [done|].
  rewrite filter_cons_False; [done|]. congruence.
Qed.

Lemma none_active_unchanged (runs : list ModelRun) :
  filter (λ r, is_active r = true) runs = [] →
  Forall2 preempted runs runs ∧ Forall (λ r, is_active r = false) runs.
Proof.
  induction runs as [|r rs IH]; intros Hf; [by split; constructor|].
  rewrite filter_cons in Hf. destruct (decide (is_active r = true)) as [Hr|Hr]; [done|].
  apply not_true_is_false in Hr. destruct (IH Hf) as [IH1 IH2].
  split; constructor; try done. unfold preempted. by rewrite Hr.
Qed.

Lemma active_runs_snoc (db : Database) (runs : list ModelRun) (new_run : ModelRun) :
  Forall (λ r, is_active r = false) runs → is_active new_run = true →
  active_runs (set_model_runs db (runs ++ [new_run])) = [new_run].
Proof.
  intros Hruns Hnew. unfold active_runs. cbn. rewrite filter_app.
  pose proof (active_runs_none (set_model_runs db runs) Hruns) as Hn.
  unfold active_runs in Hn. cbn in Hn. rewrite Hn.
  by rewrite filter_cons_True.
Qed.

(** C1. Whatever the store holds when the trigger is called: every store
    state the call commits has at most one queued or running run; when
    the call completes, the stored runs are the earlier ones, each active
    one pre-empted (status cancelled, non-null end time, computed
    duration, notice appended to the log), followed by the new run, which
    is queued and is the only active run; and when there was an active
    run, the pre-emption was committed as a state of its own, without the
    new run, before the state that holds the new run. *)
Theorem trigger_single_active
    (env : Env) (uuid : string) (request : ModelRunCreate) (w w' : World)
    (res : Result (ModelRun * Hyperparameters)) :
  trigger_manual_run env uuid request w = (res, w') →
  ∃ committed,
    w_trace w' = committed ++ w_trace w
    ∧ Forall single_active committed
    ∧ w_db w' = default (w_db w) (head committed)
    ∧ ∀ new_run hp, res = Ok (new_run, hp) →
        r_status new_run = "queued"
        ∧ active_runs (w_db w') = [new_run]
        ∧ ∃ runs',
            model_runs (w_db w') = runs' ++ [new_run]
            ∧ Forall2 preempted (model_runs (w_db w)) runs'
            ∧ (active_runs (w_db w) = [] → committed = [w_db w'])
            ∧ (active_runs (w_db w) ≠ [] →
               committed = [w_db w'; set_model_runs (w_db w) runs']).
Proof.
  unfold trigger_manual_run.
  pose proof (cancel_existing_spec env (model_runs (w_db w)) (w_tick w)) as [Hpre Hnone].
  destruct (cancel_existing env (w_tick w) (model_runs (w_db w))) as [runs' t'].
  cbn [fst] in Hpre, Hnone.
  case_bool_decide as Hact.
  - (* no active run: only the insert is committed *)
    destruct (none_active_unchanged _ Hact) as [Hsame Hnone0].
    cbn. unfold commit. cbn.
    destruct (db_fault env (w_commits w)) as [msg|].
    { intros [= <- <-]. exists []. cbn. repeat split; try done. }
    set (new_run := new_model_run _ _ _ _ _ _ _).
    unfold insert_run.
    destruct (bool_decide (r_id new_run ∈ _)).
    { intros [= <- <-]. exists []. cbn. repeat split; try done. }
    destruct (run_id_exists _ _).
    { intros [= <- <-]. exists []. cbn. repeat split; try done. }
    intros [= <- <-]. cbn.
    exists [set_model_runs (w_db w) (model_runs (w_db w) ++ [new_run])].
    assert (Ha : active_runs (set_model_runs (w_db w) (model_runs (w_db w) ++ [new_run]))
                 = [new_run]) by (apply active_runs_snoc; [done | reflexivity]).
    split; [done|]. split.
    { constructor; [|done]. unfold single_active. by rewrite Ha. }
    split; [done|]. intros nr hp [= <- <-].
    split; [done|]. split; [done|].
    exists (model_runs (w_db w)). by repeat split.
  - (* active runs: the pre-emption is committed first *)
    unfold commit at 1. cbn.
    destruct (db_fault env (w_commits w)) as [msg|].
    { intros [= <- <-]. exists []. cbn. repeat split; try done. }
    cbn. unfold commit. cbn.
    assert (Hmid : single_active (set_model_runs (w_db w) runs')).
    { unfold single_active. rewrite active_runs_none; [cbn; lia | done]. }
    destruct (db_fault env (S (w_commits w))) as [msg|].
    { intros [= <- <-]. exists [set_model_runs (w_db w) runs']. cbn.
      repeat split; try done. by constructor. }
    set (new_run := new_model_run _ _ _ _ _ _ _).
    unfold insert_run.
    destruct (bool_decide (r_id new_run ∈ _)).
    { intros [= <- <-]. exists [set_model_runs (w_db w) runs']. cbn.
      repeat split; try done. by constructor. }
    destruct (run_id_exists _ _).
    { intros [= <- <-]. exists [set_model_runs (w_db w) runs']. cbn.
      repeat split; try done. by constructor. }
    intros [= <- <-]. cbn.
    set (mid := set_model_runs (w_db w) runs') in *.
    exists [set_model_runs mid (runs' ++ [new_run]); mid].
    assert (Ha : active_runs (set_model_runs mid (runs' ++ [new_run])) = [new_run])
      by (apply active_runs_snoc; [done | reflexivity]).
    split; [done|]. split.
    { constructor; [|by constructor]. unfold single_active. by rewrite Ha. }
    split; [done|]. intros nr hp [= <- <-].
    split; [done|]. split; [done|].
    exists runs'. by repeat split.
Qed.

Lemma trigger_single_active_witness :
  ∃ committed,
    w_trace (trigger_manual_run sample_env "run-new" manual_request
               (sample_world [sample_run "run-0" "manual__2025-11-04T15:00:00" "running"])).2
    = committed
    ∧ Forall single_active committed.
Proof.
  destruct (trigger_single_active sample_env "run-new" manual_request
              (sample_world [sample_run "run-0" "manual__2025-11-04T15:00:00" "running"])
              (trigger_manual_run sample_env "run-new" manual_request
                 (sample_world [sample_run "run-0" "manual__2025-11-04T15:00:00" "running"])).2
              (trigger_manual_run sample_env "run-new" manual_request
                 (sample_world [sample_run "run-0" "manual__2025-11-04T15:00:00" "running"])).1)
    as (committed & Htrace & Hsingle & _).
  - vm_compute. reflexivity.
  - exists committed. split; [|exact Hsingle].
    rewrite Htrace. apply app_nil_r.
Defined.

Example trigger_preempts_running_run :
  (λ r, (r_run_id r, r_status r, r_duration r))
    <$> model_runs (w_db (trigger_manual_run sample_env "run-new" manual_request
          (sample_world [sample_run "run-0" "manual__2025-11-04T15:00:00" "running"])).2)
  = [("manual__2025-11-04T15:00:00", "cancelled", Some "1m");
     ("manual__2025-11-04T15:01:01", "queued", None)].
Proof. vm_compute. reflexivity. Qed.

(** ** Trigger: alias generation *)

Example generate_run_id_example :
  generate_run_id (clock sample_env 3) "scheduled" = "scheduled__2025-11-04T15:01:01".
Proof. vm_compute. reflexivity. Qed.

(** If the alias that leaves the loop is taken, every candidate the loop
    could still try was taken. *)
Lemma collision_loop_taken (db : Database) (base : string) (fuel : nat)
    (counter : Z) (run_id : string) :
  100 - counter ≤ Z.of_nat fuel →
  run_id_exists db
    (collision_loop db base fuel counter run_id (run_id_exists db run_id)) = true →
  run_id_exists db run_id = true
  ∧ ∀ k, counter ≤ k < 100 → run_id_exists db (base +:+ "_" +:+ pretty k) = true.
Proof.
  revert counter run_id. induction fuel as [|fuel IH]; intros counter run_id Hfuel; cbn.
  - intros H. split; [done|]. intros k Hk. lia.
  - destruct (run_id_exists db run_id) eqn:Hex; cbn; [|congruence].
    destruct (Z.ltb_spec counter 100) as [Hlt|Hge].
    + intros H. apply IH in H as [H1 H2]; [|lia]. split; [done|].
      intros k Hk. destruct (decide (k = counter)) as [->|Hne]; [done|].
      apply H2. lia.
    + intros _. split; [done|]. intros k Hk. lia.
Qed.

(** The loop stops before its bound: more rounds change nothing. *)
Lemma collision_loop_fuel (db : Database) (base : string) (fuel extra : nat)
    (counter : Z) (run_id : string) (existing : bool) :
  100 - counter ≤ Z.of_nat fuel →
  collision_loop db base (fuel + extra) counter run_id existing
  = collision_loop db base fuel counter run_id existing.
Proof.
  revert counter run_id existing.
  induction fuel as [|fuel IH]; intros counter run_id existing Hfuel; cbn.
  - destruct extra; cbn; [done|].
    destruct (Z.ltb_spec counter 100); [lia|]. by rewrite andb_false_r.
  - destruct (existing && (counter <? 100)); [|done]. apply IH. lia.
Qed.

(** Where one of the hundred candidates is free, the alias chosen is not
    in the store. *)
Lemma resolve_run_id_free (db : Database) (base : string) :
  (run_id_exists db base = false
   ∨ ∃ k, 1 ≤ k < 100 ∧ run_id_exists db (base +:+ "_" +:+ pretty k) = false) →
  run_id_exists db (resolve_run_id db base) = false.
Proof.
  intros Hfree. unfold resolve_run_id.
  destruct (run_id_exists db base) eqn:Hbase; [|done].
  destruct Hfree as [?|(k & Hk & Hfree)]; [done|].
  apply not_true_is_false. intros Htaken.
  pose proof (collision_loop_taken db base 100 1 base) as Hl.
  rewrite Hbase in Hl. destruct (Hl ltac:(lia) Htaken) as [_ Hall].
  rewrite (Hall k Hk) in Hfree. done.
Qed.

Lemma cancel_existing_run_ids (env : Env) (runs : list ModelRun) (t : nat) :
  r_run_id <$> (cancel_existing env t runs).1 = r_run_id <$> runs.
Proof.
  revert t. induction runs as [|r rs IH]; intros t; cbn; [done|].
  destruct (is_active r).
  - specialize (IH (S (S t))). destruct (cancel_existing env (S (S t)) rs). cbn in *.
    by rewrite IH.
  - specialize (IH t). destruct (cancel_existing env t rs). cbn in *. by rewrite IH.
Qed.

Lemma insert_run_unique (new_run : ModelRun) (db db' : Database) :
  NoDup (r_run_id <$> model_runs db) → insert_run new_run db = inr db' →
  NoDup (r_run_id <$> model_runs db').
Proof.
  intros Hnd. unfold insert_run, run_id_exists.
  repeat case_bool_decide; try discriminate. intros [= <-]. cbn.
  rewrite fmap_app. cbn. apply NoDup_app. split; [done|]. split.
  - intros x Hx Hin. apply list_elem_of_singleton in Hin. by subst.
  - apply NoDup_singleton.
Qed.

(** Aliases stay unique across the store through every trigger, whether
    it completes or raises: the insert is refused when the alias is
    taken. *)
Lemma trigger_keeps_run_ids_unique
    (env : Env) (uuid : string) (request : ModelRunCreate) (w : World) :
  NoDup (r_run_id <$> model_runs (w_db w)) →
  NoDup (r_run_id <$> model_runs (w_db (trigger_manual_run env uuid request w).2)).
Proof.
  intros Hnd. unfold trigger_manual_run.
  pose proof (cancel_existing_run_ids env (model_runs (w_db w)) (w_tick w)) as Hids.
  destruct (cancel_existing env (w_tick w) (model_runs (w_db w))) as [runs' t'].
  cbn [fst] in Hids.
  case_bool_decide.
  - cbn. unfold commit. cbn. destruct (db_fault env _); [done|].
    destruct (insert_run _ _) eqn:Hins; [done|]. cbn.
    eapply insert_run_unique; [|exact Hins]; done.
  - unfold commit at 1. cbn. destruct (db_fault env (w_commits w)); [done|].
    cbn. unfold commit. cbn. rewrite <- Hids in Hnd.
    destruct (db_fault env _); [done|].
    destruct (insert_run _ _) eqn:Hins; [done|]. cbn.
    eapply insert_run_unique; [|exact Hins]; done.
Qed.

(** C4 (evaluation of the code at the failing input). With the alias of
    the current second and its suffixed forms [_1] to [_99] all stored,
    the alias step does not fail: it returns the alias suffixed [_99],
    which is taken, and the trigger goes on to insert a run under it. The
    call ends only because the flush violates the unique constraint on
    [run_id] (an integrity error of the store, raised by the commit), and
    the store is left as it was. *)
Theorem alias_exhaustion_falls_through :
  let w := sample_world crowded_runs in
  let base := generate_run_id (clock sample_env 0) "manual" in
  resolve_run_id (w_db w) base = base +:+ "_99"
  ∧ run_id_exists (w_db w) (base +:+ "_99") = true
  ∧ trigger_manual_run sample_env "run-new" manual_request w
    = (Raise (Exc "IntegrityError" "UNIQUE constraint failed: model_runs.run_id"),
       {| w_db := w_db w; w_tick := 4; w_commits := 1; w_trace := [] |}).
Proof. vm_compute. repeat split; reflexivity. Qed.

(** ** The background task: what a flush does *)

Lemma insert_metrics_tables (env : Env) (rows : list (Z * string * Q)) (t : nat)
    (db : Database) :
  model_runs (insert_metrics env t rows db) = model_runs db
  ∧ training_schedule (insert_metrics env t rows db) = training_schedule db
  ∧ model_versions (insert_metrics env t rows db) = model_versions db
  ∧ ∃ added,
      metrics (insert_metrics env t rows db) = metrics db ++ added
      ∧ (λ m, (m_model_version_id m, m_metric_name m, m_metric_value m)) <$> added = rows.
Proof.
  revert t db. induction rows as [|[[vid name] value] rows IH]; intros t db; cbn.
  - repeat split; try done. exists []. by rewrite app_nil_r.
  - destruct (IH (S t) {| model_runs := model_runs db;
                          training_schedule := training_schedule db;
                          model_versions := model_versions db;
                          metrics := metrics db ++
                            [ {| m_id := next_id (m_id <$> metrics db);
                                 m_model_version_id := vid; m_metric_name := name;
                                 m_metric_value := value; m_timestamp := clock env t |} ] |})
      as (H1 & H2 & H3 & added & H4 & H5).
    cbn in *. repeat split; try done.
    eexists (_ :: added). rewrite H4, <- app_assoc. split; [done|]. cbn. by rewrite H5.
Qed.

(** A flush with nothing pending leaves the database as it is. *)
Lemma flush_session_clean (env : Env) (run_id : string) (s : Session) (t : nat)
    (db : Database) :
  s_status s = None → s_end_time s = None → s_duration s = None → s_logs s = None →
  s_version s = None → s_metrics s = [] →
  flush_session env run_id s t db = db.
Proof.
  intros H1 H2 H3 H4 H5 H6. unfold flush_session, run_dirty.
  rewrite H1, H2, H3, H4, H5, H6. reflexivity.
Qed.

Lemma find_run_update (run_id : string) (f : ModelRun → ModelRun) (runs : list ModelRun)
    (db : Database) (r : ModelRun) :
  (∀ x, r_id (f x) = r_id x) →
  find_run run_id (set_model_runs db runs) = Some r →
  find_run run_id
    (set_model_runs db ((λ x, if bool_decide (r_id x = run_id) then f x else x) <$> runs))
  = Some (f r).
Proof.
  intros Hf. unfold find_run. cbn [model_runs set_model_runs].
  induction runs as [|x runs IH]; [done|].
  rewrite fmap_cons, !filter_cons.
  destruct (decide (r_id x = run_id)) as [Hx|Hx].
  - rewrite bool_decide_eq_true_2 by done.
    rewrite decide_True by (by rewrite Hf). cbn. by intros [= ->].
  - rewrite bool_decide_eq_false_2 by done.
    rewrite decide_False by done. apply IH.
Qed.

Lemma flush_session_run (env : Env) (run_id : string) (s : Session) (t : nat)
    (db : Database) (r : ModelRun) :
  find_run run_id db = Some r →
  find_run run_id (flush_session env run_id s t db)
  = Some (if run_dirty s then apply_changes s (clock env t) r else r).
Proof.
  intros Hr. unfold flush_session.
  set (db1 := if run_dirty s then _ else db).
  assert (H1 : find_run run_id db1
               = Some (if run_dirty s then apply_changes s (clock env t) r else r)).
  { subst db1. destruct (run_dirty s); [|done].
    apply find_run_update; [done|]. by destruct db. }
  set (db2 := match s_version s with Some _ => _ | None => db1 end).
  assert (H2 : model_runs db2 = model_runs db1) by (subst db2; by destruct (s_version s)).
  destruct (insert_metrics_tables env (s_metrics s) (S (S t)) db2) as (H3 & _).
  unfold find_run in *. by rewrite H3, H2.
Qed.

Lemma flush_session_versions (env : Env) (run_id : string) (s : Session) (t : nat)
    (db : Database) :
  model_versions (flush_session env run_id s t db)
  = model_versions db ++
    match s_version s with
    | Some v => [ {| mv_id := next_id (mv_id <$> model_versions db);
                     mv_project_id := Some 1; mv_version_tag := v.1;
                     mv_artifact_path := v.2; mv_isActive := false;
                     mv_created_at := clock env (S t) |} ]
    | None => []
    end.
Proof.
  unfold flush_session.
  set (db1 := if run_dirty s then _ else db).
  assert (H1 : model_versions db1 = model_versions db) by (subst db1; by destruct (run_dirty s)).
  set (db2 := match s_version s with Some _ => _ | None => db1 end).
  destruct (insert_metrics_tables env (s_metrics s) (S (S t)) db2) as (_ & _ & H3 & _).
  rewrite H3. subst db2. destruct (s_version s); cbn; rewrite H1; [done|].
  by rewrite app_nil_r.
Qed.

Lemma flush_session_metrics (env : Env) (run_id : string) (s : Session) (t : nat)
    (db : Database) :
  ∃ added,
    metrics (flush_session env run_id s t db) = metrics db ++ added
    ∧ (λ m, (m_model_version_id m, m_metric_name m, m_metric_value m)) <$> added
      = s_metrics s.
Proof.
  unfold flush_session.
  set (db1 := if run_dirty s then _ else db).
  assert (H1 : metrics db1 = metrics db) by (subst db1; by destruct (run_dirty s)).
  set (db2 := match s_version s with Some _ => _ | None => db1 end).
  assert (H2 : metrics db2 = metrics db1) by (subst db2; by destruct (s_version s)).
  destruct (insert_metrics_tables env (s_metrics s) (S (S t)) db2)
    as (_ & _ & _ & added & H3 & H4).
  exists added. by rewrite H3, H2, H1.
Qed.

(** ** The background task: an undisturbed read loop *)

(** Stepping through the task: the operations of the session are
    unfolded and reduced, the loop, the flush, the parser and the text
    functions are kept folded. *)
Ltac task_unfold :=
  unfold stamp_end, append_logs, read_status, read_logs, read_start_time,
    read_version_id, assign_status, assign_logs, assign_end_time, assign_duration,
    db_add_version, db_add_metrics, db_rollback, db_refresh, db_commit, query_run,
    load, now, interleave, commit, utcnow, try_except, raise, early_return,
    get_session, put_session, session_expired, mbind, M_bind, mret, M_ret.

Ltac task_simpl :=
  cbn -[read_loop flush_session trigger_manual_run parse_line parse_lines
        rstrip_newlines strftime calculate_duration String.append pretty
        metric_rows join hyperparameters_line command_string next_id
        Z.of_nat Z.modulo
        supervise finish save_model_version save_metrics cancel_after_loop
        cancel_during_training terminate_process on_process_error on_fatal_error
        task_body].

Ltac task_step := task_unfold; task_simpl.

Section Undisturbed.
Context (env : Env) (sc : TaskScript) (run_id : string).
Hypothesis no_fault : ∀ n, db_fault env n = None.
Hypothesis eof_quiet : at_eof sc = Quiet.

(** With no other request served and no database failure the loop
    reads all the lines, leaves the database as it is (what it appends
    to the log is dropped by the refresh that follows) and commits once
    per line. *)
Lemma read_loop_quiet (steps : list ReadStep) :
  Forall quiet_step steps →
  ∀ (n : nat) (st : ParserState) (w : World) (s : Session) (r : ModelRun),
    find_run run_id (w_db w) = Some r → r_status r ≠ "cancelled" →
    is_Some (r_logs r) →
    s_invalid s = false → s_version s = None → s_metrics s = [] →
    ∃ tick extra s',
      read_loop env sc run_id steps n st {| t_world := w; t_session := s |}
      = (Val (parse_lines st (output_lines steps)),
         {| t_world := {| w_db := w_db w; w_tick := tick;
                          w_commits := (w_commits w + length (output_lines steps))%nat;
                          w_trace := extra ++ w_trace w |};
            t_session := s' |})
      ∧ s_invalid s' = false ∧ s_version s' = None ∧ s_metrics s' = []
      ∧ s_version_id s' = s_version_id s
      ∧ Forall (λ db, db = w_db w) extra.
Proof.
  induction 1 as [|step steps (Hd & Hy & text & Hread & Hne) _ IH];
    intros n st w s r Hr Hst [logs Hlogs] Hinv Hver Hmet.
  - destruct w as [db tick commits trace]. cbn in Hr.
    cbn [read_loop]. task_step. rewrite Hinv, Hr. task_simpl.
    rewrite bool_decide_eq_false_2 by done. rewrite eof_quiet. task_simpl.
    eexists tick, [], _. split.
    + cbn. by rewrite Nat.add_0_r.
    + by repeat split.
  - destruct text as [|c text]; [done|]. clear Hne.
    set (text' := String c text) in *.
    assert (Hsl : step_line step
                  = if bool_decide (rstrip_newlines text' = EmptyString) then None
                    else Some (rstrip_newlines text'))
      by (unfold step_line; by rewrite Hread).
    unfold output_lines. cbn [omap list_omap]. rewrite Hsl. fold (output_lines steps).
    cbn [read_loop]. task_step. rewrite Hinv, Hr. task_simpl.
    rewrite bool_decide_eq_false_2 by done.
    rewrite Hd, Hread. task_simpl.
    rewrite (bool_decide_eq_false_2 (text' = EmptyString)) by done.
    case_bool_decide as Hline.
    + (* an empty line: next round *)
      task_simpl.
      destruct (IH n st w {| s_invalid := false; s_loaded := Some r;
                  s_status := None; s_end_time := None; s_duration := None;
                  s_logs := None; s_version := s_version s;
                  s_version_id := s_version_id s; s_metrics := s_metrics s |} r)
        as (tick & extra & s' & Heq & H1 & H2 & H3 & H4 & H5); try done.
      exists tick, extra, s'. by rewrite Heq.
    + task_simpl. rewrite Hlogs. task_simpl. rewrite Hr. task_simpl.
      rewrite bool_decide_eq_false_2 by done. task_simpl.
      rewrite no_fault. task_simpl.
      rewrite flush_session_clean by done.
      rewrite Hy, Hver, Hmet.
      set (w1 := {| w_db := w_db w; w_tick := _; w_commits := S (w_commits w);
                    w_trace := w_db w :: w_trace w |}).
      set (s1 := {| s_invalid := false; s_loaded := None |}).
      destruct (IH (S n) (parse_line st (rstrip_newlines text')) w1 s1 r)
        as (tick & extra & s' & Heq & H1 & H2 & H3 & H4 & H5); try done.
      assert (H6 : Forall (λ db, db = w_db w) (extra ++ [w_db w])).
      { apply Forall_app. split; [done|]. by constructor. }
      exists tick, (extra ++ [w_db w]), s'.
      cbn [length].
      replace (w_commits w + S (length (output_lines steps)))%nat
        with (w_commits w1 + length (output_lines steps))%nat
        by (unfold w1; cbn [w_commits]; lia).
      rewrite <- app_assoc.
      destruct (bool_decide (Z.of_nat (S n) mod 5 = 0)); task_simpl;
        rewrite Heq; (split; [reflexivity | by repeat split]).
Qed.

End Undisturbed.

(** ** The background task: publication after a successful run *)

Lemma metric_rows_full (vid : Z) (em : gmap Z (gmap string Q)) :
  dom em = {[10; 20]} →
  (∀ k e, em !! k = Some e → dom e = list_to_set metric_types) →
  length (metric_rows vid em) = 12%nat
  ∧ Forall (λ row, row.1.1 = vid) (metric_rows vid em)
  ∧ (λ row, row.1.2) <$> metric_rows vid em ≡ₚ metric_names 10 ++ metric_names 20.
Proof.
  intros Hdom Hfull.
  assert (H10 : is_Some (em !! 10)).
  { apply elem_of_dom. rewrite Hdom. apply elem_of_union_l. by apply elem_of_singleton. }
  assert (H20 : is_Some (em !! 20)).
  { apply elem_of_dom. rewrite Hdom. apply elem_of_union_r. by apply elem_of_singleton. }
  destruct H10 as [e10 H10], H20 as [e20 H20].
  assert (Hem : em = <[10 := e10]> (<[20 := e20]> ∅)).
  { apply map_eq. intros k. destruct (decide (k = 10)) as [->|H1].
    - by rewrite lookup_insert_eq.
    - rewrite lookup_insert_ne by done. destruct (decide (k = 20)) as [->|H2].
      + by rewrite lookup_insert_eq.
      + rewrite lookup_insert_ne by done. rewrite lookup_empty.
        apply not_elem_of_dom_1. rewrite Hdom.
        rewrite elem_of_union, !elem_of_singleton. tauto. }
  assert (Hrow : ∀ k e, em !! k = Some e →
            (metric_type ← metric_types;
             match e !! metric_type with
             | Some value => [(vid, capitalize metric_type +:+ "@" +:+ pretty k, value)]
             | None => []
             end)
            = (λ mt, (vid, capitalize mt +:+ "@" +:+ pretty k, default 0%Q (e !! mt)))
                <$> metric_types).
  { intros k e He. pose proof (Hfull k e He) as Hd.
    assert (Hall : ∀ mt, mt ∈ metric_types → is_Some (e !! mt)).
    { intros mt Hmt. apply elem_of_dom. rewrite Hd. by apply elem_of_list_to_set. }
    unfold metric_types in *. cbn.
    repeat match goal with
    | |- context [e !! ?mt] =>
        let H := fresh in
        destruct (Hall mt) as [? H]; [by apply (bool_decide_unpack _)|];
        rewrite H; clear H
    end. reflexivity. }
  assert (Hperm : metric_rows vid em ≡ₚ
            ((λ mt, (vid, capitalize mt +:+ "@" +:+ pretty 10, default 0%Q (e10 !! mt)))
               <$> metric_types) ++
            ((λ mt, (vid, capitalize mt +:+ "@" +:+ pretty 20, default 0%Q (e20 !! mt)))
               <$> metric_types)).
  { unfold metric_rows.
    assert (Hl : map_to_list em ≡ₚ [(10, e10); (20, e20)]).
    { rewrite Hem. rewrite map_to_list_insert by (by rewrite lookup_insert_ne).
      rewrite map_to_list_insert by done. by rewrite map_to_list_empty. }
    rewrite Hl, !bind_cons. change ([] ≫= _) with (@nil (Z * string * Q)).
    rewrite app_nil_r. cbv beta iota.
    by rewrite (Hrow 10 e10 H10), (Hrow 20 e20 H20). }
  split; [|split].
  - by rewrite Hperm.
  - rewrite Hperm. apply Forall_app. split; apply Forall_fmap, Forall_true; done.
  - rewrite Hperm. reflexivity.
Qed.

Lemma flush_session_no_inserts (env : Env) (run_id : string) (s : Session) (t : nat)
    (db : Database) :
  s_version s = None → s_metrics s = [] →
  model_versions (flush_session env run_id s t db) = model_versions db
  ∧ metrics (flush_session env run_id s t db) = metrics db.
Proof.
  intros Hv Hm. split.
  - rewrite flush_session_versions, Hv. apply app_nil_r.
  - destruct (flush_session_metrics env run_id s t db) as (added & H1 & H2).
    rewrite Hm in H2. apply fmap_nil_inv in H2. subst added.
    by rewrite H1, app_nil_r.
Qed.

Section Success.
Context (env : Env) (sc : TaskScript) (run_id : string) (hp : Hyperparameters).
Hypothesis no_fault : ∀ n, db_fault env n = None.
Hypothesis quiet : undisturbed sc.

Lemma task_starts (w : World) (r : ModelRun) :
  find_run run_id (w_db w) = Some r → r_status r ≠ "cancelled" →
  ∃ (w2 : World) (s2 : Session) (r2 : ModelRun) (extra : list Database) (t : nat),
    task_body env sc run_id hp {| t_world := w; t_session := session_init |}
    = (try_except (supervise env sc run_id hp (strftime "_" "-" (clock env t)))
         (on_process_error env sc run_id);;
       db_commit env run_id) {| t_world := w2; t_session := s2 |}
    ∧ find_run run_id (w_db w2) = Some r2
    ∧ r_status r2 = "running" ∧ is_Some (r_logs r2)
    ∧ model_versions (w_db w2) = model_versions (w_db w)
    ∧ metrics (w_db w2) = metrics (w_db w)
    ∧ s_invalid s2 = false ∧ s_version s2 = None ∧ s_metrics s2 = []
    ∧ w_commits w2 = (w_commits w + 2)%nat
    ∧ w_trace w2 = extra ++ w_trace w
    ∧ Forall (λ db, model_versions db = model_versions (w_db w)
                    ∧ metrics db = metrics (w_db w)) extra.
Proof.
  intros Hr Hst. destruct quiet as (Hexists & Hspawn & Hat_spawn & _).
  destruct w as [db tick commits trace]. cbn in Hr.
  unfold task_body at 1. task_step. rewrite Hr. task_simpl.
  rewrite bool_decide_eq_false_2 by done. task_simpl.
  rewrite no_fault. task_simpl.
  set (sA := {| s_invalid := false; s_loaded := Some r; s_status := Some "running" |}).
  set (db1 := flush_session env run_id sA tick db).
  assert (Hr1 : find_run run_id db1 = Some (apply_changes sA (clock env tick) r)).
  { unfold db1. by rewrite (flush_session_run env run_id sA tick db r Hr). }
  rewrite Hexists. task_simpl. rewrite Hr1. task_simpl.
  rewrite no_fault. task_simpl.
  set (sB := {| s_invalid := false; s_loaded := Some _; s_status := None |}).
  set (db2 := flush_session env run_id sB _ db1).
  rewrite Hat_spawn, Hspawn. task_simpl.
  destruct (flush_session_no_inserts env run_id sA tick db) as [Hv1 Hm1]; [done..|].
  destruct (flush_session_no_inserts env run_id sB (S (tick + 2)) db1)
    as [Hv2 Hm2]; [done..|].
  fold db1 in Hv1, Hm1. fold db2 in Hv2, Hm2.
  eexists {| w_db := db2; w_trace := db2 :: db1 :: trace |}, _, _, [db2; db1], _.
  split; [reflexivity|]. cbn [w_db w_commits w_trace t_world].
  split. { unfold db2. by rewrite (flush_session_run env run_id sB _ db1 _ Hr1). }
  split; [reflexivity|]. split; [by eexists|].
  split; [congruence|]. split; [congruence|].
  repeat (split; [done || lia|]).
  repeat constructor; congruence.
Qed.

(** The publication step on a session that holds the pending changes
    of a finished run: the version (with the pending changes of the
    run) is committed first, then the metric rows. *)
Lemma save_model_version_ok (w : World) (s : Session) (r : ModelRun)
    (tag logs : string) (em : gmap Z (gmap string Q)) :
  find_run run_id (w_db w) = Some r →
  s_invalid s = false → s_logs s = Some (Some logs) →
  s_version s = None → s_metrics s = [] → em ≠ ∅ →
  ∃ w4 s4 v added db3,
    save_model_version env sc run_id hp tag em {| t_world := w; t_session := s |}
    = (Val (), {| t_world := w4; t_session := s4 |})
    ∧ s_invalid s4 = false ∧ s_status s4 = None ∧ s_end_time s4 = None
    ∧ s_duration s4 = None ∧ s_version s4 = None ∧ s_metrics s4 = []
    ∧ (∃ r4, find_run run_id (w_db w4) = Some r4
             ∧ r_status r4 = default (r_status r) (s_status s)
             ∧ r_end_time r4 = default (r_end_time r) (s_end_time s)
             ∧ r_duration r4 = default (r_duration r) (s_duration s))
    ∧ model_versions (w_db w4) = model_versions (w_db w) ++ [v]
    ∧ mv_version_tag v = tag ∧ mv_artifact_path v = "models/als_model_" +:+ tag
    ∧ metrics (w_db w4) = metrics (w_db w) ++ added
    ∧ (λ m, (m_model_version_id m, m_metric_name m, m_metric_value m)) <$> added
      = metric_rows (mv_id v) em
    ∧ w_trace w4 = [w_db w4; db3] ++ w_trace w
    ∧ model_versions db3 = model_versions (w_db w) ++ [v]
    ∧ metrics db3 = metrics (w_db w).
Proof.
  intros Hr Hinv Hlogs Hver Hmet Hem.
  destruct w as [db tick commits trace]. cbn in Hr.
  unfold save_model_version. task_step. rewrite ?Hinv, ?Hlogs, ?Hver, ?Hmet. task_simpl.
  rewrite no_fault. task_simpl.
  unfold save_metrics. task_step. rewrite bool_decide_eq_false_2 by done. task_simpl.
  set (sC := {| s_invalid := false; s_loaded := s_loaded s; s_status := s_status s |}).
  set (db3 := flush_session env run_id sC tick db).
  assert (Hdirty : run_dirty sC = true).
  { apply bool_decide_eq_true_2. do 3 right. by eexists. }
  assert (Hr3 : find_run run_id db3 = Some (apply_changes sC (clock env tick) r))
    by (unfold db3; by rewrite (flush_session_run env run_id sC _ _ r Hr), Hdirty).
  rewrite no_fault. task_simpl.
  set (sD := {| s_invalid := false; s_loaded := None; s_metrics := metric_rows _ _ |}).
  set (db4 := flush_session env run_id sD (tick + 2) db3).
  assert (Hr4 : find_run run_id db4 = Some (apply_changes sC (clock env tick) r))
    by (unfold db4; by rewrite (flush_session_run env run_id sD _ _ _ Hr3)).
  rewrite Hr4. task_simpl.
  destruct (flush_session_metrics env run_id sC tick db)
    as (added3 & Hm3 & Hadded3). cbn [s_metrics sC] in Hadded3.
  apply fmap_nil_inv in Hadded3. subst added3. rewrite app_nil_r in Hm3. fold db3 in Hm3.
  pose proof (flush_session_versions env run_id sC tick db) as Hv3.
  fold db3 in Hv3. cbn [s_version sC fst snd] in Hv3.
  pose proof (flush_session_versions env run_id sD (tick + 2) db3) as Hv4.
  fold db4 in Hv4. cbn [s_version sD] in Hv4. rewrite app_nil_r in Hv4.
  destruct (flush_session_metrics env run_id sD (tick + 2) db3)
    as (added & Hm4 & Hadded). fold db4 in Hm4. cbn [s_metrics sD] in Hadded.
  eexists {| w_db := db4 |}, _, _, added, db3.
  split; [reflexivity|].
  cbn [w_db w_trace s_invalid s_status s_end_time s_duration s_version s_metrics].
  do 6 (split; [reflexivity|]).
  split. { eexists. split; [exact Hr4|]. by repeat split. }
  split; [by rewrite Hv4, Hv3|]. split; [reflexivity|]. split; [reflexivity|].
  split; [by rewrite Hm4, Hm3|]. split; [exact Hadded|].
  split; [reflexivity|]. split; [exact Hv3 | exact Hm3].
Qed.

(** The same followed by the last commit of the task. *)
Lemma publish_and_commit (w : World) (s : Session) (r : ModelRun)
    (tag logs : string) (em : gmap Z (gmap string Q)) :
  find_run run_id (w_db w) = Some r →
  s_invalid s = false → s_logs s = Some (Some logs) →
  s_version s = None → s_metrics s = [] → em ≠ ∅ →
  ∃ w5 s5 r5 v added db3 db4,
    (try_except (save_model_version env sc run_id hp tag em)
       (on_process_error env sc run_id);;
     db_commit env run_id) {| t_world := w; t_session := s |}
    = (Val (), {| t_world := w5; t_session := s5 |})
    ∧ find_run run_id (w_db w5) = Some r5
    ∧ r_status r5 = default (r_status r) (s_status s)
    ∧ r_end_time r5 = default (r_end_time r) (s_end_time s)
    ∧ r_duration r5 = default (r_duration r) (s_duration s)
    ∧ model_versions (w_db w5) = model_versions (w_db w) ++ [v]
    ∧ mv_version_tag v = tag ∧ mv_artifact_path v = "models/als_model_" +:+ tag
    ∧ metrics (w_db w5) = metrics (w_db w) ++ added
    ∧ (λ m, (m_model_version_id m, m_metric_name m, m_metric_value m)) <$> added
      = metric_rows (mv_id v) em
    ∧ w_trace w5 = [w_db w5; db4; db3] ++ w_trace w
    ∧ model_versions db4 = model_versions (w_db w) ++ [v]
    ∧ model_versions db3 = model_versions (w_db w) ++ [v]
    ∧ metrics db3 = metrics (w_db w).
Proof.
  intros Hr Hinv Hlogs Hver Hmet Hem.
  destruct (save_model_version_ok w s r tag logs em)
    as (w4 & s4 & v & added & db3 & Heq & Hi4 & Hs4 & He4 & Hd4 & Hve4 & Hme4
        & (r4 & Hr4 & Hst4 & Het4 & Hdu4) & Hvers & Htag & Hpath & Hmets & Hadded
        & Htrace & Hv3 & Hm3); try done.
  task_step. rewrite Heq. task_simpl. rewrite Hi4, no_fault. task_simpl.
  destruct (flush_session_no_inserts env run_id s4 (w_tick w4) (w_db w4))
    as [Hv5 Hm5]; [done..|].
  pose proof (flush_session_run env run_id s4 (w_tick w4) (w_db w4) r4 Hr4) as Hr5.
  eexists {| w_db := flush_session env run_id s4 (w_tick w4) (w_db w4) |},
    _, _, v, added, db3, (w_db w4).
  split; [reflexivity|]. cbn [w_db w_trace].
  split; [exact Hr5|].
  split. { destruct (run_dirty s4); cbn; by rewrite ?Hs4. }
  split. { destruct (run_dirty s4); cbn; by rewrite ?He4. }
  split. { destruct (run_dirty s4); cbn; by rewrite ?Hd4. }
  split; [by rewrite Hv5|]. split; [done|]. split; [done|].
  split; [by rewrite Hm5|]. split; [done|].
  split; [by rewrite Htrace|]. by repeat split.
Qed.

Lemma supervise_success (w2 : World) (s2 : Session) (r2 : ModelRun) (tag : string) :
  wait_result sc = inr 0 →
  find_run run_id (w_db w2) = Some r2 → r_status r2 = "running" → is_Some (r_logs r2) →
  s_invalid s2 = false → s_version s2 = None → s_metrics s2 = [] →
  extracted_metrics (parse_lines parser_init (output_lines (reads sc))) ≠ ∅ →
  ∃ w5 s5 r5 v added mid before after,
    (try_except (supervise env sc run_id hp tag) (on_process_error env sc run_id);;
     db_commit env run_id) {| t_world := w2; t_session := s2 |}
    = (Val (), {| t_world := w5; t_session := s5 |})
    ∧ find_run run_id (w_db w5) = Some r5
    ∧ r_status r5 = "success" ∧ is_Some (r_end_time r5) ∧ is_Some (r_duration r5)
    ∧ model_versions (w_db w5) = model_versions (w_db w2) ++ [v]
    ∧ mv_version_tag v = tag ∧ mv_artifact_path v = "models/als_model_" +:+ tag
    ∧ metrics (w_db w5) = metrics (w_db w2) ++ added
    ∧ (λ m, (m_model_version_id m, m_metric_name m, m_metric_value m)) <$> added
      = metric_rows (mv_id v)
          (extracted_metrics (parse_lines parser_init (output_lines (reads sc))))
    ∧ w_trace w5 = after ++ mid :: before ++ w_trace w2
    ∧ model_versions mid = model_versions (w_db w2) ++ [v]
    ∧ metrics mid = metrics (w_db w2)
    ∧ Forall (λ db, model_versions db = model_versions (w_db w2)
                    ∧ metrics db = metrics (w_db w2)) before
    ∧ Forall (λ db, model_versions db = model_versions (w_db w2) ++ [v]) after.
Proof.
  intros Hwait Hr2 Hst2 Hlogs2 Hinv Hver Hmet Hem.
  destruct quiet as (_ & _ & _ & Heof & Hat_wait & Hsteps).
  destruct (read_loop_quiet env sc run_id no_fault Heof (reads sc) Hsteps
              0%nat parser_init w2 s2 r2)
    as (tick & extra & s3 & Hloop & Hinv3 & Hver3 & Hmet3 & _ & Hextra); try done.
  { by rewrite Hst2. }
  destruct Hlogs2 as [logs2 Hlogs2].
  set (st := parse_lines parser_init (output_lines (reads sc))) in *.
  assert (Hpub : ∀ w s logs,
    w_db w = w_db w2 → w_trace w = extra ++ w_trace w2 →
    s_invalid s = false → s_logs s = Some (Some logs) → s_version s = None →
    s_metrics s = [] → s_status s = Some "success" →
    is_Some (default (r_end_time r2) (s_end_time s)) →
    is_Some (default (r_duration r2) (s_duration s)) →
    ∃ w5 s5 r5 v added mid before after,
      (try_except (save_model_version env sc run_id hp tag (extracted_metrics st))
         (on_process_error env sc run_id);;
       db_commit env run_id) {| t_world := w; t_session := s |}
      = (Val (), {| t_world := w5; t_session := s5 |})
      ∧ find_run run_id (w_db w5) = Some r5
      ∧ r_status r5 = "success" ∧ is_Some (r_end_time r5) ∧ is_Some (r_duration r5)
      ∧ model_versions (w_db w5) = model_versions (w_db w2) ++ [v]
      ∧ mv_version_tag v = tag ∧ mv_artifact_path v = "models/als_model_" +:+ tag
      ∧ metrics (w_db w5) = metrics (w_db w2) ++ added
      ∧ (λ m, (m_model_version_id m, m_metric_name m, m_metric_value m)) <$> added
        = metric_rows (mv_id v) (extracted_metrics st)
      ∧ w_trace w5 = after ++ mid :: before ++ w_trace w2
      ∧ model_versions mid = model_versions (w_db w2) ++ [v]
      ∧ metrics mid = metrics (w_db w2)
      ∧ Forall (λ db, model_versions db = model_versions (w_db w2)
                      ∧ metrics db = metrics (w_db w2)) before
      ∧ Forall (λ db, model_versions db = model_versions (w_db w2) ++ [v]) after).
  { intros w s logs Hdb Htr Hi Hl Hv Hm Hs Het Hdu.
    destruct (publish_and_commit w s r2 tag logs (extracted_metrics st))
      as (w5 & s5 & r5 & v & added & db3 & db4 & Heq & Hr5 & Hst5 & Het5 & Hdu5
          & Hvers & Htag & Hpath & Hmets & Hadded & Htrace & Hv4 & Hv3 & Hm3);
      try done; [by rewrite Hdb|].
    rewrite Hdb in *.
    exists w5, s5, r5, v, added, db3, extra, [w_db w5; db4].
    split; [exact Heq|]. split; [exact Hr5|].
    split; [by rewrite Hst5, Hs|]. split; [by rewrite Het5|]. split; [by rewrite Hdu5|].
    do 5 (split; [done|]).
    split; [by rewrite Htrace, Htr|]. split; [done|]. split; [done|].
    split; [eapply Forall_impl; [exact Hextra|]; by intros ? ->|].
    by repeat constructor. }
  unfold supervise. task_step. rewrite Hloop. task_simpl.
  rewrite Hinv3, Hr2. task_simpl. rewrite Hst2.
  rewrite bool_decide_eq_false_2 by discriminate.
  unfold finish. task_step. rewrite Hat_wait, Hwait. task_simpl.
  rewrite Hlogs2. task_simpl.
  rewrite bool_decide_eq_true_2 by done. task_simpl.
  destruct (ndcg_value st) as [ndcg|]; task_simpl.
  - eapply Hpub; try reflexivity; try done; by eexists.
  - eapply Hpub; try reflexivity; try done; by eexists.
Qed.

End Success.

(** C5. For a run that is not pre-empted, on a database that refuses no
    commit, whose process exits with code 0 and whose parsed metrics hold
    full entries for exactly the cutoffs 10 and 20: the task ends
    normally with the run stored as success; exactly one version row is
    added, with the version tag and the artifact path derived from it;
    exactly twelve metric rows are added, all attached to that version,
    named Precision, Recall, Map, Ndcg, Coverage and Hitrate at 10 and
    at 20; and among the committed states the first that holds the
    version holds no new metric row, no earlier state holds either, and
    every later state holds the version: the version is committed before
    any metric row is written. *)
Theorem successful_run_publishes
    (env : Env) (sc : TaskScript) (run_id : string) (hp : Hyperparameters)
    (w : World) (r : ModelRun) :
  (∀ n, db_fault env n = None) → undisturbed sc → wait_result sc = inr 0 →
  find_run run_id (w_db w) = Some r → r_status r ≠ "cancelled" →
  dom (extracted_metrics (parse_lines parser_init (output_lines (reads sc)))) = {[10; 20]} →
  map_Forall (λ _ entry, dom entry = list_to_set metric_types)
    (extracted_metrics (parse_lines parser_init (output_lines (reads sc)))) →
  ∃ w' r' v added mid before after,
    run_training_task env sc run_id hp w = (Val (), w')
    ∧ find_run run_id (w_db w') = Some r' ∧ r_status r' = "success"
    ∧ model_versions (w_db w') = model_versions (w_db w) ++ [v]
    ∧ (∃ t, mv_version_tag v = strftime "_" "-" (clock env t))
    ∧ mv_artifact_path v = "models/als_model_" +:+ mv_version_tag v
    ∧ metrics (w_db w') = metrics (w_db w) ++ added
    ∧ length added = 12%nat
    ∧ Forall (λ m, m_model_version_id m = mv_id v) added
    ∧ m_metric_name <$> added ≡ₚ metric_names 10 ++ metric_names 20
    ∧ w_trace w' = after ++ mid :: before ++ w_trace w
    ∧ model_versions mid = model_versions (w_db w) ++ [v]
    ∧ metrics mid = metrics (w_db w)
    ∧ Forall (λ db, model_versions db = model_versions (w_db w)
                    ∧ metrics db = metrics (w_db w)) before
    ∧ Forall (λ db, model_versions db = model_versions (w_db w) ++ [v]) after.
Proof.
  intros Hfault Hquiet Hwait Hr Hst Hdom Hfull.
  set (em := extracted_metrics (parse_lines parser_init (output_lines (reads sc)))) in *.
  assert (Hem : em ≠ ∅).
  { intros Heq. rewrite Heq, dom_empty_L in Hdom.
    assert (H10 : (10 : Z) ∈ (∅ : gset Z)).
    { rewrite Hdom. apply elem_of_union_l. by apply elem_of_singleton. }
    by apply not_elem_of_empty in H10. }
  destruct (task_starts env sc run_id hp Hfault Hquiet w r Hr Hst)
    as (w2 & s2 & r2 & extra & t & Hstart & Hr2 & Hst2 & Hlogs2 & Hv2 & Hm2
        & Hi2 & Hve2 & Hme2 & _ & Htr2 & Hextra).
  destruct (supervise_success env sc run_id hp Hfault Hquiet w2 s2 r2
              (strftime "_" "-" (clock env t)) Hwait Hr2 Hst2 Hlogs2 Hi2 Hve2 Hme2 Hem)
    as (w5 & s5 & r5 & v & added & mid & before & after & Hrun & Hr5 & Hst5 & _ & _
        & Hvers & Htag & Hpath & Hmets & Hadded & Htrace & Hvmid & Hmmid
        & Hbefore & Hafter).
  destruct (metric_rows_full (mv_id v) em Hdom) as (Hlen & Hvid & Hnames).
  { intros k e He. by apply (Hfull k e). }
  fold em in Hadded. rewrite <- Hadded in Hlen, Hvid, Hnames.
  exists w5, r5, v, added, mid, (before ++ extra), after.
  split.
  { unfold run_training_task, try_except. rewrite Hstart.
    unfold try_except, mbind, M_bind in Hrun. unfold mbind, M_bind, try_except.
    by rewrite Hrun. }
  split; [done|]. split; [done|]. split; [by rewrite Hvers, Hv2|].
  split; [by exists t|]. split; [by rewrite Hpath, Htag|].
  split; [by rewrite Hmets, Hm2|].
  split; [by rewrite length_fmap in Hlen|].
  split. { apply Forall_fmap in Hvid. eapply Forall_impl; [exact Hvid|]. by intros m. }
  split. { rewrite <- Hnames, <- list_fmap_compose. done. }
  split; [by rewrite Htrace, Htr2, <- app_assoc|].
  split; [by rewrite Hvmid, Hv2|]. split; [by rewrite Hmmid, Hm2|].
  split.
  - apply Forall_app. split; [|done].
    eapply Forall_impl; [exact Hbefore|]. intros db [H1 H2]. by rewrite H1, H2, Hv2, Hm2.
  - eapply Forall_impl; [exact Hafter|]. intros db H1. by rewrite H1, Hv2.
Qed.

Lemma successful_run_publishes_witness :
  ∃ w' v added,
    run_training_task sample_env (sample_script two_metric_lines (inr 0)) "run-0"
      sample_hyperparameters (sample_world [sample_run "run-0" "manual__x" "queued"])
    = (Val (), w')
    ∧ model_versions (w_db w') = [v]
    ∧ metrics (w_db w') = added
    ∧ length added = 12%nat.
Proof.
  destruct (successful_run_publishes sample_env (sample_script two_metric_lines (inr 0))
              "run-0" sample_hyperparameters
              (sample_world [sample_run "run-0" "manual__x" "queued"])
              (sample_run "run-0" "manual__x" "queued"))
    as (w' & r' & v & added & mid & before & after & Hrun & _ & _ & Hvers & _ & _
        & Hmets & Hlen & _).
  - reflexivity.
  - repeat split; try reflexivity.
    repeat constructor; eexists; (split; [reflexivity | discriminate]).
  - reflexivity.
  - reflexivity.
  - discriminate.
  - vm_compute. reflexivity.
  - apply (bool_decide_unpack _). vm_compute. reflexivity.
  - exists w', v, added. repeat split; assumption.
Defined.

Example successful_run_metric_names :
  m_metric_name <$> metrics (w_db
    (run_training_task sample_env (sample_script two_metric_lines (inr 0)) "run-0"
       sample_hyperparameters (sample_world [sample_run "run-0" "manual__x" "queued"])).2)
  = ["Precision@10"; "Recall@10"; "Map@10"; "Ndcg@10"; "Coverage@10"; "Hitrate@10";
     "Precision@20"; "Recall@20"; "Map@20"; "Ndcg@20"; "Coverage@20"; "Hitrate@20"].
Proof. vm_compute. reflexivity. Qed.

(** ** The background task: failures *)

(** C6 (evaluation of the code at the failing input). A run prints three
    lines, two of them metric lines, and its process exits with code 0;
    the commits go through up to the one of the version (the sixth), and
    the one of the metric rows (the seventh) is refused. The version is
    retained, no metric row is stored and the stored status stays
    success; but the stored log ends with the lines committed with the
    version and holds no word of the failure, and the task ends with an
    exception that escapes it. *)
Theorem metric_failure_leaves_no_log :
  let w := sample_world [sample_run "run-0" "manual__2025-11-04T15:00:00" "queued"] in
  let out := run_training_task (faulty_env 6) (sample_script two_metric_lines (inr 0))
               "run-0" sample_hyperparameters w in
  out.1 = Exn PendingRollbackError
  ∧ status_history "run-0" out.2
    = [Some "running"; Some "running"; Some "running"; Some "running"; Some "running";
       Some "success"]
  ∧ (r_status <$> find_run "run-0" (w_db out.2)) = Some "success"
  ∧ (mv_version_tag <$> model_versions (w_db out.2)) = ["2025-11-04_15-01-01"]
  ∧ metrics (w_db out.2) = []
  ∧ (contains "Model version saved to database"
       <$> (find_run "run-0" (w_db out.2) ≫= r_logs)) = Some true
  ∧ (contains "Failed to save metrics"
       <$> (find_run "run-0" (w_db out.2) ≫= r_logs)) = Some false
  ∧ (contains "Warning"
       <$> (find_run "run-0" (w_db out.2) ≫= r_logs)) = Some false.
Proof. vm_compute. repeat split; reflexivity. Qed.

(** The sibling branch: when the read raises while the run has just been
    pre-empted, the handler refreshes the run, sees the cancellation and
    keeps it, stamping the end time and appending the error. *)
Example read_error_keeps_cancelled :
  let w := sample_world [sample_run "run-0" "manual__2025-11-04T15:00:00" "queued"] in
  let out := run_training_task sample_env preempted_read_error_script
               "run-0" sample_hyperparameters w in
  out.1 = Val ()
  ∧ status_history "run-0" out.2
    = [Some "running"; Some "running"; Some "cancelled"; Some "cancelled"; Some "cancelled"]
  ∧ (contains "Error executing training script: broken pipe"
       <$> (find_run "run-0" (w_db out.2) ≫= r_logs)) = Some true.
Proof. vm_compute. repeat split; reflexivity. Qed.

(** C7 (evaluation of the code at the failing input). A run has read its
    output to the end and awaits the exit of its process; meanwhile a new
    trigger is served, which cancels the run in the store; the process
    then exits with code 2. The branch of the nonzero exit code assigns
    "failed" without looking at the status, and the last commit
    overwrites the stored "cancelled". *)
Theorem nonzero_exit_overwrites_cancelled :
  let w := sample_world [sample_run "run-0" "manual__2025-11-04T15:00:00" "queued"] in
  let out := run_training_task sample_env (preempted_at_wait_script [] (inr 2))
               "run-0" sample_hyperparameters w in
  out.1 = Val ()
  ∧ status_history "run-0" out.2
    = [Some "running"; Some "running"; Some "cancelled"; Some "cancelled"; Some "failed"]
  ∧ (r_status <$> find_run "run-0" (w_db out.2)) = Some "failed"
  ∧ (contains "Run cancelled: A new run was triggered"
       <$> (find_run "run-0" (w_db out.2) ≫= r_logs)) = Some false.
Proof. vm_compute. repeat split; reflexivity. Qed.

(** ** List endpoint: filters and pages *)

Lemma apply_filters_spec (status trig : option string) (rows sel : list ModelRun) :
  apply_filters status trig rows = inr sel →
  sel = filter (λ r, passes_filters status trig r = true) rows.
Proof.
  unfold apply_filters, passes_filters. intros H.
  destruct (truthy_str status) as [st|]; destruct (truthy_str trig) as [tb|];
    repeat case_bool_decide; simplify_eq.
  - rewrite list_filter_filter. apply list_filter_iff. intros r. cbn.
    rewrite andb_true_iff, !bool_decide_eq_true. tauto.
  - apply list_filter_iff. intros r. cbn.
    rewrite andb_true_iff, !bool_decide_eq_true. tauto.
  - apply list_filter_iff. intros r. cbn. by rewrite bool_decide_eq_true.
  - induction sel as [|r sel IH]; [done|].
    rewrite filter_cons_True by done. by rewrite <- IH.
Qed.

Lemma get_all_model_runs_inv (status trig : option string) (page limit : Z)
    (sort order : string) (db : Database) (resp : ModelRunListResponse) :
  get_all_model_runs status trig page limit sort order db = inr resp →
  1 ≤ page ∧ 1 ≤ limit ≤ 100
  ∧ ∃ sel, apply_filters status trig (model_runs db) = inr sel
      ∧ data resp = take (Z.to_nat limit)
                      (drop (Z.to_nat ((page - 1) * limit))
                         (order_by (sort_direction sort order) sel))
      ∧ pg_total resp = Z.of_nat (length sel)
      ∧ pg_total_pages resp = total_pages (Z.of_nat (length sel)) limit.
Proof.
  unfold get_all_model_runs. intros H.
  destruct (Z.leb_spec 1 page); [|done].
  destruct (Z.leb_spec 1 limit); [|done].
  destruct (Z.leb_spec limit 100); [|done]. cbn in H.
  destruct (apply_filters status trig (model_runs db)) as [e|sel]; [done|].
  injection H as <-. cbn. split; [done|]. split; [done|].
  exists sel. rewrite (Permutation_length (order_by_Permutation _ sel)). done.
Qed.

Lemma total_pages_ceiling (total limit : Z) :
  0 ≤ total → 1 ≤ limit →
  total ≤ total_pages total limit * limit < total + limit.
Proof.
  intros Ht Hl. unfold total_pages. destruct (Z.ltb_spec 0 total) as [Hpos|Hz].
  - pose proof (Z.div_mod (total + limit - 1) limit ltac:(lia)) as Hdm.
    pose proof (Z.mod_pos_bound (total + limit - 1) limit ltac:(lia)) as Hmod.
    nia.
  - lia.
Qed.

(** X1. Whenever the listing answers: every run on the page is a stored
    run that passes both filters; the page holds at most [limit] runs;
    the reported total is the number of stored runs that pass the
    filters, whatever page was asked for; the reported number of pages is
    that total divided by the limit, rounded up; every page before the
    last is full; and a page after the last is empty. *)
Theorem list_page_window
    (status trig : option string) (page limit : Z) (sort order : string)
    (db : Database) (resp : ModelRunListResponse) :
  get_all_model_runs status trig page limit sort order db = inr resp →
  (∀ r, r ∈ data resp → r ∈ model_runs db ∧ passes_filters status trig r = true)
  ∧ (length (data resp) ≤ Z.to_nat limit)%nat
  ∧ pg_total resp
    = Z.of_nat (length (filter (λ r, passes_filters status trig r = true) (model_runs db)))
  ∧ pg_total resp ≤ pg_total_pages resp * limit < pg_total resp + limit
  ∧ (page < pg_total_pages resp → length (data resp) = Z.to_nat limit)
  ∧ (pg_total_pages resp < page → data resp = []).
Proof.
  intros H. apply get_all_model_runs_inv in H
    as (Hpage & Hlimit & sel & Hsel & Hdata & Htotal & Hpages).
  pose proof (apply_filters_spec _ _ _ _ Hsel) as Hspec.
  pose proof (total_pages_ceiling (Z.of_nat (length sel)) limit ltac:(lia) ltac:(lia)) as Hc.
  assert (Hlen : length (order_by (sort_direction sort order) sel) = length sel)
    by apply Permutation_length, order_by_Permutation.
  rewrite <- Hpages in Hc.
  split.
  { intros r Hr. rewrite Hdata in Hr. apply page_subseteq in Hr.
    rewrite (order_by_Permutation (sort_direction sort order)) in Hr.
    rewrite Hspec in Hr. by apply list_elem_of_filter in Hr as [? ?]. }
  split. { rewrite Hdata, length_take. lia. }
  split. { by rewrite Htotal, Hspec. }
  split. { by rewrite Htotal. }
  split.
  - intros Hlt. rewrite Hdata, length_take, length_drop, Hlen. nia.
  - intros Hgt. rewrite Hdata. rewrite drop_ge; [by rewrite take_nil|].
    rewrite Hlen. nia.
Qed.

Lemma list_page_window_witness :
  let db := {| model_runs := [sample_run "a" "r1" "success"; sample_run "b" "r2" "failed";
                              sample_run "c" "r3" "success"; sample_run "d" "r4" "success"];
               training_schedule := []; model_versions := []; metrics := [] |} in
  ∃ resp,
    get_all_model_runs (Some "success") None 2 2 "start_time" "DESC" db = inr resp
    ∧ pg_total resp = 3 ∧ (length (data resp) ≤ 2)%nat.
Proof.
  intros db.
  destruct (get_all_model_runs (Some "success") None 2 2 "start_time" "DESC" db)
    as [e|resp] eqn:H; [vm_compute in H; discriminate|].
  exists resp. split; [reflexivity|].
  pose proof (list_page_window (Some "success") None 2 2 "start_time" "DESC" db resp H)
    as (_ & Hlen & Htotal & _).
  split; [exact Htotal | exact Hlen].
Defined.

Lemma concat_pages {A} (n k : nat) (l : list A) :
  (length l ≤ k * n)%nat →
  concat ((λ i, take n (drop (i * n) l)) <$> seq 0 k) = l.
Proof.
  revert l. induction k as [|k IH]; intros l Hl.
  - destruct l; [done|]. cbn in Hl. lia.
  - cbn [seq fmap list_fmap concat]. rewrite <- fmap_S_seq, <- list_fmap_compose.
    rewrite Nat.mul_0_l, drop_0.
    etrans; [|apply (take_drop n l)]. f_equal.
    etrans; [|apply (IH (drop n l)); rewrite length_drop; lia].
    f_equal. apply list_fmap_ext. intros _ i _. cbn.
    rewrite drop_drop. do 2 f_equal; lia.
Qed.

(** X2. Walking the pages 1, 2, ..., up to the number of pages the
    listing reports and putting them end to end gives every stored run
    that passes the filters exactly once, in the order of the listing:
    no run is skipped and none is repeated across pages. *)
Theorem list_pages_cover
    (status trig : option string) (limit : Z) (sort order : string) (db : Database)
    (first : ModelRunListResponse) :
  get_all_model_runs status trig 1 limit sort order db = inr first →
  concat (page_data status trig limit sort order db <$> seqZ 1 (pg_total_pages first))
  = order_by (sort_direction sort order)
      (filter (λ r, passes_filters status trig r = true) (model_runs db)).
Proof.
  intros H. apply get_all_model_runs_inv in H
    as (_ & Hlimit & sel & Hsel & _ & _ & Hpages).
  pose proof (apply_filters_spec _ _ _ _ Hsel) as Hspec. rewrite <- Hspec.
  pose proof (total_pages_ceiling (Z.of_nat (length sel)) limit ltac:(lia) ltac:(lia)) as Hc.
  rewrite <- Hpages in Hc.
  set (sorted := order_by (sort_direction sort order) sel).
  assert (Hlen : length sorted = length sel)
    by apply Permutation_length, order_by_Permutation.
  assert (Hnn : 0 ≤ pg_total_pages first) by nia.
  rewrite <- (concat_pages (Z.to_nat limit) (Z.to_nat (pg_total_pages first)) sorted)
    by (rewrite Hlen; nia).
  f_equal. unfold seqZ. rewrite <- list_fmap_compose.
  apply list_fmap_ext. intros j i Hi. apply lookup_seq in Hi as [-> Hj]. cbn.
  unfold page_data, get_all_model_runs.
  rewrite (proj2 (Z.leb_le 1 _)) by lia.
  rewrite (proj2 (Z.leb_le 1 limit)) by lia.
  rewrite (proj2 (Z.leb_le limit 100)) by lia. cbn. rewrite Hsel. cbn.
  fold sorted. do 2 f_equal. nia.
Qed.

Lemma list_pages_cover_witness :
  let db := {| model_runs := [sample_run "a" "r1" "success"; sample_run "b" "r2" "failed";
                              sample_run "c" "r3" "success"; sample_run "d" "r4" "success"];
               training_schedule := []; model_versions := []; metrics := [] |} in
  length (concat (page_data (Some "success") None 2 "start_time" "DESC" db <$> seqZ 1 2))
  = 3%nat.
Proof.
  intros db.
  destruct (get_all_model_runs (Some "success") None 1 2 "start_time" "DESC" db)
    as [e|resp] eqn:H; [vm_compute in H; discriminate|].
  pose proof (list_pages_cover (Some "success") None 2 "start_time" "DESC" db resp H) as Hc.
  assert (Hp : pg_total_pages resp = 2) by (vm_compute in H; by injection H as <-).
  rewrite Hp in Hc. rewrite Hc.
  by rewrite (Permutation_length (order_by_Permutation _ _)).
Defined.



(** ** Trigger: the resolved hyperparameters *)

(** X4. The hyperparameters the trigger resolves are never zero, whatever
    the request and the schedule hold: a zero (like a null) is replaced
    by the default 10, 0.01, 1.0 or 10. A manual trigger never looks at
    the stored schedule, and a scheduled trigger on a store without a
    schedule resolves as a manual one does. *)
Theorem resolved_hyperparameters_truthy
    (request : ModelRunCreate) (schedule : option TrainingSchedule) :
  h_rank (resolve_hyperparameters request schedule) ≠ 0
  ∧ ¬ (h_regParam (resolve_hyperparameters request schedule) == 0)%Q
  ∧ ¬ (h_alpha (resolve_hyperparameters request schedule) == 0)%Q
  ∧ h_maxIter (resolve_hyperparameters request schedule) ≠ 0
  ∧ (triggered_by request = MANUAL →
     resolve_hyperparameters request schedule = resolve_hyperparameters request None)
  ∧ (∀ t, resolve_hyperparameters
            {| triggered_by := t; rank := rank request; regParam := regParam request;
               alpha := alpha request; maxIter := maxIter request |} None
          = resolve_hyperparameters request None).
Proof.
  assert (Hint : ∀ x d, d ≠ 0 → or_int x d ≠ 0).
  { intros [v|] d Hd; cbn; [|done]. by destruct (Z.eqb_spec v 0). }
  assert (Hfloat : ∀ x d, ¬ (d == 0)%Q → ¬ (or_float x d == 0)%Q).
  { intros [v|] d Hd; cbn; [|done]. destruct (Qeq_bool v 0) eqn:Hv; [done|].
    intros Heq. apply Qeq_bool_iff in Heq. congruence. }
  unfold resolve_hyperparameters.
  destruct (triggered_by request) eqn:Ht, schedule as [sch|]; cbn;
    (split; [by apply Hint|]); (split; [by apply Hfloat|]);
    (split; [by apply Hfloat|]); (split; [by apply Hint|]);
    (split; [done|]); by intros [].
Qed.

Lemma resolved_hyperparameters_truthy_witness :
  resolve_hyperparameters manual_request
    (Some {| ts_cron_expression := "0 0 * * *"; ts_is_paused := false;
             ts_rank := Some 50; ts_regParam := None; ts_alpha := None;
             ts_maxIter := Some 25 |})
  = resolve_hyperparameters manual_request None.
Proof.
  pose proof (resolved_hyperparameters_truthy manual_request
    (Some {| ts_cron_expression := "0 0 * * *"; ts_is_paused := false;
             ts_rank := Some 50; ts_regParam := None; ts_alpha := None;
             ts_maxIter := Some 25 |})) as (_ & _ & _ & _ & H & _).
  apply H. reflexivity.
Defined.

(** ** Stream parser: what the dict can hold *)

Lemma parse_structured_dom (line : string) (k : Z) (e : gmap string Q) :
  parse_structured line = Some (k, e) → dom e = list_to_set metric_types.
Proof.
  unfold parse_structured. intros Hp.
  destruct (search metric_re line) as [groups|]; [|discriminate]. cbn in Hp.
  unfold convert_metric in Hp.
  do 8 (destruct groups as [|? groups]; try discriminate).
  simplify_option_eq. unfold metric_entry, metric_types.
  rewrite !dom_insert_L, dom_empty_L. set_solver.
Qed.

Lemma recorded_shape_ndcg (k : Z) (e : gmap string Q) :
  recorded_shape k e → is_Some (e !! "ndcg").
Proof.
  intros [H|[_ H]]; apply elem_of_dom; rewrite H; unfold metric_types; set_solver.
Qed.

Lemma structured_update_shape (em : gmap Z (gmap string Q)) (line : string) :
  map_Forall recorded_shape em → map_Forall recorded_shape (structured_update em line).
Proof.
  intros Hem. unfold structured_update.
  destruct (parse_structured line) as [[k e]|] eqn:Hp; [|done].
  apply map_Forall_insert_2; [|done]. left. by eapply parse_structured_dom.
Qed.

Lemma record_legacy_shape (em : gmap Z (gmap string Q)) (v : Q) :
  map_Forall recorded_shape em →
  map_Forall recorded_shape (record_legacy em v)
  ∧ is_Some (record_legacy em v !! 10).
Proof.
  intros Hem. unfold record_legacy. destruct (em !! 10) as [m|] eqn:Hm.
  - rewrite !Hm. cbn. pose proof (recorded_shape_ndcg 10 m (Hem 10 m Hm)) as [n Hn].
    rewrite Hn. by rewrite Hm.
  - rewrite !lookup_insert_eq. cbn. rewrite lookup_empty. split.
    + rewrite insert_insert_eq. apply map_Forall_insert_2; [|done].
      right. split; [done|]. by rewrite dom_insert_L, dom_empty_L, union_empty_r_L.
    + by rewrite lookup_insert_eq.
Qed.

Lemma parse_line_shape (st : ParserState) (line : string) :
  map_Forall recorded_shape (extracted_metrics st) →
  (is_Some (ndcg_value st) → is_Some (extracted_metrics st !! 10)) →
  map_Forall recorded_shape (extracted_metrics (parse_line st line))
  ∧ (is_Some (ndcg_value (parse_line st line)) →
     is_Some (extracted_metrics (parse_line st line) !! 10))
  ∧ dom (extracted_metrics st) ⊆ dom (extracted_metrics (parse_line st line)).
Proof.
  intros Hem Hn.
  pose proof (structured_update_shape _ line Hem) as Hs.
  assert (Hdom : dom (extracted_metrics st)
                 ⊆ dom (structured_update (extracted_metrics st) line)).
  { unfold structured_update. destruct (parse_structured line) as [[k e]|]; [|done].
    rewrite dom_insert. set_solver. }
  unfold parse_line. destruct (parse_legacy line) as [v|]; cbn.
  - destruct (record_legacy_shape _ v Hs) as [H1 H2]. split; [done|]. split; [done|].
    etrans; [exact Hdom|]. intros k Hk. apply elem_of_dom in Hk as [e Hk].
    apply elem_of_dom. destruct (decide (k = 10)) as [->|Hne]; [done|].
    rewrite record_legacy_other by done. by eexists.
  - split; [done|]. split; [|done]. intros Hv. destruct (Hn Hv) as [m Hm].
    apply elem_of_dom, Hdom, elem_of_dom. by eexists.
Qed.

(** X5. Whatever lines the process prints, every entry the parser has
    recorded holds either the six metric types of a structured line or,
    for cutoff 10 only, the lone ndcg value of a legacy line; so every
    recorded cutoff has an ndcg value. When a legacy value has been seen
    the dict has an entry for cutoff 10. And reading more lines never
    removes a recorded cutoff. *)
Theorem parser_entries_shape (lines more : list string) :
  map_Forall recorded_shape (extracted_metrics (parse_lines parser_init lines))
  ∧ (∀ k e, extracted_metrics (parse_lines parser_init lines) !! k = Some e →
       is_Some (e !! "ndcg"))
  ∧ (is_Some (ndcg_value (parse_lines parser_init lines)) →
     is_Some (extracted_metrics (parse_lines parser_init lines) !! 10))
  ∧ dom (extracted_metrics (parse_lines parser_init lines))
    ⊆ dom (extracted_metrics (parse_lines parser_init (lines ++ more))).
Proof.
  assert (Hinv : ∀ ls st,
    map_Forall recorded_shape (extracted_metrics st) →
    (is_Some (ndcg_value st) → is_Some (extracted_metrics st !! 10)) →
    map_Forall recorded_shape (extracted_metrics (parse_lines st ls))
    ∧ (is_Some (ndcg_value (parse_lines st ls)) →
       is_Some (extracted_metrics (parse_lines st ls) !! 10))
    ∧ dom (extracted_metrics st) ⊆ dom (extracted_metrics (parse_lines st ls))).
  { induction ls as [|l ls IH]; intros st H1 H2; [done|]. cbn.
    destruct (parse_line_shape st l H1 H2) as (H3 & H4 & H5).
    destruct (IH _ H3 H4) as (H6 & H7 & H8). split; [done|]. split; [done|].
    by etrans. }
  destruct (Hinv lines parser_init) as (H1 & H2 & _).
  { cbn. apply map_Forall_empty. }
  { cbn. by intros [? ?]. }
  split; [done|]. split.
  { intros k e He. eapply recorded_shape_ndcg. by apply (H1 k e). }
  split; [done|].
  unfold parse_lines at 2. rewrite foldl_app. by apply Hinv.
Qed.

(** X6. Reading the same line twice in a row changes nothing more than
    reading it once: the parser state after the second reading is the
    state after the first. *)
Theorem parse_line_idempotent (st : ParserState) (line : string) :
  parse_line (parse_line st line) line = parse_line st line.
Proof.
  assert (Hs : ∀ em, structured_update (structured_update em line) line
                     = structured_update em line).
  { intros em. unfold structured_update.
    destruct (parse_structured line) as [[k e]|]; [|done]. by rewrite insert_insert_eq. }
  unfold parse_line at 2. destruct (parse_legacy line) as [v|] eqn:Hv.
  - unfold parse_line. rewrite Hv. cbn. f_equal.
    set (em0 := structured_update (extracted_metrics st) line).
    assert (H10 : ∃ m, record_legacy em0 v !! 10 = Some m ∧ is_Some (m !! "ndcg")).
    { unfold record_legacy. destruct (em0 !! 10) as [m|] eqn:Hm.
      - rewrite !Hm. cbn. destruct (m !! "ndcg") as [n|] eqn:Hn.
        + exists m. split; [done|]. by eexists.
        + eexists. rewrite lookup_insert_eq. split; [done|].
          rewrite lookup_insert_eq. by eexists.
      - rewrite !lookup_insert_eq. cbn. rewrite lookup_empty.
        eexists. rewrite lookup_insert_eq. split; [done|].
        rewrite lookup_insert_eq. by eexists. }
    destruct H10 as (m & Hm & Hn).
    assert (Hsame : structured_update (record_legacy em0 v) line = record_legacy em0 v).
    { unfold structured_update. destruct (parse_structured line) as [[k e]|] eqn:Hp; [|done].
      apply insert_id. destruct (decide (k = 10)) as [->|Hne].
      - assert (He : em0 !! 10 = Some e).
        { unfold em0, structured_update. rewrite Hp. by rewrite lookup_insert_eq. }
        rewrite (record_legacy_populated em0 v e He); [done|].
        by eapply parse_structured_ndcg.
      - rewrite record_legacy_other by done.
        unfold em0, structured_update. rewrite Hp. by rewrite lookup_insert_eq. }
    rewrite Hsame. by eapply record_legacy_populated.
  - unfold parse_line. rewrite Hv. cbn. by rewrite Hs.
Qed.

(** ** The background task and the trigger only ever extend the store *)

Lemma db_extends_refl (db : Database) : db_extends db db.
Proof.
  split; [done|]. split; [exists []; by rewrite app_nil_r|].
  split; exists []; by rewrite app_nil_r.
Qed.

Lemma db_extends_trans (db1 db2 db3 : Database) :
  db_extends db1 db2 → db_extends db2 db3 → db_extends db1 db3.
Proof.
  intros (Hs1 & (r1 & Hr1) & (v1 & Hv1 & Hi1) & (m1 & Hm1))
         (Hs2 & (r2 & Hr2) & (v2 & Hv2 & Hi2) & (m2 & Hm2)).
  split; [congruence|]. split.
  { exists (r1 ++ r2). by rewrite Hr2, Hr1, app_assoc. }
  split.
  { exists (v1 ++ v2). rewrite Hv2, Hv1, app_assoc. split; [done|]. by apply Forall_app. }
  exists (m1 ++ m2). by rewrite Hm2, Hm1, app_assoc.
Qed.

Lemma runs_only_refl (db : Database) : runs_only db db.
Proof. repeat split; try done. exists []. by rewrite app_nil_r. Qed.

Lemma runs_only_trans (db1 db2 db3 : Database) :
  runs_only db1 db2 → runs_only db2 db3 → runs_only db1 db3.
Proof.
  intros (Hs1 & Hv1 & Hm1 & r1 & Hr1) (Hs2 & Hv2 & Hm2 & r2 & Hr2).
  repeat split; try congruence. exists (r1 ++ r2). by rewrite Hr2, Hr1, app_assoc.
Qed.

Lemma runs_only_extends (db db' : Database) : runs_only db db' → db_extends db db'.
Proof.
  intros (Hs & Hv & Hm & Hr). split; [done|]. split; [done|].
  split; [exists []; by rewrite app_nil_r|]. exists []. by rewrite app_nil_r.
Qed.

Section WorldRel.
Context (R : relation Database).
Hypothesis R_refl : ∀ db, R db db.
Hypothesis R_trans : ∀ db1 db2 db3, R db1 db2 → R db2 db3 → R db1 db3.

Lemma world_rel_same (w w' : World) :
  w_db w' = w_db w → w_trace w' = w_trace w → world_rel R w w'.
Proof.
  intros Hdb Htr. exists []. split; [done|]. split; [constructor|]. by rewrite Hdb.
Qed.

Lemma world_rel_refl (w : World) : world_rel R w w.
Proof. by apply world_rel_same. Qed.

Lemma world_rel_trans (w1 w2 w3 : World) :
  world_rel R w1 w2 → world_rel R w2 w3 → world_rel R w1 w3.
Proof.
  intros (c1 & Ht1 & Hc1 & Hd1) (c2 & Ht2 & Hc2 & Hd2).
  exists (c2 ++ c1). split; [by rewrite Ht2, Ht1, app_assoc|]. split.
  - apply Forall_app. split; [|done].
    eapply Forall_impl; [exact Hc2|]. intros db. by apply R_trans.
  - by eapply R_trans.
Qed.

(** A commit whose flush is in the relation. *)
Lemma commit_rel (env : Env) (flush : Database → Exception + Database) (w : World) :
  (∀ db', flush (w_db w) = inr db' → R (w_db w) db') →
  world_rel R w (commit env flush w).2.
Proof.
  intros Hflush. unfold commit. destruct (db_fault env (w_commits w)); cbn.
  { by apply world_rel_same. }
  destruct (flush (w_db w)) as [e|db'] eqn:Hf; cbn.
  { by apply world_rel_same. }
  exists [db']. split; [done|]. split; [|by apply Hflush].
  constructor; [by apply Hflush | constructor].
Qed.

End WorldRel.

Lemma world_rel_mono (R R' : relation Database) (w w' : World) :
  (∀ db db', R db db' → R' db db') → world_rel R w w' → world_rel R' w w'.
Proof.
  intros HR (c & Ht & Hc & Hd). exists c. split; [done|]. split; [|by apply HR].
  eapply Forall_impl; [exact Hc|]. intros db. apply HR.
Qed.

Lemma world_extends_refl (w : World) : world_extends w w.
Proof. apply world_rel_refl, db_extends_refl. Qed.

Lemma world_extends_trans (w1 w2 w3 : World) :
  world_extends w1 w2 → world_extends w2 w3 → world_extends w1 w3.
Proof. apply world_rel_trans, db_extends_trans. Qed.

Lemma world_extends_same (w w' : World) :
  w_db w' = w_db w → w_trace w' = w_trace w → world_extends w w'.
Proof. apply world_rel_same, db_extends_refl. Qed.

Lemma flush_session_schedule (env : Env) (run_id : string) (s : Session) (t : nat)
    (db : Database) :
  training_schedule (flush_session env run_id s t db) = training_schedule db.
Proof.
  unfold flush_session.
  set (db1 := if run_dirty s then _ else db).
  assert (H1 : training_schedule db1 = training_schedule db)
    by (subst db1; by destruct (run_dirty s)).
  set (db2 := match s_version s with Some _ => _ | None => db1 end).
  assert (H2 : training_schedule db2 = training_schedule db1)
    by (subst db2; by destruct (s_version s)).
  destruct (insert_metrics_tables env (s_metrics s) (S (S t)) db2) as (_ & H3 & _).
  by rewrite H3, H2, H1.
Qed.

Lemma flush_session_identity (env : Env) (run_id : string) (s : Session) (t : nat)
    (db : Database) :
  run_identity <$> model_runs (flush_session env run_id s t db)
  = run_identity <$> model_runs db.
Proof.
  unfold flush_session.
  set (db1 := if run_dirty s then _ else db).
  assert (H1 : run_identity <$> model_runs db1 = run_identity <$> model_runs db).
  { subst db1. destruct (run_dirty s); [|done]. cbn.
    rewrite <- list_fmap_compose. apply list_fmap_ext. intros _ r _. cbn.
    by case_bool_decide. }
  set (db2 := match s_version s with Some _ => _ | None => db1 end).
  assert (H2 : model_runs db2 = model_runs db1) by (subst db2; by destruct (s_version s)).
  destruct (insert_metrics_tables env (s_metrics s) (S (S t)) db2) as (H3 & _).
  by rewrite H3, H2, H1.
Qed.

Lemma flush_session_extends (env : Env) (run_id : string) (s : Session) (t : nat)
    (db : Database) :
  db_extends db (flush_session env run_id s t db).
Proof.
  split; [apply flush_session_schedule|]. split.
  { exists []. by rewrite flush_session_identity, app_nil_r. }
  split.
  { eexists. split; [apply flush_session_versions|].
    destruct (s_version s); repeat constructor. }
  destruct (flush_session_metrics env run_id s t db) as (added & H & _). by exists added.
Qed.

Lemma cancel_existing_identity (env : Env) (runs : list ModelRun) (t : nat) :
  run_identity <$> (cancel_existing env t runs).1 = run_identity <$> runs.
Proof.
  revert t. induction runs as [|r rs IH]; intros t; cbn; [done|].
  destruct (is_active r).
  - specialize (IH (S (S t))). destruct (cancel_existing env (S (S t)) rs). cbn in *.
    by rewrite IH.
  - specialize (IH t). destruct (cancel_existing env t rs). cbn in *. by rewrite IH.
Qed.

Lemma set_model_runs_only (db : Database) (runs more : list ModelRun) :
  run_identity <$> runs = run_identity <$> model_runs db →
  runs_only db (set_model_runs db (runs ++ more)).
Proof.
  intros Hid. repeat split; try done.
  exists (run_identity <$> more). cbn. by rewrite fmap_app, Hid.
Qed.

(** The trigger endpoint changes nothing but the table of runs, where it
    keeps every run and what identifies it. *)
Lemma trigger_runs_only (env : Env) (uuid : string) (request : ModelRunCreate) (w : World) :
  world_rel runs_only w (trigger_manual_run env uuid request w).2.
Proof.
  unfold trigger_manual_run.
  pose proof (cancel_existing_identity env (model_runs (w_db w)) (w_tick w)) as Hid.
  destruct (cancel_existing env (w_tick w) (model_runs (w_db w))) as [runs' t'].
  cbn [fst] in Hid.
  set (first := if bool_decide (active_runs (w_db w) = []) then _ else _).
  assert (H1 : world_rel runs_only w first.2).
  { subst first. case_bool_decide; [apply world_rel_refl, runs_only_refl|].
    eapply world_rel_trans; [apply runs_only_trans| |apply commit_rel].
    - apply (world_rel_same _ runs_only_refl); done.
    - apply runs_only_refl.
    - intros db' [= <-]. cbn. rewrite <- (app_nil_r runs').
      by apply set_model_runs_only. }
  clearbody first. destruct first as [[[]|e] w1]; cbn in *; [|done].
  eapply world_rel_trans; [apply runs_only_trans | exact H1 |].
  match goal with
  | |- context [commit env ?f ?w5] =>
      assert (H2 : world_rel runs_only w5 (commit env f w5).2);
      [|destruct (commit env f w5) as [[] w6]]
  end.
  - apply commit_rel; [apply runs_only_refl|]. unfold insert_run. intros db'.
    repeat case_bool_decide; try done. destruct (run_id_exists _ _); [done|].
    intros [= <-]. by apply set_model_runs_only.
  - cbn in *. eapply world_rel_trans; [apply runs_only_trans | | exact H2].
    by apply (world_rel_same _ runs_only_refl).
  - cbn in *. eapply world_rel_trans; [apply runs_only_trans | | exact H2].
    by apply (world_rel_same _ runs_only_refl).
Qed.

Lemma trigger_extends (env : Env) (uuid : string) (request : ModelRunCreate) (w : World) :
  world_extends w (trigger_manual_run env uuid request w).2.
Proof. eapply world_rel_mono; [apply runs_only_extends | apply trigger_runs_only]. Qed.

(** *** The blocks of the task *)

Lemma extending_ret {A : Type} (a : A) : extending (mret a).
Proof. intros ts. apply world_extends_refl. Qed.

Lemma extending_raise {A : Type} (e : Exception) : extending (@raise A e).
Proof. intros ts. apply world_extends_refl. Qed.

Lemma extending_early_return {A : Type} : extending (@early_return A).
Proof. intros ts. apply world_extends_refl. Qed.

Lemma extending_bind {A B : Type} (m : M A) (f : A → M B) :
  extending m → (∀ a, extending (f a)) → extending (m ≫= f).
Proof.
  intros Hm Hf ts. unfold mbind, M_bind. specialize (Hm ts).
  destruct (m ts) as [[a|e|] ts']; cbn in *; [|done..].
  eapply world_extends_trans; [exact Hm | apply Hf].
Qed.

Lemma extending_try_except {A : Type} (body : M A) (handler : Exception → M A) :
  extending body → (∀ e, extending (handler e)) → extending (try_except body handler).
Proof.
  intros Hm Hf ts. unfold try_except. specialize (Hm ts).
  destruct (body ts) as [[a|e|] ts']; cbn in *; [done| |done].
  eapply world_extends_trans; [exact Hm | apply Hf].
Qed.

Lemma extending_get_session : extending get_session.
Proof. intros ts. apply world_extends_refl. Qed.

Lemma extending_put_session (s : Session) : extending (put_session s).
Proof. intros ts. apply world_extends_refl. Qed.

Lemma extending_now (env : Env) : extending (now env).
Proof. intros ts. by apply world_extends_same. Qed.

Lemma extending_load (run_id : string) : extending (load run_id).
Proof.
  intros ts. unfold load. repeat case_match; apply world_extends_refl.
Qed.

Lemma extending_query_run (run_id : string) : extending (query_run run_id).
Proof.
  intros ts. unfold query_run. repeat case_match; apply world_extends_refl.
Qed.

Lemma extending_db_refresh (run_id : string) : extending (db_refresh run_id).
Proof.
  intros ts. unfold db_refresh. repeat case_match; apply world_extends_refl.
Qed.

Lemma extending_db_commit (env : Env) (run_id : string) : extending (db_commit env run_id).
Proof.
  intros ts. unfold db_commit. destruct (s_invalid (t_session ts)).
  { apply world_extends_refl. }
  match goal with
  | |- context [commit env ?f ?w0] =>
      assert (H : world_extends w0 (commit env f w0).2);
      [|destruct (commit env f w0) as [[] w']]
  end.
  - apply commit_rel; [apply db_extends_refl|]. intros db' [= <-].
    apply flush_session_extends.
  - cbn in *. eapply world_extends_trans; [|exact H]. by apply world_extends_same.
  - cbn in *. eapply world_extends_trans; [|exact H]. by apply world_extends_same.
Qed.

Lemma extending_interleave (env : Env) (i : Interleaving) : extending (interleave env i).
Proof.
  intros ts. unfold interleave. destruct i as [|uuid request]; cbn.
  - apply world_extends_refl.
  - apply trigger_extends.
Qed.

Create HintDb extending.

#[local] Hint Resolve extending_ret extending_raise extending_early_return
  extending_get_session extending_put_session extending_now extending_load
  extending_query_run extending_db_refresh extending_db_commit
  extending_interleave : extending.

(** One step through a block: a bind, a handler, a branch, or a block
    that is known to extend. *)
Ltac extending_step :=
  first
    [ solve [eauto with extending]
    | apply extending_bind
    | apply extending_try_except
    | match goal with |- ∀ _, _ => intro end
    | match goal with |- extending (match ?x with _ => _ end) => destruct x end
    | progress cbv zeta ].

Ltac extending_auto := repeat extending_step.

Lemma extending_read_status (run_id : string) : extending (read_status run_id).
Proof. unfold read_status. extending_auto. Qed.

Lemma extending_read_logs (run_id : string) : extending (read_logs run_id).
Proof. unfold read_logs. extending_auto. Qed.

Lemma extending_read_start_time (run_id : string) : extending (read_start_time run_id).
Proof. unfold read_start_time. extending_auto. Qed.

Lemma extending_assign_status (v : string) : extending (assign_status v).
Proof. unfold assign_status. extending_auto. Qed.

Lemma extending_assign_logs (v : option string) : extending (assign_logs v).
Proof. unfold assign_logs. extending_auto. Qed.

Lemma extending_assign_end_time (v : option datetime) : extending (assign_end_time v).
Proof. unfold assign_end_time. extending_auto. Qed.

Lemma extending_assign_duration (v : option string) : extending (assign_duration v).
Proof. unfold assign_duration. extending_auto. Qed.

Lemma extending_db_add_version (tag path : string) : extending (db_add_version tag path).
Proof. unfold db_add_version. extending_auto. Qed.

Lemma extending_db_add_metrics (rows : list (Z * string * Q)) :
  extending (db_add_metrics rows).
Proof. unfold db_add_metrics. extending_auto. Qed.

Lemma extending_read_version_id : extending read_version_id.
Proof. unfold read_version_id. extending_auto. Qed.

Lemma extending_db_rollback : extending db_rollback.
Proof. unfold db_rollback. extending_auto. Qed.

#[local] Hint Resolve extending_read_status extending_read_logs extending_read_start_time
  extending_assign_status extending_assign_logs extending_assign_end_time
  extending_assign_duration extending_db_add_version extending_db_add_metrics
  extending_read_version_id extending_db_rollback : extending.

Lemma extending_append_logs (run_id text : string) : extending (append_logs run_id text).
Proof. unfold append_logs. extending_auto. Qed.

#[local] Hint Resolve extending_append_logs : extending.

Lemma extending_stamp_end (env : Env) (run_id : string) : extending (stamp_end env run_id).
Proof. unfold stamp_end. extending_auto. Qed.

Lemma extending_terminate_process (sc : TaskScript) (run_id : string) :
  extending (terminate_process sc run_id).
Proof. unfold terminate_process. extending_auto. Qed.

#[local] Hint Resolve extending_stamp_end extending_terminate_process : extending.

Lemma extending_cancel_during_training (env : Env) (sc : TaskScript) (run_id : string) :
  extending (cancel_during_training env sc run_id).
Proof. unfold cancel_during_training. extending_auto. Qed.

Lemma extending_cancel_after_loop (env : Env) (sc : TaskScript) (run_id : string) :
  extending (cancel_after_loop env sc run_id).
Proof. unfold cancel_after_loop. extending_auto. Qed.

#[local] Hint Resolve extending_cancel_during_training extending_cancel_after_loop
  : extending.

Lemma extending_read_loop (env : Env) (sc : TaskScript) (run_id : string)
    (steps : list ReadStep) (n : nat) (st : ParserState) :
  extending (read_loop env sc run_id steps n st).
Proof.
  revert n st. induction steps as [|step steps IH]; intros n st; cbn [read_loop];
    extending_auto.
Qed.

Lemma extending_save_metrics (env : Env) (run_id : string) (em : gmap Z (gmap string Q)) :
  extending (save_metrics env run_id em).
Proof. unfold save_metrics. extending_auto. Qed.

#[local] Hint Resolve extending_read_loop extending_save_metrics : extending.

Lemma extending_save_model_version (env : Env) (sc : TaskScript) (run_id : string)
    (hp : Hyperparameters) (tag : string) (em : gmap Z (gmap string Q)) :
  extending (save_model_version env sc run_id hp tag em).
Proof. unfold save_model_version. extending_auto. Qed.

#[local] Hint Resolve extending_save_model_version : extending.

Lemma extending_finish (env : Env) (sc : TaskScript) (run_id : string)
    (hp : Hyperparameters) (tag : string) (st : ParserState) :
  extending (finish env sc run_id hp tag st).
Proof. unfold finish. extending_auto. Qed.

#[local] Hint Resolve extending_finish : extending.

Lemma extending_supervise (env : Env) (sc : TaskScript) (run_id : string)
    (hp : Hyperparameters) (tag : string) :
  extending (supervise env sc run_id hp tag).
Proof. unfold supervise. extending_auto. Qed.

Lemma extending_on_process_error (env : Env) (sc : TaskScript) (run_id : string)
    (e : Exception) :
  extending (on_process_error env sc run_id e).
Proof. unfold on_process_error. extending_auto. Qed.

#[local] Hint Resolve extending_supervise extending_on_process_error : extending.

Lemma extending_task_body (env : Env) (sc : TaskScript) (run_id : string)
    (hp : Hyperparameters) :
  extending (task_body env sc run_id hp).
Proof. unfold task_body. extending_auto. Qed.

Lemma extending_on_fatal_error (env : Env) (sc : TaskScript) (run_id : string)
    (e : Exception) :
  extending (on_fatal_error env sc run_id e).
Proof. unfold on_fatal_error. extending_auto. Qed.

(** Whatever the process does, whatever requests are served in between
    and whichever commits the database refuses, the task only extends
    the store. *)
Lemma run_training_task_extends (env : Env) (sc : TaskScript) (run_id : string)
    (hp : Hyperparameters) (w : World) :
  world_extends w (run_training_task env sc run_id hp w).2.
Proof.
  unfold run_training_task.
  pose proof (extending_try_except _ _ (extending_task_body env sc run_id hp)
                (extending_on_fatal_error env sc run_id)
                {| t_world := w; t_session := session_init |}) as H.
  by destruct (try_except _ _ _) as [r ts].
Qed.

(** X7. Training never touches what has been published. Whatever the
    process prints or however it ends, whatever trigger requests are
    served while the task is suspended and whichever commits the
    database refuses: in the store the task leaves, and in every state
    committed on the way, the version rows that were there are still
    there, unchanged and in front, and every version row that has been
    added is inactive, so the set of active versions is what it was; and
    the metric rows that were there are still there, unchanged and in
    front. *)
Theorem training_never_rewrites_published
    (env : Env) (sc : TaskScript) (run_id : string) (hp : Hyperparameters) (w : World) :
  ∃ committed,
    w_trace (run_training_task env sc run_id hp w).2 = committed ++ w_trace w
    ∧ Forall (λ db,
        (∃ added, model_versions db = model_versions (w_db w) ++ added
                  ∧ Forall (λ v, mv_isActive v = false) added)
        ∧ filter (λ v, mv_isActive v = true) (model_versions db)
          = filter (λ v, mv_isActive v = true) (model_versions (w_db w))
        ∧ ∃ added, metrics db = metrics (w_db w) ++ added)
      (w_db (run_training_task env sc run_id hp w).2 :: committed).
Proof.
  destruct (run_training_task_extends env sc run_id hp w) as (committed & Htr & Hc & Hd).
  exists committed. split; [done|].
  eapply Forall_impl; [exact (Forall_cons_2 _ _ _ Hd Hc)|].
  intros db (_ & _ & (added & Hv & Hin) & Hm). split; [by exists added|]. split; [|done].
  rewrite Hv, filter_app. rewrite <- (app_nil_r (filter _ (model_versions (w_db w)))) at 2.
  f_equal. clear Hv. induction Hin as [|v vs Hv _ IH]; [done|].
  rewrite filter_cons_False; [done|]. by rewrite Hv.
Qed.

(** X8. Training never removes a run and never rewrites what identifies
    one. With the same generality as above: in the store the task leaves
    and in every state committed on the way, the runs that were stored
    are still stored, in their order, each with its id, alias, start
    time, trigger type, hyperparameters and creation time as they were
    (runs created by triggers served in between come after them); and
    the training schedule is what it was. *)
Theorem training_keeps_runs_and_schedule
    (env : Env) (sc : TaskScript) (run_id : string) (hp : Hyperparameters) (w : World) :
  ∃ committed,
    w_trace (run_training_task env sc run_id hp w).2 = committed ++ w_trace w
    ∧ Forall (λ db,
        training_schedule db = training_schedule (w_db w)
        ∧ ∃ more, run_identity <$> model_runs db
                  = (run_identity <$> model_runs (w_db w)) ++ more)
      (w_db (run_training_task env sc run_id hp w).2 :: committed).
Proof.
  destruct (run_training_task_extends env sc run_id hp w) as (committed & Htr & Hc & Hd).
  exists committed. split; [done|].
  eapply Forall_impl; [exact (Forall_cons_2 _ _ _ Hd Hc)|].
  by intros db (Hs & Hr & _).
Qed.

Ltac states_ok :=
  repeat (constructor;
          [first [ match goal with H : _ |- _ => exact H end ]|]);
  constructor.

(** X9. The trigger endpoint writes to the table of runs only. Whatever
    the store holds and whether the call completes or raises: it commits
    at most two states; in each of them and in the store it leaves, the
    schedule, the version rows and the metric rows are exactly what they
    were, and the runs that were stored are still stored, in their order,
    each with its id, alias, start time, trigger type, hyperparameters
    and creation time as they were, followed by at most one new run. *)
Theorem trigger_writes_runs_only
    (env : Env) (uuid : string) (request : ModelRunCreate) (w : World) :
  ∃ committed,
    w_trace (trigger_manual_run env uuid request w).2 = committed ++ w_trace w
    ∧ (length committed ≤ 2)%nat
    ∧ Forall (λ db,
        training_schedule db = training_schedule (w_db w)
        ∧ model_versions db = model_versions (w_db w)
        ∧ metrics db = metrics (w_db w)
        ∧ ∃ more, run_identity <$> model_runs db
                  = (run_identity <$> model_runs (w_db w)) ++ more
                  ∧ (length more ≤ 1)%nat)
      (w_db (trigger_manual_run env uuid request w).2 :: committed).
Proof.
  assert (Hkeep : ∀ runs more, run_identity <$> runs = run_identity <$> model_runs (w_db w) →
            (length more ≤ 1)%nat →
            training_schedule (set_model_runs (w_db w) (runs ++ more))
            = training_schedule (w_db w)
            ∧ model_versions (set_model_runs (w_db w) (runs ++ more))
              = model_versions (w_db w)
            ∧ metrics (set_model_runs (w_db w) (runs ++ more)) = metrics (w_db w)
            ∧ ∃ more', run_identity <$> model_runs (set_model_runs (w_db w) (runs ++ more))
                       = (run_identity <$> model_runs (w_db w)) ++ more'
                       ∧ (length more' ≤ 1)%nat).
  { intros runs more Hid Hlen. repeat split; try done.
    exists (run_identity <$> more). cbn. rewrite fmap_app, Hid, length_fmap. by split. }
  assert (Hsame : training_schedule (w_db w) = training_schedule (w_db w)
            ∧ model_versions (w_db w) = model_versions (w_db w)
            ∧ metrics (w_db w) = metrics (w_db w)
            ∧ ∃ more', run_identity <$> model_runs (w_db w)
                       = (run_identity <$> model_runs (w_db w)) ++ more'
                       ∧ (length more' ≤ 1)%nat).
  { repeat split; try done. exists []. rewrite app_nil_r. split; [done | cbn; lia]. }
  destruct (trigger_manual_run env uuid request w) as [res w'] eqn:Htrig.
  cbn [snd]. revert Htrig. unfold trigger_manual_run.
  pose proof (cancel_existing_identity env (model_runs (w_db w)) (w_tick w)) as Hid.
  destruct (cancel_existing env (w_tick w) (model_runs (w_db w))) as [runs' t'].
  cbn [fst] in Hid.
  case_bool_decide as Hact.
  - cbn. unfold commit. cbn.
    destruct (db_fault env (w_commits w)) as [msg|].
    { intros [= <- <-]. exists []. cbn. split; [done|]. split; [lia|]. states_ok. }
    set (new_run := new_model_run _ _ _ _ _ _ _).
    unfold insert_run.
    destruct (bool_decide (r_id new_run ∈ _)).
    { intros [= <- <-]. exists []. cbn. split; [done|]. split; [lia|]. states_ok. }
    destruct (run_id_exists _ _).
    { intros [= <- <-]. exists []. cbn. split; [done|]. split; [lia|]. states_ok. }
    intros [= <- <-]. cbn. eexists [_]. split; [done|]. split; [cbn; lia|].
    assert (Hnew := Hkeep (model_runs (w_db w)) [new_run] eq_refl ltac:(cbn; lia)).
    states_ok.
  - unfold commit at 1. cbn.
    destruct (db_fault env (w_commits w)) as [msg|].
    { intros [= <- <-]. exists []. cbn. split; [done|]. split; [lia|]. states_ok. }
    cbn. unfold commit. cbn.
    assert (Hmid := Hkeep runs' [] Hid ltac:(cbn; lia)). rewrite app_nil_r in Hmid.
    destruct (db_fault env (S (w_commits w))) as [msg|].
    { intros [= <- <-]. eexists [_]. cbn. split; [done|]. split; [lia|]. states_ok. }
    set (new_run := new_model_run _ _ _ _ _ _ _).
    unfold insert_run.
    destruct (bool_decide (r_id new_run ∈ _)).
    { intros [= <- <-]. eexists [_]. cbn. split; [done|]. split; [lia|]. states_ok. }
    destruct (run_id_exists _ _).
    { intros [= <- <-]. eexists [_]. cbn. split; [done|]. split; [lia|]. states_ok. }
    intros [= <- <-]. cbn. eexists [_; _]. split; [done|]. split; [cbn; lia|].
    assert (Hnew := Hkeep runs' [new_run] Hid ltac:(cbn; lia)).
    states_ok.
Qed.

(** ** The background task: runs that are not started, and runs that fail *)

(** X10. A task started for a run that is not in the store, or for a run
    that has been cancelled before the task starts, returns at once: it
    commits nothing and reads no clock, whatever the process would have
    done; the store is left exactly as it was. *)
Theorem task_skips_missing_or_cancelled
    (env : Env) (sc : TaskScript) (run_id : string) (hp : Hyperparameters) (w : World) :
  (find_run run_id (w_db w) = None
   ∨ ∃ r, find_run run_id (w_db w) = Some r ∧ r_status r = "cancelled") →
  run_training_task env sc run_id hp w = (Return, w).
Proof.
  intros [Hnone|(r & Hr & Hst)]; unfold run_training_task, task_body; task_step.
  - by rewrite Hnone.
  - rewrite Hr. task_simpl. rewrite Hst. reflexivity.
Qed.

Lemma task_skips_missing_or_cancelled_witness :
  run_training_task sample_env (sample_script two_metric_lines (inr 0)) "run-0"
    sample_hyperparameters (sample_world [sample_run "run-0" "manual__x" "cancelled"])
  = (Return, sample_world [sample_run "run-0" "manual__x" "cancelled"]).
Proof.
  apply task_skips_missing_or_cancelled. right.
  exists (sample_run "run-0" "manual__x" "cancelled"). split; reflexivity.
Defined.

Section Failure.
Context (env : Env) (sc : TaskScript) (run_id : string) (hp : Hyperparameters).
Hypothesis no_fault : ∀ n, db_fault env n = None.

Lemma supervise_failure (w2 : World) (s2 : Session) (r2 : ModelRun) (tag : string)
    (code : Z) :
  undisturbed sc →
  wait_result sc = inr code → code ≠ 0 →
  find_run run_id (w_db w2) = Some r2 → r_status r2 = "running" → is_Some (r_logs r2) →
  s_invalid s2 = false → s_version s2 = None → s_metrics s2 = [] →
  ∃ w5 s5 r5,
    (try_except (supervise env sc run_id hp tag) (on_process_error env sc run_id);;
     db_commit env run_id) {| t_world := w2; t_session := s2 |}
    = (Val (), {| t_world := w5; t_session := s5 |})
    ∧ find_run run_id (w_db w5) = Some r5
    ∧ r_status r5 = "failed" ∧ is_Some (r_end_time r5) ∧ is_Some (r_duration r5)
    ∧ model_versions (w_db w5) = model_versions (w_db w2)
    ∧ metrics (w_db w5) = metrics (w_db w2).
Proof.
  intros quiet Hwait Hcode Hr2 Hst2 Hlogs2 Hinv Hver Hmet.
  destruct quiet as (_ & _ & _ & Heof & Hat_wait & Hsteps).
  destruct (read_loop_quiet env sc run_id no_fault Heof (reads sc) Hsteps
              0%nat parser_init w2 s2 r2)
    as (tick & extra & s3 & Hloop & Hinv3 & Hver3 & Hmet3 & _ & Hextra); try done.
  { by rewrite Hst2. }
  destruct Hlogs2 as [logs2 Hlogs2].
  unfold supervise. task_step. rewrite Hloop. task_simpl.
  rewrite Hinv3, Hr2. task_simpl. rewrite Hst2.
  rewrite bool_decide_eq_false_2 by discriminate.
  unfold finish. task_step. rewrite Hat_wait, Hwait. task_simpl.
  rewrite Hlogs2. task_simpl.
  rewrite bool_decide_eq_false_2 by done. task_simpl.
  rewrite no_fault. task_simpl.
  set (sF := {| s_invalid := false; s_loaded := Some r2; s_status := Some "failed" |}).
  set (dbF := flush_session env run_id sF (S tick) (w_db w2)).
  assert (Hdirty : run_dirty sF = true).
  { apply bool_decide_eq_true_2. left. by eexists. }
  pose proof (flush_session_run env run_id sF (S tick) (w_db w2) r2 Hr2) as HrF.
  rewrite Hdirty in HrF. fold dbF in HrF.
  destruct (flush_session_no_inserts env run_id sF (S tick) (w_db w2)) as [Hv Hm]; [done..|].
  fold dbF in Hv, Hm.
  eexists {| w_db := dbF |}, _, _. split; [reflexivity|]. cbn [w_db].
  split; [exact HrF|]. cbn. by repeat split.
Qed.

(** X11. For a run that is not pre-empted, on a database that refuses no
    commit, whose process exits with a code other than 0: the task ends
    normally with the run stored as failed, with an end time and a
    duration; no version row and no metric row is added, whatever metric
    lines the process printed before it failed. *)
Theorem failed_exit_publishes_nothing
    (w : World) (r : ModelRun) (code : Z) :
  undisturbed sc → wait_result sc = inr code → code ≠ 0 →
  find_run run_id (w_db w) = Some r → r_status r ≠ "cancelled" →
  ∃ w' r',
    run_training_task env sc run_id hp w = (Val (), w')
    ∧ find_run run_id (w_db w') = Some r' ∧ r_status r' = "failed"
    ∧ is_Some (r_end_time r') ∧ is_Some (r_duration r')
    ∧ model_versions (w_db w') = model_versions (w_db w)
    ∧ metrics (w_db w') = metrics (w_db w).
Proof.
  intros Hquiet Hwait Hcode Hr Hst.
  destruct (task_starts env sc run_id hp no_fault Hquiet w r Hr Hst)
    as (w2 & s2 & r2 & extra & t & Hstart & Hr2 & Hst2 & Hlogs2 & Hv2 & Hm2
        & Hi2 & Hve2 & Hme2 & _).
  destruct (supervise_failure w2 s2 r2 (strftime "_" "-" (clock env t)) code
              Hquiet Hwait Hcode Hr2 Hst2 Hlogs2 Hi2 Hve2 Hme2)
    as (w5 & s5 & r5 & Hrun & Hr5 & Hst5 & Hend & Hdur & Hv5 & Hm5).
  exists w5, r5. split.
  { unfold run_training_task, try_except. rewrite Hstart.
    unfold try_except, mbind, M_bind in Hrun. unfold mbind, M_bind, try_except.
    by rewrite Hrun. }
  repeat split; try done; congruence.
Qed.

End Failure.

Lemma failed_exit_publishes_nothing_witness :
  ∃ w' r',
    run_training_task sample_env (sample_script two_metric_lines (inr 1)) "run-0"
      sample_hyperparameters (sample_world [sample_run "run-0" "manual__x" "queued"])
    = (Val (), w')
    ∧ find_run "run-0" (w_db w') = Some r' ∧ r_status r' = "failed"
    ∧ model_versions (w_db w') = [] ∧ metrics (w_db w') = [].
Proof.
  destruct (failed_exit_publishes_nothing sample_env
              (sample_script two_metric_lines (inr 1)) "run-0" sample_hyperparameters
              ltac:(reflexivity)
              (sample_world [sample_run "run-0" "manual__x" "queued"])
              (sample_run "run-0" "manual__x" "queued") 1)
    as (w' & r' & Hrun & Hr' & Hst & _ & _ & Hv & Hm).
  - repeat split; try reflexivity.
    repeat constructor; eexists; (split; [reflexivity | discriminate]).
  - reflexivity.
  - discriminate.
  - reflexivity.
  - discriminate.
  - exists w', r'. split; [exact Hrun|]. split; [exact Hr'|]. split; [exact Hst|].
    split; [exact Hv | exact Hm].
Defined.

(** X12. When the training script is not where the task looks for it:
    on a database that refuses no commit, a run that is not cancelled is
    first committed as running and then, no process having been started,
    stored as failed with an end time, a duration and a log that holds
    the start lines followed by the fatal error with the path looked at
    and the traceback; the task ends normally, and no version row and no
    metric row is added. *)
Theorem missing_script_marks_failed
    (env : Env) (sc : TaskScript) (run_id : string) (hp : Hyperparameters)
    (w : World) (r : ModelRun) :
  (∀ n, db_fault env n = None) → script_exists sc = false →
  find_run run_id (w_db w) = Some r → r_status r ≠ "cancelled" →
  ∃ w' r',
    run_training_task env sc run_id hp w = (Val (), w')
    ∧ find_run run_id (w_db w') = Some r' ∧ r_status r' = "failed"
    ∧ status_history run_id w'
      = status_history run_id w ++ [Some "running"; Some "failed"]
    ∧ is_Some (r_end_time r') ∧ is_Some (r_duration r')
    ∧ (let msg := "Training script not found at: " +:+ train_script_path sc +:+ nl +:+
                  "Please ensure train_model.py exists in the same directory as model_training_api.py" in
       r_logs r'
       = Some ((("Training started..." +:+ nl) +:+ hyperparameters_line sc hp) +:+
               nl +:+ "❌ Fatal Error: " +:+ msg +:+ nl +:+ nl +:+ "Traceback:" +:+ nl +:+
               format_exc sc (Exc "FileNotFoundError" msg) +:+ nl))
    ∧ model_versions (w_db w') = model_versions (w_db w)
    ∧ metrics (w_db w') = metrics (w_db w).
Proof.
  intros no_fault Hscript Hr Hst.
  destruct w as [db tick commits trace]. cbn in Hr.
  unfold run_training_task, task_body. task_step. rewrite Hr. task_simpl.
  rewrite bool_decide_eq_false_2 by done. task_simpl.
  rewrite no_fault. task_simpl.
  set (sA := {| s_invalid := false; s_loaded := Some r; s_status := Some "running" |}).
  set (db1 := flush_session env run_id sA tick db).
  assert (Hr1 : find_run run_id db1 = Some (apply_changes sA (clock env tick) r)).
  { unfold db1. by rewrite (flush_session_run env run_id sA tick db r Hr). }
  rewrite Hscript. task_simpl. unfold on_fatal_error. task_step.
  rewrite Hr1. task_simpl.
  rewrite ?bool_decide_eq_true_2 by discriminate. task_simpl.
  rewrite no_fault. task_simpl.
  set (sB := {| s_invalid := false; s_loaded := Some _; s_status := Some "failed" |}).
  set (db2 := flush_session env run_id sB (S (tick + 2)) db1).
  assert (Hdirty : run_dirty sB = true).
  { apply bool_decide_eq_true_2. left. by eexists. }
  pose proof (flush_session_run env run_id sB (S (tick + 2)) db1 _ Hr1) as Hr2.
  rewrite Hdirty in Hr2. fold db2 in Hr2.
  destruct (flush_session_no_inserts env run_id sA tick db) as [Hv1 Hm1]; [done..|].
  destruct (flush_session_no_inserts env run_id sB (S (tick + 2)) db1) as [Hv2 Hm2]; [done..|].
  fold db1 in Hv1, Hm1. fold db2 in Hv2, Hm2.
  eexists {| w_db := db2 |}, _. split; [reflexivity|]. cbn [w_db].
  split; [exact Hr2|]. split; [reflexivity|]. split.
  { unfold status_history. cbn [w_trace].
    rewrite !reverse_cons, !fmap_app, <- !app_assoc. cbn [fmap list_fmap app].
    by rewrite Hr1, Hr2. }
  split; [by eexists|]. split; [by eexists|]. split; [reflexivity|].
  split; congruence.
Qed.

Lemma missing_script_marks_failed_witness :
  let sc := preempted_at_wait_script [] (inr 0) in
  let lost := {| python_executable := python_executable sc;
                 train_script_path := train_script_path sc;
                 script_exists := false;
                 at_spawn := at_spawn sc; spawn_error := spawn_error sc;
                 reads := reads sc; at_eof := at_eof sc; at_wait := at_wait sc;
                 wait_result := wait_result sc; termination := termination sc;
                 remaining_output := remaining_output sc;
                 float_str := float_str sc; float_4f := float_4f sc;
                 format_exc := format_exc sc |} in
  ∃ w' r',
    run_training_task sample_env lost "run-0" sample_hyperparameters
      (sample_world [sample_run "run-0" "manual__x" "queued"]) = (Val (), w')
    ∧ find_run "run-0" (w_db w') = Some r' ∧ r_status r' = "failed".
Proof.
  intros sc lost.
  destruct (missing_script_marks_failed sample_env lost "run-0" sample_hyperparameters
              (sample_world [sample_run "run-0" "manual__x" "queued"])
              (sample_run "run-0" "manual__x" "queued"))
    as (w' & r' & Hrun & Hr' & Hst & _).
  - reflexivity.
  - reflexivity.
  - reflexivity.
  - discriminate.
  - exists w', r'. split; [exact Hrun|]. split; [exact Hr' | exact Hst].
Defined.

(** ** Model versions: which version is active *)

#[local] Instance created_at_ge_total : Total created_at_ge.
Proof. intros a b. unfold created_at_ge. lia. Qed.
#[local] Instance timestamp_ge_total : Total timestamp_ge.
Proof. intros a b. unfold timestamp_ge. lia. Qed.

Lemma filter_none {A} (P : A → Prop) `{!∀ x, Decision (P x)} (l : list A) :
  Forall (λ x, ¬ P x) l → filter P l = [].
Proof.
  induction 1 as [|x l Hx _ IH]; [done|]. by rewrite filter_cons_False.
Qed.

Lemma filter_agree {A} (P1 P2 : A → Prop)
    `{!∀ x, Decision (P1 x), !∀ x, Decision (P2 x)} (l : list A) :
  Forall (λ x, P1 x ↔ P2 x) l → filter P1 l = filter P2 l.
Proof.
  induction 1 as [|x l Hx _ IH]; [done|]. destruct (decide (P1 x)) as [H1|H1].
  - rewrite !filter_cons_True by tauto. by rewrite IH.
  - rewrite !filter_cons_False by tauto. by rewrite IH.
Qed.

Lemma find_version_Some (id : Z) (db : Database) (v : ModelVersion) :
  find_version id db = Some v → v ∈ model_versions db ∧ mv_id v = id.
Proof.
  unfold find_version. intros H. apply head_Some_elem_of in H.
  by apply list_elem_of_filter in H as [? ?].
Qed.

Lemma find_version_None (id : Z) (db : Database) :
  find_version id db = None ↔ id ∉ mv_id <$> model_versions db.
Proof.
  unfold find_version. rewrite head_None. split.
  - intros Hnil Hin. apply list_elem_of_fmap in Hin as (v & -> & Hv).
    assert (Hf : v ∈ filter (λ v0, mv_id v0 = mv_id v) (model_versions db))
      by (by apply list_elem_of_filter).
    rewrite Hnil in Hf. by apply elem_of_nil in Hf.
  - intros Hnot. apply filter_none, Forall_forall. intros v Hv <-.
    apply Hnot, list_elem_of_fmap. by exists v.
Qed.

Lemma activate_versions (id : Z) (db : Database) :
  model_versions (activate id db)
  = (λ v, set_isActive (bool_decide (mv_id v = id)) v) <$> model_versions db.
Proof.
  unfold activate. cbn. rewrite <- list_fmap_compose. apply list_fmap_ext.
  intros _ v _. cbn. by case_bool_decide.
Qed.

(** X13. When setting the active version answers with a version: in the
    stored table a version is flagged active exactly when its id is the
    requested one, so with ids that are unique exactly one version is
    active; no other column of any version, no run, no schedule and no
    metric row is changed; one state is committed; and the version
    served as the active one from then on, and the flags served by the
    listing of versions, agree with the answer. *)
Theorem set_active_version_exclusive
    (env : Env) (id : Z) (w w' : World) (resp : ActiveModelVersionResponse) :
  set_active_model_version env id w = (Ok (inr resp), w') →
  (∀ v, v ∈ model_versions (w_db w') → mv_isActive v = bool_decide (mv_id v = id))
  ∧ set_isActive false <$> model_versions (w_db w')
    = set_isActive false <$> model_versions (w_db w)
  ∧ model_runs (w_db w') = model_runs (w_db w)
  ∧ training_schedule (w_db w') = training_schedule (w_db w)
  ∧ metrics (w_db w') = metrics (w_db w)
  ∧ w_trace w' = w_db w' :: w_trace w
  ∧ (∃ v, amv_active_version resp = Some v ∧ mvr_id v = id ∧ mvr_isActive v = true)
  ∧ amv_active_version (get_active_model_version (w_db w')) = amv_active_version resp
  ∧ (∀ r, r ∈ get_model_versions (w_db w') → mvr_isActive r = bool_decide (mvr_id r = id))
  ∧ (NoDup (mv_id <$> model_versions (w_db w)) →
     length (filter (λ v, mv_isActive v = true) (model_versions (w_db w'))) = 1%nat).
Proof.
  unfold set_active_model_version.
  destruct (find_version id (w_db w)) as [v0|] eqn:Hfind; [|done].
  unfold commit. destruct (db_fault env (w_commits w)); [done|]. cbn.
  destruct (find_version id (activate id (w_db w))) as [v1|] eqn:Hfind1; [|done].
  intros [= <- <-]. cbn [w_db w_trace amv_active_version].
  pose proof (activate_versions id (w_db w)) as Hvers.
  assert (Hflag : ∀ v, v ∈ model_versions (activate id (w_db w)) →
            mv_isActive v = bool_decide (mv_id v = id)).
  { intros v Hv. rewrite Hvers in Hv. by apply list_elem_of_fmap in Hv as (v' & -> & _). }
  assert (Hact : filter (λ v, mv_isActive v = true) (model_versions (activate id (w_db w)))
                 = filter (λ v, mv_id v = id) (model_versions (activate id (w_db w)))).
  { apply filter_agree. apply Forall_forall. intros v Hv. rewrite (Hflag v Hv).
    by rewrite bool_decide_eq_true. }
  apply find_version_Some in Hfind1 as Hv1. destruct Hv1 as [Hv1 Hid1].
  split; [exact Hflag|]. split.
  { rewrite Hvers, <- list_fmap_compose. by apply list_fmap_ext. }
  do 4 (split; [done|]). split.
  { eexists. split; [done|]. cbn. split; [done|]. rewrite (Hflag v1 Hv1).
    by apply bool_decide_eq_true_2. }
  split.
  { unfold get_active_model_version. rewrite Hact.
    unfold find_version in Hfind1. by rewrite Hfind1. }
  split.
  { intros r Hr. unfold get_model_versions in Hr.
    apply list_elem_of_fmap in Hr as (v & -> & Hv).
    rewrite merge_sort_Permutation in Hv. cbn. by apply Hflag. }
  intros Hnodup. rewrite Hact, Hvers.
  apply find_version_Some in Hfind as [Hv0 Hid0].
  clear Hvers Hflag Hact Hfind1 Hv1 Hid1 v1.
  induction (model_versions (w_db w)) as [|x l IH]; [by apply elem_of_nil in Hv0|].
  cbn in Hnodup. apply NoDup_cons in Hnodup as [Hx Hl]. cbn [fmap list_fmap].
  destruct (decide (mv_id x = id)) as [Hxid|Hxid].
  - rewrite filter_cons_True by done. cbn. f_equal.
    apply length_zero_iff_nil, filter_none, Forall_forall.
    intros v Hv Hvid. apply list_elem_of_fmap in Hv as (v' & -> & Hv'). cbn in Hvid.
    apply Hx, list_elem_of_fmap. exists v'. split; [congruence | done].
  - rewrite filter_cons_False by done. apply IH; [|done].
    apply elem_of_cons in Hv0 as [->|Hv0]; [done | done].
Qed.

Lemma set_active_version_exclusive_witness :
  ∃ w' resp,
    set_active_model_version sample_env 2 sample_versions_world = (Ok (inr resp), w')
    ∧ length (filter (λ v, mv_isActive v = true) (model_versions (w_db w'))) = 1%nat
    ∧ amv_active_version (get_active_model_version (w_db w')) = amv_active_version resp.
Proof.
  destruct (set_active_model_version sample_env 2 sample_versions_world)
    as [[[e|resp]|e] w'] eqn:H;
    [vm_compute in H; discriminate| |vm_compute in H; discriminate].
  exists w', resp. split; [reflexivity|].
  pose proof (set_active_version_exclusive sample_env 2 sample_versions_world w' resp H)
    as (_ & _ & _ & _ & _ & _ & _ & Hget & _ & Hone).
  split; [|exact Hget]. apply Hone. apply (bool_decide_unpack _). vm_compute. reflexivity.
Defined.

(** X14. Setting the active version is all or nothing. It answers not
    found exactly when no stored version has the requested id, and with
    a version exactly when one has and the commit is not refused; and
    whenever it does not answer with a version, the store is what it was
    and nothing has been committed: the flags that were set stay set. *)
Theorem set_active_all_or_nothing (env : Env) (id : Z) (w : World) :
  ((set_active_model_version env id w).1 = Ok (inl (version_not_found id))
   ↔ id ∉ mv_id <$> model_versions (w_db w))
  ∧ ((∃ resp, (set_active_model_version env id w).1 = Ok (inr resp))
     ↔ id ∈ mv_id <$> model_versions (w_db w) ∧ db_fault env (w_commits w) = None)
  ∧ ((∀ resp, (set_active_model_version env id w).1 ≠ Ok (inr resp)) →
     w_db (set_active_model_version env id w).2 = w_db w
     ∧ w_trace (set_active_model_version env id w).2 = w_trace w).
Proof.
  pose proof (find_version_None id (w_db w)) as Hnone.
  unfold set_active_model_version.
  destruct (find_version id (w_db w)) as [v0|] eqn:Hfind.
  - assert (Hin : id ∈ mv_id <$> model_versions (w_db w)).
    { apply find_version_Some in Hfind as [? <-]. apply list_elem_of_fmap. by eexists. }
    assert (Hfind1 : is_Some (find_version id (activate id (w_db w)))).
    { destruct (find_version id (activate id (w_db w))) eqn:H1; [by eexists|].
      apply find_version_None in H1. exfalso. apply H1.
      rewrite activate_versions, <- list_fmap_compose.
      by rewrite (list_fmap_ext _ mv_id (model_versions (w_db w))). }
    destruct Hfind1 as [v1 Hfind1].
    unfold commit. destruct (db_fault env (w_commits w)) as [msg|]; cbn.
    + split; [split; [done | intros Hnot; by destruct Hnot]|].
      split; [split; [by intros [? ?] | by intros [_ ?]]|]. done.
    + rewrite Hfind1. cbn.
      split; [split; [done | intros Hnot; by destruct Hnot]|].
      split; [split; [done | by eexists]|].
      intros Hno. by destruct (Hno _ eq_refl).
  - cbn. split; [split; [intros _; by apply Hnone | done]|].
    split; [split; [by intros [? ?] | intros [Hin _]; by apply Hnone in Hin]|]. done.
Qed.

(** ** Metrics endpoint *)

(** X15. The metrics endpoint answers not found exactly when no stored
    version has the requested id, also when metric rows are stored for
    that id. Otherwise it serves the tag of a stored version with that
    id and the name, value and timestamp of every stored metric row
    attached to that id, each once and nothing else, none before a
    newer one. *)
Theorem model_metrics_of_version (version_id : Z) (db : Database) :
  (get_model_metrics version_id db = inl (version_not_found version_id)
   ↔ version_id ∉ mv_id <$> model_versions db)
  ∧ (∀ resp, get_model_metrics version_id db = inr resp →
     mrs_version_id resp = version_id
     ∧ (∃ v, v ∈ model_versions db ∧ mv_id v = version_id
             ∧ mrs_version_tag resp = Some (mv_version_tag v))
     ∧ ∃ rows, mrs_metrics resp = MetricResponse_of <$> rows
               ∧ rows ≡ₚ filter (λ m, m_model_version_id m = version_id) (metrics db)
               ∧ Sorted timestamp_ge rows).
Proof.
  pose proof (find_version_None version_id db) as Hnone.
  unfold get_model_metrics.
  destruct (find_version version_id db) as [v|] eqn:Hfind; split.
  - split; [done|]. intros Hnot. apply Hnone in Hnot. done.
  - intros resp [= <-]. cbn. split; [done|]. split.
    + apply find_version_Some in Hfind as [? ?]. by exists v.
    + eexists. split; [done|]. split; [apply merge_sort_Permutation|].
      apply Sorted_merge_sort. apply _.
  - split; [intros _; by apply Hnone | done].
  - by intros resp.
Qed.

(** ** Schedule endpoints *)

Lemma flushed_update_spec (env : Env) (t : nat) (old : ScheduleRow)
    (columns : TrainingSchedule) (now : datetime) :
  sr_id (flushed_update env t old columns now).1 = sr_id old
  ∧ sr_schedule (flushed_update env t old columns now).1 = columns
  ∧ sr_created_at (flushed_update env t old columns now).1 = sr_created_at old.
Proof.
  unfold flushed_update. repeat case_bool_decide; cbn; try done.
Qed.

Lemma head_replace_row (schedule old : ScheduleRow) (rows : list ScheduleRow) :
  head rows = Some old → sr_id schedule = sr_id old →
  head (replace_row schedule rows) = Some schedule
  ∧ length (replace_row schedule rows) = length rows.
Proof.
  intros Hhead Hid. unfold replace_row. rewrite length_fmap. split; [|done].
  destruct rows as [|row rows]; [done|]. cbn in *. simplify_eq.
  by rewrite bool_decide_eq_true_2.
Qed.

(** X16. On a store without a schedule, an update that gives a
    non-empty cron expression creates the schedule with that expression
    as it is, valid or not, when the commit is not refused: the answer
    and the stored row hold the expression, the pause flag of the
    request or false, and the hyperparameters of the request. When the
    expression is not a valid one, sending the same request again is
    answered with the validation error and leaves the store as it is:
    the expression is checked on update only. *)
Theorem schedule_creation_skips_validation
    (env : Env) (request : TrainingScheduleUpdate) (st : ScheduleStore)
    (cron_expression : string) :
  ss_rows st = [] →
  tsu_cron_expression request = Some cron_expression → cron_expression ≠ EmptyString →
  db_fault env (ss_commits st) = None →
  ∃ resp st' row,
    update_training_schedule env request st = (Ok (inr resp), st')
    ∧ ss_rows st' = [row] ∧ sr_id row = 1
    ∧ sr_schedule row = tsr_schedule resp
    ∧ get_training_schedule st' = inr resp
    ∧ ts_cron_expression (tsr_schedule resp) = cron_expression
    ∧ ts_is_paused (tsr_schedule resp) = default false (tsu_is_paused request)
    ∧ ts_rank (tsr_schedule resp) = tsu_rank request
    ∧ ts_regParam (tsr_schedule resp) = tsu_regParam request
    ∧ ts_alpha (tsr_schedule resp) = tsu_alpha request
    ∧ ts_maxIter (tsr_schedule resp) = tsu_maxIter request
    ∧ (validate_cron_expression cron_expression = false →
       update_training_schedule env request st' = (Ok (inl invalid_cron), st')).
Proof.
  intros Hrows Hcron Hne Hfault.
  unfold update_training_schedule at 1. rewrite Hrows, Hcron. cbn.
  rewrite bool_decide_eq_false_2 by done.
  unfold commit_schedule. rewrite Hfault.
  eexists _, _, _. split; [reflexivity|]. cbn.
  do 10 (split; [reflexivity|]).
  intros Hbad. unfold update_training_schedule. cbn. rewrite Hcron. cbn.
  rewrite bool_decide_eq_false_2 by done. by rewrite Hbad.
Qed.

Lemma schedule_creation_skips_validation_witness :
  ∃ resp st',
    update_training_schedule sample_env (cron_only "whenever") empty_schedule_store
    = (Ok (inr resp), st')
    ∧ ts_cron_expression (tsr_schedule resp) = "whenever"
    ∧ update_training_schedule sample_env (cron_only "whenever") st'
      = (Ok (inl invalid_cron), st').
Proof.
  destruct (schedule_creation_skips_validation sample_env (cron_only "whenever")
              empty_schedule_store "whenever")
    as (resp & st' & row & Hupd & _ & _ & _ & _ & Hcron & _ & _ & _ & _ & _ & Hagain).
  - reflexivity.
  - reflexivity.
  - discriminate.
  - reflexivity.
  - exists resp, st'. split; [exact Hupd|]. split; [exact Hcron|].
    apply Hagain. reflexivity.
Defined.

(** X17. Whenever an update of an existing schedule answers with a
    schedule: the row keeps its id and creation time; each column holds
    the value of the request where the request gives one (for the cron
    expression: a non-empty one, which then is a valid one) and the
    stored value otherwise, so a hyperparameter that is set can be
    changed but never be cleared; the table has as many rows as before,
    the answer is its first row, and reading the schedule afterwards
    gives the same answer. *)
Theorem schedule_update_is_partial
    (env : Env) (request : TrainingScheduleUpdate) (st st' : ScheduleStore)
    (old : ScheduleRow) (resp : TrainingScheduleResponse) :
  head (ss_rows st) = Some old →
  update_training_schedule env request st = (Ok (inr resp), st') →
  tsr_id resp = sr_id old ∧ tsr_created_at resp = sr_created_at old
  ∧ tsr_schedule resp = assigned_columns request (sr_schedule old)
  ∧ (ts_cron_expression (tsr_schedule resp) = ts_cron_expression (sr_schedule old)
     ∨ (tsu_cron_expression request = Some (ts_cron_expression (tsr_schedule resp))
        ∧ validate_cron_expression (ts_cron_expression (tsr_schedule resp)) = true))
  ∧ (is_Some (ts_rank (sr_schedule old)) → is_Some (ts_rank (tsr_schedule resp)))
  ∧ (is_Some (ts_regParam (sr_schedule old)) → is_Some (ts_regParam (tsr_schedule resp)))
  ∧ (is_Some (ts_alpha (sr_schedule old)) → is_Some (ts_alpha (tsr_schedule resp)))
  ∧ (is_Some (ts_maxIter (sr_schedule old)) → is_Some (ts_maxIter (tsr_schedule resp)))
  ∧ length (ss_rows st') = length (ss_rows st)
  ∧ get_training_schedule st' = inr resp.
Proof.
  intros Hhead. unfold update_training_schedule. rewrite Hhead.
  destruct (match truthy_str (tsu_cron_expression request) with
            | Some c => negb (validate_cron_expression c) | None => false end) eqn:Hvalid;
    [done|].
  pose proof (flushed_update_spec env (S (ss_tick st)) old
                (assigned_columns request (sr_schedule old)) (clock env (ss_tick st)))
    as (Hid & Hcols & Hcreated).
  destruct (flushed_update _ _ _ _ _) as [schedule t]. cbn [fst] in *.
  unfold commit_schedule. destruct (db_fault env (ss_commits st)); [done|].
  intros [= <- <-]. cbn [tsr_id tsr_created_at tsr_schedule TrainingScheduleResponse_of ss_rows].
  destruct (head_replace_row schedule old (ss_rows st) Hhead Hid) as [Hhead' Hlen].
  split; [done|]. split; [done|]. split; [done|]. rewrite Hcols. split.
  { cbn. destruct (truthy_str (tsu_cron_expression request)) as [c|] eqn:Hc; cbn; [|by left].
    right. unfold truthy_str in Hc. destruct (tsu_cron_expression request) as [c'|]; [|done].
    case_bool_decide; simplify_eq. split; [done|]. by apply negb_false_iff. }
  cbn. split. { intros [x Hx]. rewrite Hx. destruct (tsu_rank request); by eexists. }
  split. { intros [x Hx]. rewrite Hx. destruct (tsu_regParam request); by eexists. }
  split. { intros [x Hx]. rewrite Hx. destruct (tsu_alpha request); by eexists. }
  split. { intros [x Hx]. rewrite Hx. destruct (tsu_maxIter request); by eexists. }
  split; [done|]. unfold get_training_schedule. cbn [ss_rows]. by rewrite Hhead'.
Qed.

Lemma schedule_update_is_partial_witness :
  ∃ resp st',
    update_training_schedule sample_env
      {| tsu_cron_expression := Some EmptyString; tsu_is_paused := None;
         tsu_rank := None; tsu_regParam := Some (1 # 10)%Q; tsu_alpha := None;
         tsu_maxIter := None |} sample_schedule_store
    = (Ok (inr resp), st')
    ∧ ts_cron_expression (tsr_schedule resp) = "0 0 * * *"
    ∧ is_Some (ts_rank (tsr_schedule resp)).
Proof.
  set (request := {| tsu_cron_expression := Some EmptyString; tsu_is_paused := None;
                     tsu_rank := None; tsu_regParam := Some (1 # 10)%Q; tsu_alpha := None;
                     tsu_maxIter := None |}).
  destruct (update_training_schedule sample_env request sample_schedule_store)
    as [[[e|resp]|e] st'] eqn:H;
    [vm_compute in H; discriminate| |vm_compute in H; discriminate].
  exists resp, st'. split; [reflexivity|].
  destruct (schedule_update_is_partial sample_env request sample_schedule_store st'
              _ resp eq_refl H) as (_ & _ & Hcols & _ & Hrank & _).
  split; [by rewrite Hcols | apply Hrank; by eexists].
Defined.

(** X18. Pausing and resuming. Both answer not found, and leave the
    store as it is, exactly when no schedule is stored. On a stored
    schedule, when no commit is refused, pausing answers with the
    schedule paused and every other column as stored, and resuming
    after it answers with the schedule not paused and every other
    column as stored, with the id and the creation time of the row;
    and reading the schedule after either gives the answer again. *)
Theorem pause_then_resume
    (env : Env) (st : ScheduleStore) :
  (ss_rows st = [] ↔ pause_schedule env st = (Ok (inl schedule_not_configured), st))
  ∧ (ss_rows st = [] ↔ resume_schedule env st = (Ok (inl schedule_not_configured), st))
  ∧ ∀ old, head (ss_rows st) = Some old →
      db_fault env (ss_commits st) = None → db_fault env (S (ss_commits st)) = None →
      ∃ r1 st1 r2 st2,
        pause_schedule env st = (Ok (inr r1), st1)
        ∧ tsr_schedule r1 = with_is_paused true (sr_schedule old)
        ∧ get_training_schedule st1 = inr r1
        ∧ resume_schedule env st1 = (Ok (inr r2), st2)
        ∧ tsr_schedule r2 = with_is_paused false (sr_schedule old)
        ∧ get_training_schedule st2 = inr r2
        ∧ tsr_id r1 = sr_id old ∧ tsr_id r2 = sr_id old
        ∧ tsr_created_at r1 = sr_created_at old ∧ tsr_created_at r2 = sr_created_at old
        ∧ length (ss_rows st2) = length (ss_rows st).
Proof.
  assert (Hnone : ∀ paused,
            ss_rows st = [] ↔ set_is_paused env paused st = (Ok (inl schedule_not_configured), st)).
  { intros paused. unfold set_is_paused. destruct (ss_rows st) as [|old rows] eqn:Hrows; cbn.
    - done.
    - split; [done|]. destruct (flushed_update _ _ _ _ _) as [schedule t].
      unfold commit_schedule. by destruct (db_fault env (ss_commits st)). }
  assert (Hstep : ∀ paused st0 old0,
            head (ss_rows st0) = Some old0 → db_fault env (ss_commits st0) = None →
            ∃ r st1 new,
              set_is_paused env paused st0 = (Ok (inr r), st1)
              ∧ r = TrainingScheduleResponse_of new
              ∧ head (ss_rows st1) = Some new
              ∧ sr_schedule new = with_is_paused paused (sr_schedule old0)
              ∧ sr_id new = sr_id old0 ∧ sr_created_at new = sr_created_at old0
              ∧ length (ss_rows st1) = length (ss_rows st0)
              ∧ ss_commits st1 = S (ss_commits st0)).
  { intros paused st0 old0 Hhead Hfault. unfold set_is_paused. rewrite Hhead.
    pose proof (flushed_update_spec env (S (ss_tick st0)) old0
                  (with_is_paused paused (sr_schedule old0)) (clock env (ss_tick st0)))
      as (Hid & Hcols & Hcreated).
    destruct (flushed_update _ _ _ _ _) as [schedule t]. cbn [fst] in *.
    unfold commit_schedule. rewrite Hfault.
    destruct (head_replace_row schedule old0 (ss_rows st0) Hhead Hid) as [Hhead' Hlen].
    by eexists _, _, schedule. }
  split; [apply Hnone|]. split; [apply Hnone|].
  intros old Hhead Hf1 Hf2.
  destruct (Hstep true st old Hhead Hf1)
    as (r1 & st1 & new1 & Hp & -> & Hh1 & Hc1 & Hi1 & Hcr1 & Hl1 & Hco1).
  rewrite <- Hco1 in Hf2.
  destruct (Hstep false st1 new1 Hh1 Hf2)
    as (r2 & st2 & new2 & Hr & -> & Hh2 & Hc2 & Hi2 & Hcr2 & Hl2 & _).
  exists (TrainingScheduleResponse_of new1), st1, (TrainingScheduleResponse_of new2), st2.
  split; [exact Hp|]. split; [exact Hc1|].
  split; [unfold get_training_schedule; by rewrite Hh1|].
  split; [exact Hr|]. split; [cbn; by rewrite Hc2, Hc1|].
  split; [unfold get_training_schedule; by rewrite Hh2|].
  cbn. repeat split; congruence.
Qed.

Lemma pause_then_resume_witness :
  ∃ r1 st1 r2 st2,
    pause_schedule sample_env sample_schedule_store = (Ok (inr r1), st1)
    ∧ ts_is_paused (tsr_schedule r1) = true
    ∧ resume_schedule sample_env st1 = (Ok (inr r2), st2)
    ∧ ts_is_paused (tsr_schedule r2) = false
    ∧ ts_rank (tsr_schedule r2) = Some 20.
Proof.
  destruct (pause_then_resume sample_env sample_schedule_store) as (_ & _ & H).
  destruct (H _ eq_refl eq_refl eq_refl)
    as (r1 & st1 & r2 & st2 & Hp & Hc1 & _ & Hr & Hc2 & _).
  exists r1, st1, r2, st2. split; [exact Hp|]. split; [by rewrite Hc1|].
  split; [exact Hr|]. split; by rewrite Hc2.
Defined.

(** ** Cron expressions: what the validation accepts *)















(** ** Run lookup after a trigger *)

Lemma trigger_manual_run_ok
    (env : Env) (uuid : string) (request : ModelRunCreate) (w w' : World)
    (new_run : ModelRun) (hp : Hyperparameters) :
  trigger_manual_run env uuid request w = (Ok (new_run, hp), w') →
  ∃ runs',
    model_runs (w_db w') = runs' ++ [new_run]
    ∧ r_id <$> runs' = r_id <$> model_runs (w_db w)
    ∧ r_run_id <$> runs' = r_run_id <$> model_runs (w_db w)
    ∧ r_id new_run ∉ r_id <$> runs'
    ∧ r_run_id new_run ∉ r_run_id <$> runs'
    ∧ r_id new_run = uuid ∧ r_status new_run = "queued" ∧ r_logs new_run = None
    ∧ r_triggered_by new_run = TriggerType_value (triggered_by request)
    ∧ r_rank new_run = Some (h_rank hp) ∧ r_regParam new_run = Some (h_regParam hp)
    ∧ r_alpha new_run = Some (h_alpha hp) ∧ r_maxIter new_run = Some (h_maxIter hp).
Proof.
  unfold trigger_manual_run.
  pose proof (cancel_existing_identity env (model_runs (w_db w)) (w_tick w)) as Hid.
  destruct (cancel_existing env (w_tick w) (model_runs (w_db w))) as [runs' t'].
  cbn [fst] in Hid.
  assert (Hids : ∀ runs, run_identity <$> runs = run_identity <$> model_runs (w_db w) →
            r_id <$> runs = r_id <$> model_runs (w_db w)
            ∧ r_run_id <$> runs = r_run_id <$> model_runs (w_db w)).
  { intros runs H. split.
    - change r_id with ((λ i : _ * _ * _ * _ * _ * _, i.1.1.1.1.1) ∘ run_identity).
      by rewrite !list_fmap_compose, H.
    - change r_run_id with ((λ i : _ * _ * _ * _ * _ * _, i.1.1.1.1.2) ∘ run_identity).
      by rewrite !list_fmap_compose, H. }
  assert (Hins : ∀ runs nr db', run_identity <$> runs = run_identity <$> model_runs (w_db w) →
            insert_run nr (set_model_runs (w_db w) runs) = inr db' →
            model_runs db' = runs ++ [nr]
            ∧ r_id <$> runs = r_id <$> model_runs (w_db w)
            ∧ r_run_id <$> runs = r_run_id <$> model_runs (w_db w)
            ∧ r_id nr ∉ r_id <$> runs ∧ r_run_id nr ∉ r_run_id <$> runs).
  { intros runs nr db' H. unfold insert_run, run_id_exists. cbn.
    repeat case_bool_decide; try done. intros [= <-]. cbn.
    destruct (Hids runs H) as [? ?]. done. }
  case_bool_decide as Hact.
  - cbn. unfold commit. cbn. destruct (db_fault env (w_commits w)); [done|].
    set (nr := new_model_run _ _ _ _ _ _ _).
    destruct (insert_run nr (w_db w)) as [e|db'] eqn:Hi; [done|].
    intros [= <- <- <-]. cbn.
    destruct (Hins (model_runs (w_db w)) nr db' eq_refl) as (H1 & H2 & H3 & H4 & H5).
    { by destruct (w_db w). }
    exists (model_runs (w_db w)). by repeat split.
  - unfold commit at 1. cbn. destruct (db_fault env (w_commits w)); [done|].
    cbn. unfold commit. cbn. destruct (db_fault env (S (w_commits w))); [done|].
    set (nr := new_model_run _ _ _ _ _ _ _).
    destruct (insert_run nr _) as [e|db'] eqn:Hi; [done|].
    intros [= <- <- <-]. cbn.
    destruct (Hins runs' nr db' Hid Hi) as (H1 & H2 & H3 & H4 & H5).
    exists runs'. by repeat split.
Qed.

Lemma find_run_by_last (key : string) (runs : list ModelRun) (new_run : ModelRun)
    (db : Database) :
  model_runs db = runs ++ [new_run] →
  key ∉ r_id <$> runs → key ∉ r_run_id <$> runs →
  r_id new_run = key ∨ r_run_id new_run = key →
  find_run_by key db = Some new_run.
Proof.
  intros Hdb Hid Halias Hkey. unfold find_run_by. rewrite Hdb, filter_app.
  rewrite (filter_none _ runs).
  - by rewrite filter_cons_True.
  - apply Forall_forall. intros r Hr [<-|<-].
    + apply Hid, list_elem_of_fmap. by exists r.
    + apply Halias, list_elem_of_fmap. by exists r.
Qed.

(** X20. The run that a trigger answers with can be fetched at once,
    by its id and by its alias, with the same answer: a queued run with
    the hyperparameters that were resolved, no end time and no log; and
    its log is served as the empty string of size 0. This holds when no
    run stored before uses the new id as its alias or the new alias as
    its id. *)
Theorem created_run_can_be_fetched
    (env : Env) (uuid : string) (request : ModelRunCreate) (w w' : World)
    (new_run : ModelRun) (hp : Hyperparameters) :
  trigger_manual_run env uuid request w = (Ok (new_run, hp), w') →
  (∀ r, r ∈ model_runs (w_db w) → r_run_id r ≠ uuid ∧ r_id r ≠ r_run_id new_run) →
  ∃ resp,
    get_single_model_run uuid (w_db w') = Ok (inr resp)
    ∧ get_single_model_run (r_run_id new_run) (w_db w') = Ok (inr resp)
    ∧ mrr_id resp = uuid ∧ mrr_run_id resp = r_run_id new_run
    ∧ mrr_status resp = "queued"
    ∧ mrr_triggered_by resp = TriggerType_value (triggered_by request)
    ∧ mrr_end_time resp = r_end_time new_run ∧ mrr_logs resp = None
    ∧ mrr_hyper_parameters resp
      = Some (Some (h_rank hp), Some (h_regParam hp), Some (h_alpha hp), Some (h_maxIter hp))
    ∧ get_run_logs uuid (w_db w')
      = inr {| rl_run_id := r_run_id new_run; rl_logs := EmptyString; rl_log_size := 0 |}
    ∧ get_run_logs (r_run_id new_run) (w_db w') = get_run_logs uuid (w_db w').
Proof.
  intros Htrig Hfresh.
  destruct (trigger_manual_run_ok env uuid request w w' new_run hp Htrig)
    as (runs' & Hruns & Hids & Haliases & Hid & Halias & Huuid & Hst & Hlogs & Htb
        & Hrank & Hreg & Halpha & Hiter).
  assert (Hcross1 : uuid ∉ r_run_id <$> runs').
  { rewrite Haliases. intros Hin. apply list_elem_of_fmap in Hin as (r & Heq & Hr).
    by destruct (Hfresh r Hr) as [? _]. }
  assert (Hcross2 : r_run_id new_run ∉ r_id <$> runs').
  { rewrite Hids. intros Hin. apply list_elem_of_fmap in Hin as (r & Heq & Hr).
    by destruct (Hfresh r Hr) as [_ ?]. }
  assert (Hf1 : find_run_by uuid (w_db w') = Some new_run).
  { apply (find_run_by_last uuid runs'); try done; [by rewrite <- Huuid | by left]. }
  assert (Hf2 : find_run_by (r_run_id new_run) (w_db w') = Some new_run).
  { apply (find_run_by_last _ runs'); try done. by right. }
  assert (Hresp : ∃ resp, ModelRunResponse_of new_run = Ok resp
            ∧ mrr_id resp = r_id new_run ∧ mrr_run_id resp = r_run_id new_run
            ∧ mrr_status resp = r_status new_run
            ∧ mrr_triggered_by resp = r_triggered_by new_run
            ∧ mrr_end_time resp = r_end_time new_run ∧ mrr_logs resp = r_logs new_run
            ∧ mrr_hyper_parameters resp
              = Some (r_rank new_run, r_regParam new_run, r_alpha new_run, r_maxIter new_run)).
  { unfold ModelRunResponse_of. rewrite Hst, Htb, Hrank.
    rewrite bool_decide_eq_true_2 by (apply (bool_decide_unpack _); reflexivity).
    rewrite bool_decide_eq_true_2
      by (destruct (triggered_by request); apply (bool_decide_unpack _); reflexivity).
    eexists. split; [reflexivity|]. cbn. by repeat split. }
  destruct Hresp as (resp & Hresp & H1 & H2 & H3 & H4 & H5 & H6 & H7).
  exists resp. unfold get_single_model_run, get_run_logs. rewrite Hf1, Hf2, Hresp, Hlogs.
  cbn. repeat split; congruence.
Qed.

Lemma created_run_can_be_fetched_witness :
  ∃ new_run hp w' resp,
    trigger_manual_run sample_env "run-1" manual_request
      (sample_world [sample_run "run-0" "manual__x" "running"]) = (Ok (new_run, hp), w')
    ∧ get_single_model_run "run-1" (w_db w') = Ok (inr resp)
    ∧ mrr_status resp = "queued".
Proof.
  destruct (trigger_manual_run sample_env "run-1" manual_request
              (sample_world [sample_run "run-0" "manual__x" "running"]))
    as [[[new_run hp]|e] w'] eqn:H; [|vm_compute in H; discriminate].
  destruct (created_run_can_be_fetched sample_env "run-1" manual_request _ w' new_run hp H)
    as (resp & Hget & _ & _ & _ & Hst & _).
  - intros r Hr. apply list_elem_of_singleton in Hr as ->.
    vm_compute in H. injection H as <- _ _. split; discriminate.
  - exists new_run, hp, w', resp. split; [reflexivity|]. split; [exact Hget | exact Hst].
Defined.

(** ** Statistics *)

Ltac status_absurd r :=
  exfalso;
  first
    [ contradiction
    | congruence
    | match goal with
      | Hn : r_status r ∉ run_states, He : r_status r = _ |- _ =>
          apply Hn; rewrite He; apply (bool_decide_unpack _); reflexivity
      end ].

Lemma count_status_partition (all_runs : list ModelRun) :
  count_status "success" all_runs + count_status "failed" all_runs
  + count_status "running" all_runs + count_status "queued" all_runs
  + count_status "cancelled" all_runs
  + Z.of_nat (length (filter (λ r, r_status r ∉ run_states) all_runs))
  = Z.of_nat (length all_runs).
Proof.
  unfold count_status. induction all_runs as [|r l IH]; [done|].
  assert (Hcases : r_status r = "success" ∨ r_status r = "failed" ∨ r_status r = "running"
                   ∨ r_status r = "queued" ∨ r_status r = "cancelled"
                   ∨ r_status r ∉ run_states).
  { destruct (decide (r_status r ∈ run_states)) as [Hin|Hout]; [|by do 5 right].
    unfold run_states in Hin. rewrite !elem_of_cons, elem_of_nil in Hin. tauto. }
  rewrite !filter_cons.
  destruct Hcases as [H|[H|[H|[H|[H|H]]]]];
    repeat case_decide; cbn [length]; first [lia | status_absurd r].
Qed.

Lemma listing_total_is_count (st : string) (page limit : Z) (sort order : string)
    (db : Database) (resp : ModelRunListResponse) :
  st ≠ EmptyString →
  get_all_model_runs (Some st) None page limit sort order db = inr resp →
  pg_total resp = count_status st (model_runs db).
Proof.
  intros Hne Hlist.
  apply get_all_model_runs_inv in Hlist as (_ & _ & sel & Hsel & _ & Htotal & _).
  apply apply_filters_spec in Hsel. rewrite Htotal, Hsel. unfold count_status.
  do 2 f_equal. apply list_filter_iff. intros r. unfold passes_filters. cbn.
  rewrite bool_decide_eq_false_2 by done.
  by rewrite andb_true_r, bool_decide_eq_true.
Qed.

(** X21. Whenever the statistics are served: the total is the number
    of stored runs; the counts of success, failed, running and queued
    are the totals that the listing reports under the same status
    filter; the five counts and the number of runs whose status is none
    of the five states add up to the total; the last run is missing
    exactly when no run is stored, and otherwise it is a stored run
    that no stored run started after; and no next scheduled run is
    reported, whether the schedule is paused or not. *)
Theorem statistics_are_consistent
    (fl : FloatOps) (db : Database) (stats : TrainingStatistics) :
  get_training_statistics fl db = Ok stats →
  st_total_runs stats = Z.of_nat (length (model_runs db))
  ∧ (∀ st count page limit sort order resp,
       (st, count) ∈ [("success", st_success_count stats); ("failed", st_failed_count stats);
                      ("running", st_running_count stats); ("queued", st_queued_count stats)] →
       get_all_model_runs (Some st) None page limit sort order db = inr resp →
       pg_total resp = count)
  ∧ st_success_count stats + st_failed_count stats + st_running_count stats
    + st_queued_count stats + st_cancelled_count stats
    + Z.of_nat (length (filter (λ r, r_status r ∉ run_states) (model_runs db)))
    = st_total_runs stats
  ∧ (st_last_run stats = None ↔ model_runs db = [])
  ∧ (∀ last, st_last_run stats = Some last →
       ∃ r, r ∈ model_runs db ∧ ModelRunResponse_of r = Ok last
            ∧ ∀ r', r' ∈ model_runs db → r_start_time r' ≤ r_start_time r)
  ∧ st_next_scheduled_run stats = None.
Proof.
  unfold get_training_statistics.
  pose proof (order_by_Permutation Desc (model_runs db)) as Hperm.
  pose proof (order_by_sorted Desc (model_runs db)) as Hsorted.
  change (Sorted start_time_ge (order_by Desc (model_runs db))) in Hsorted.
  destruct (order_by Desc (model_runs db)) as [|first rest] eqn:Hord; cbn [head].
  - intros [= <-]. cbn. apply Permutation_nil_l in Hperm.
    split; [done|]. split.
    { intros st count page limit sort order resp' Hin Hlist.
      rewrite !elem_of_cons, elem_of_nil in Hin.
      destruct Hin as [[= -> ->]|[[= -> ->]|[[= -> ->]|[[= -> ->]|[]]]]];
        by apply listing_total_is_count in Hlist. }
    split; [apply count_status_partition|]. split; [done|]. split; [done|].
    by destruct (head (training_schedule db)) as [s|]; [destruct (ts_is_paused s)|].
  - destruct (ModelRunResponse_of first) as [resp|e] eqn:Hresp; [|done].
    intros [= <-]. cbn.
    assert (Hfirst : first ∈ model_runs db).
    { rewrite <- Hperm. apply list_elem_of_here. }
    split; [done|]. split.
    { intros st count page limit sort order resp' Hin Hlist.
      rewrite !elem_of_cons, elem_of_nil in Hin.
      destruct Hin as [[= -> ->]|[[= -> ->]|[[= -> ->]|[[= -> ->]|[]]]]];
        by apply listing_total_is_count in Hlist. }
    split; [apply count_status_partition|]. split.
    { split; [done|]. intros Hnil. rewrite Hnil in Hfirst. by apply elem_of_nil in Hfirst. }
    split.
    { intros last [= <-]. exists first. split; [done|]. split; [done|].
      intros r' Hr'. rewrite <- Hperm in Hr'.
      apply elem_of_cons in Hr' as [->|Hr']; [done|].
      apply Sorted_StronglySorted in Hsorted; [|intros x y z; unfold start_time_ge; lia].
      apply StronglySorted_inv in Hsorted as [_ Hall]. rewrite Forall_forall in Hall.
      by apply Hall. }
    by destruct (head (training_schedule db)) as [s|]; [destruct (ts_is_paused s)|].
Qed.

Lemma statistics_are_consistent_witness :
  ∃ stats,
    get_training_statistics exact_floats
      {| model_runs := [sample_run "a" "r1" "success"; sample_run "b" "r2" "failed";
                        sample_run "c" "r3" "success"];
         training_schedule := []; model_versions := []; metrics := [] |} = Ok stats
    ∧ st_total_runs stats = 3 ∧ st_next_scheduled_run stats = None.
Proof.
  set (db := {| model_runs := _ |}).
  destruct (get_training_statistics exact_floats db) as [stats|e] eqn:H;
    [|vm_compute in H; discriminate].
  exists stats. split; [reflexivity|].
  destruct (statistics_are_consistent exact_floats db stats H) as (Ht & _ & _ & _ & _ & Hn).
  split; [exact Ht | exact Hn].
Defined.
